(** * Light-time solution of Tudat: a shallow embedding

    The development follows
    [include/tudat/astro/observation_models/lightTimeSolution.h]:
    the convergence criteria, the wrapper of a correction function
    [LightTimeCorrectionFunctionWrapper], the single-leg iterative solver
    [LightTimeCalculator] and the chain solver
    [MultiLegLightTimeCalculator].

    The C++ code is a template over [ObservationScalarType] and [TimeType].
    The embedding is generic over one scalar type given by the class
    [Scalar] (both template parameters and [double] are instantiated with
    it, which is the default instantiation [<double, double>]).  The
    instance the statements are evaluated on is the one the code runs on,
    IEEE binary64 numbers ([float]); the general statements hold for every
    instance and assume no law of arithmetic. *)

From Stdlib Require Import List ZArith Lia Bool.
From Stdlib Require Import Floats.
Import ListNotations.
Local Open Scope Z_scope.

(** ** Scalars *)

(** The arithmetic the header uses on its scalar type.  [getSpeedOfLight]
    (physicalConstants.h) and [getDefaultLightTimeTolerance] (declared at
    lines 39-40, specialised per scalar type in a translation unit) are only
    declared in the sources at hand: they are fields of the instance. *)
Class Scalar (T : Type) : Type := {
  s_zero : T;
  s_nan : T;
  s_add : T -> T -> T;
  s_sub : T -> T -> T;
  s_mul : T -> T -> T;
  s_div : T -> T -> T;
  s_sqrt : T -> T;
  s_fabs : T -> T;
  s_ltb : T -> T -> bool;
  s_eqb : T -> T -> bool;
  s_isnan : T -> bool;
  getSpeedOfLight : T;
  getDefaultLightTimeTolerance : T
}.

Declare Scope scalar_scope.
Delimit Scope scalar_scope with sc.
Infix "+" := s_add : scalar_scope.
Infix "-" := s_sub : scalar_scope.
Infix "*" := s_mul : scalar_scope.
Infix "/" := s_div : scalar_scope.
Infix "<?" := s_ltb : scalar_scope.
Infix "=?" := s_eqb : scalar_scope.

(** Unsigned arithmetic of [unsigned int] and [std::size_t]. *)
Definition uint32 (x : Z) : Z := x mod 2 ^ 32.
Definition size_t (x : Z) : Z := x mod 2 ^ 64.
Definition size {A : Type} (v : list A) : Z := Z.of_nat (length v).

Section Model.

Context {T : Type} {ST : Scalar T}.

(** ** States *)

(** [Eigen::Matrix< ObservationScalarType, 6, 1 >]: position and velocity. *)
Record State : Type := mkState {
  px : T; py : T; pz : T;
  vx : T; vy : T; vz : T
}.

Definition Position : Type := (T * T * T)%type.

(** [StateType::Constant( v )] *)
Definition State_Constant (v : T) : State := mkState v v v v v v.

(** [receiverState - transmitterState] *)
Definition state_sub (a b : State) : State :=
  mkState (px a - px b)%sc (py a - py b)%sc (pz a - pz b)%sc
          (vx a - vx b)%sc (vy a - vy b)%sc (vz a - vz b)%sc.

(** [.segment( 0, 3 )] *)
Definition segment_0_3 (s : State) : Position := (px s, py s, pz s).

(** [.norm( )] of a three-vector *)
Definition norm (p : Position) : T :=
  let '(x, y, z) := p in s_sqrt (x * x + y * y + z * z)%sc.

(** ** Effects: what a call prints on [std::cerr], what it throws *)

Inductive LogEntry : Type :=
| WarningLightTimeUnconverged (residual currentCorrection currentTime : T)
| LightTimePrinted (lightTime : T).

Inductive Exception : Type :=
| ErrorLightTimeUnconverged (residual currentCorrection currentTime : T)
| ErrorInconsistentLinkEndVectors
| ErrorInvalidRetransmissionDelaysSize (delaysSize numberOfLinkEnds : Z)
| ErrorNonZeroDelayAtReferenceLinkEnd
| ErrorOutOfRange.

(** The two errors the chain solver raises about its own configuration. *)
Definition isConfigurationError (e : Exception) : bool :=
  match e with
  | ErrorInvalidRetransmissionDelaysSize _ _ => true
  | ErrorNonZeroDelayAtReferenceLinkEnd => true
  | _ => false
  end.

(** A [while] loop is run with fuel; [OutOfFuel] is a loop still running. *)
Inductive Outcome (A : Type) : Type :=
| Returned (a : A)
| Raised (e : Exception)
| OutOfFuel.

Arguments Returned {A} a.
Arguments Raised {A} e.
Arguments OutOfFuel {A}.

(** A computation: the lines printed, then how it ended. *)
Definition M (A : Type) : Type := (list LogEntry * Outcome A)%type.

Definition ret {A : Type} (a : A) : M A := ([], Returned a).
Definition raise {A : Type} (e : Exception) : M A := ([], Raised e).
Definition outOfFuel {A : Type} : M A := ([], OutOfFuel).
Definition print (e : LogEntry) : M unit := ([e], Returned tt).

Definition bind {A B : Type} (m : M A) (f : A -> M B) : M B :=
  match m with
  | (l, Returned a) => let '(l', r) := f a in (l ++ l', r)
  | (l, Raised e) => (l, Raised e)
  | (l, OutOfFuel) => (l, OutOfFuel)
  end.

Notation "x <- c1 ;; c2" := (bind c1 (fun x => c2))
  (at level 61, c1 at next level, right associativity).
Notation "' p <- c1 ;; c2" := (bind c1 (fun x => let 'p := x in c2))
  (at level 61, p pattern, c1 at next level, right associativity).
Notation "c1 ;;; c2" := (bind c1 (fun _ => c2))
  (at level 61, right associativity).

(** [v.at( i )], reading and writing. *)
Definition at_ {A : Type} (v : list A) (i : Z) : M A :=
  match nth_error v (Z.to_nat i) with
  | Some x => ret x
  | None => raise ErrorOutOfRange
  end.

Fixpoint replace_nth {A : Type} (v : list A) (n : nat) (x : A) : list A :=
  match v, n with
  | [], _ => []
  | _ :: v', O => x :: v'
  | y :: v', S n' => y :: replace_nth v' n' x
  end.

Definition set_at {A : Type} (v : list A) (i : Z) (x : A) : M (list A) :=
  match nth_error v (Z.to_nat i) with
  | Some _ => ret (replace_nth v (Z.to_nat i) x)
  | None => raise ErrorOutOfRange
  end.

(** ** Convergence criteria (lines 48-89) *)

Inductive LightTimeFailureHandling : Type :=
| accept_without_warning
| print_warning_and_accept
| throw_exception.

Record LightTimeConvergenceCriteria : Type := mkCriteria {
  iterateCorrections_ : bool;
  maximumNumberOfIterations_ : Z;
  failureHandling_ : LightTimeFailureHandling;
  absoluteTolerance_ : T
}.

(** The constructor with its default arguments (lines 57-65). *)
Definition default_LightTimeConvergenceCriteria : LightTimeConvergenceCriteria :=
  mkCriteria false 50 accept_without_warning s_nan.

(** [getAbsoluteTolerance< ScalarType >( )] (lines 67-79).  The member
    function is not [const]: it is given the object and hands it back. *)
Definition getAbsoluteTolerance (this : LightTimeConvergenceCriteria)
  : M (T * LightTimeConvergenceCriteria) :=
  if (absoluteTolerance_ this =? absoluteTolerance_ this)%sc
  then ret (absoluteTolerance_ this, this)
  else ret (getDefaultLightTimeTolerance, this).

(** [isLightTimeSolutionConverged] (lines 91-147).  The result is
    [isToleranceReached], the reference argument
    [updateLightTimeCorrections] as the call leaves it, and the criteria
    object behind the shared pointer.  The error message of lines 123-129 is
    kept as the three numbers it is made of.  The [default] case of the
    switch is for values that are none of the three enumerators. *)
Definition isLightTimeSolutionConverged
  (convergenceCriteria : LightTimeConvergenceCriteria)
  (previousLightTimeCalculation newLightTimeCalculation : T)
  (numberOfIterations : Z)
  (currentCorrection currentTime : T)
  (updateLightTimeCorrections : bool)
  : M (bool * bool * LightTimeConvergenceCriteria) :=
  let isToleranceReached := false in
  '(tolerance, convergenceCriteria) <- getAbsoluteTolerance convergenceCriteria ;;
  if (s_fabs (newLightTimeCalculation - previousLightTimeCalculation) <? tolerance)%sc
  then
    if negb updateLightTimeCorrections
    then ret (isToleranceReached, true, convergenceCriteria)
    else ret (true, updateLightTimeCorrections, convergenceCriteria)
  else
    if numberOfIterations =? maximumNumberOfIterations_ convergenceCriteria
    then
      let residual := s_fabs (newLightTimeCalculation - previousLightTimeCalculation)%sc in
      match failureHandling_ convergenceCriteria with
      | accept_without_warning =>
          ret (true, updateLightTimeCorrections, convergenceCriteria)
      | print_warning_and_accept =>
          print (WarningLightTimeUnconverged residual currentCorrection currentTime) ;;;
          ret (isToleranceReached, updateLightTimeCorrections, convergenceCriteria)
      | throw_exception =>
          raise (ErrorLightTimeUnconverged residual currentCorrection currentTime)
      end
    else ret (isToleranceReached, updateLightTimeCorrections, convergenceCriteria).

(** ** The single-leg solver (lines 257-636) *)

(** [LightTimeCorrection::calculateLightTimeCorrection]: transmitter state,
    receiver state, transmission time, reception time. *)
Definition LightTimeCorrection : Type := State -> State -> T -> T -> T.

Record LightTimeCalculator : Type := mkCalculator {
  stateFunctionOfTransmittingBody_ : T -> State;
  stateFunctionOfReceivingBody_ : T -> State;
  correctionFunctions_ : list LightTimeCorrection;
  lightTimeConvergenceCriteria_ : LightTimeConvergenceCriteria;
  currentIdealLightTime_ : T;
  currentCorrection_ : T
}.

(** The constructor (lines 275-287).  It leaves [currentIdealLightTime_]
    uninitialised: the value the member holds is an argument here. *)
Definition new_LightTimeCalculator
  (positionFunctionOfTransmittingBody positionFunctionOfReceivingBody : T -> State)
  (correctionFunctions : list LightTimeCorrection)
  (lightTimeConvergenceCriteria : LightTimeConvergenceCriteria)
  (uninitialised : T) : LightTimeCalculator :=
  mkCalculator positionFunctionOfTransmittingBody positionFunctionOfReceivingBody
    correctionFunctions lightTimeConvergenceCriteria uninitialised s_zero.

Definition set_currentCorrection (this : LightTimeCalculator) (v : T) : LightTimeCalculator :=
  mkCalculator (stateFunctionOfTransmittingBody_ this) (stateFunctionOfReceivingBody_ this)
    (correctionFunctions_ this) (lightTimeConvergenceCriteria_ this)
    (currentIdealLightTime_ this) v.

Definition set_currentIdealLightTime (this : LightTimeCalculator) (v : T) : LightTimeCalculator :=
  mkCalculator (stateFunctionOfTransmittingBody_ this) (stateFunctionOfReceivingBody_ this)
    (correctionFunctions_ this) (lightTimeConvergenceCriteria_ this)
    v (currentCorrection_ this).

Definition set_lightTimeConvergenceCriteria (this : LightTimeCalculator)
  (c : LightTimeConvergenceCriteria) : LightTimeCalculator :=
  mkCalculator (stateFunctionOfTransmittingBody_ this) (stateFunctionOfReceivingBody_ this)
    (correctionFunctions_ this) c
    (currentIdealLightTime_ this) (currentCorrection_ this).

Definition getCurrentIdealLightTime (this : LightTimeCalculator) : T :=
  currentIdealLightTime_ this.

Definition getCurrentLightTimeCorrection (this : LightTimeCalculator) : T :=
  currentCorrection_ this.

(** The loop of [setTotalLightTimeCorrection] (lines 625-632): the running
    total starts at zero and each correction is added in list order. *)
Definition totalLightTimeCorrections (corrections : list LightTimeCorrection)
  (transmitterState receiverState : State) (transmissionTime receptionTime : T) : T :=
  fold_left
    (fun total correction =>
       (total + correction transmitterState receiverState transmissionTime receptionTime)%sc)
    corrections s_zero.

(** [setTotalLightTimeCorrection] (lines 620-634) *)
Definition setTotalLightTimeCorrection (this : LightTimeCalculator)
  (transmitterState receiverState : State) (transmissionTime receptionTime : T)
  : LightTimeCalculator :=
  set_currentCorrection this
    (totalLightTimeCorrections (correctionFunctions_ this)
       transmitterState receiverState transmissionTime receptionTime).

(** [calculateNewLightTimeEstimate] (lines 601-609) *)
Definition calculateNewLightTimeEstimate (this : LightTimeCalculator)
  (receiverState transmitterState : State) : T * LightTimeCalculator :=
  let this :=
    set_currentIdealLightTime this
      (norm (segment_0_3 (state_sub receiverState transmitterState)) / getSpeedOfLight)%sc in
  ((currentIdealLightTime_ this + currentCorrection_ this)%sc, this).

(** The local variables of
    [calculateLightTimeWithMultiLegLinkEndsStates] that the loop of lines
    463-492 reads and writes.  The counter, an [int], is an integer here:
    the two agree for the first 2^31 - 1 passes, after which the increment
    of the [int] overflows; the statements that hold only while the counter
    has not met the maximum again bound the passes by that number. *)
Record Locals : Type := mkLocals {
  receptionTime : T;
  transmissionTime : T;
  receiverState : State;
  transmitterState : State;
  previousLightTimeCalculation : T;
  newLightTimeCalculation : T;
  isToleranceReached : bool;
  counter : Z;
  updateLightTimeCorrections : bool
}.

(** Lines 465-484 of the loop body: the corrections are updated when the
    flag asks for it, the unknown end of the link is moved, and the new
    estimate is computed. *)
Definition updateEstimate (time : T) (isTimeAtReception : bool)
  (this : LightTimeCalculator) (v : Locals) : LightTimeCalculator * Locals :=
  let this :=
    if updateLightTimeCorrections v
    then setTotalLightTimeCorrection this (transmitterState v) (receiverState v)
           (transmissionTime v) (receptionTime v)
    else this in
  let '(receptionTime', transmissionTime', receiverState', transmitterState') :=
    if isTimeAtReception
    then
      let transmissionTime' := (time - previousLightTimeCalculation v)%sc in
      (time, transmissionTime', receiverState v,
       stateFunctionOfTransmittingBody_ this transmissionTime')
    else
      let receptionTime' := (time + previousLightTimeCalculation v)%sc in
      (receptionTime', time, stateFunctionOfReceivingBody_ this receptionTime',
       transmitterState v) in
  let '(newLightTimeCalculation', this) :=
    calculateNewLightTimeEstimate this receiverState' transmitterState' in
  (this,
   mkLocals receptionTime' transmissionTime' receiverState' transmitterState'
     (previousLightTimeCalculation v) newLightTimeCalculation'
     (isToleranceReached v) (counter v) (updateLightTimeCorrections v)).

(** Lines 485-491: the locals as a pass leaves them, once the convergence
    is decided: the new estimate becomes the previous one and the counter
    moves on. *)
Definition endOfPass (v : Locals)
  (isToleranceReached' updateLightTimeCorrections' : bool) : Locals :=
  mkLocals (receptionTime v) (transmissionTime v)
    (receiverState v) (transmitterState v)
    (newLightTimeCalculation v) (newLightTimeCalculation v)
    isToleranceReached' (counter v + 1) updateLightTimeCorrections'.

(** One pass through the body of the loop (lines 465-491): the estimate is
    updated and the convergence is decided. *)
Definition loopBody (time : T) (isTimeAtReception : bool)
  (this : LightTimeCalculator) (v : Locals) : M (LightTimeCalculator * Locals) :=
  let '(this, v) := updateEstimate time isTimeAtReception this v in
  '(isToleranceReached', updateLightTimeCorrections', criteria) <-
    isLightTimeSolutionConverged (lightTimeConvergenceCriteria_ this)
      (previousLightTimeCalculation v) (newLightTimeCalculation v) (counter v)
      (currentCorrection_ this) time (updateLightTimeCorrections v) ;;
  ret (set_lightTimeConvergenceCriteria this criteria,
       endOfPass v isToleranceReached' updateLightTimeCorrections').

(** [while( !isToleranceReached )] (line 463) *)
Fixpoint whileNotToleranceReached (fuel : nat) (time : T) (isTimeAtReception : bool)
  (this : LightTimeCalculator) (v : Locals) : M (LightTimeCalculator * Locals) :=
  if isToleranceReached v then ret (this, v)
  else
    match fuel with
    | O => outOfFuel
    | S fuel' =>
        '(this', v') <- loopBody time isTimeAtReception this v ;;
        whileNotToleranceReached fuel' time isTimeAtReception this' v'
    end.

(** What a solve gives back: the returned light time, the calculator with
    its cache, and the two vectors passed by reference. *)
Record LegResult : Type := mkLegResult {
  legLightTime : T;
  legCalculator : LightTimeCalculator;
  legLinkEndsStates : list State;
  legLinkEndsTimes : list T
}.

(** Lines 421-439: the initial guess of the reception and transmission
    times.  The condition of line 425 reads the receiver entry only when the
    transmitter entry is not a NaN. *)
Definition initialGuess (linkEndsTimes : list T) (time : T)
  (multiLegTransmitterIndex multiLegReceiverIndex : Z) : M (T * T) :=
  transmitterGuess <- at_ linkEndsTimes multiLegTransmitterIndex ;;
  useGuess <-
    (if negb (s_isnan transmitterGuess)
     then receiverGuess <- at_ linkEndsTimes multiLegReceiverIndex ;;
          ret (negb (s_isnan receiverGuess))
     else ret false) ;;
  if useGuess : bool
  then receptionTime0 <- at_ linkEndsTimes multiLegReceiverIndex ;;
       transmissionTime0 <- at_ linkEndsTimes multiLegTransmitterIndex ;;
       ret (receptionTime0, transmissionTime0)
  else ret (time, time).

(** Lines 441-460: the locals as the loop finds them. *)
Definition initialLocals (this : LightTimeCalculator)
  (receptionTime0 transmissionTime0 : T) : LightTimeCalculator * Locals :=
  let receiverState0 := stateFunctionOfReceivingBody_ this receptionTime0 in
  let transmitterState0 := stateFunctionOfTransmittingBody_ this transmissionTime0 in
  let this :=
    setTotalLightTimeCorrection this transmitterState0 receiverState0
      transmissionTime0 receptionTime0 in
  let '(previousLightTimeCalculation0, this) :=
    calculateNewLightTimeEstimate this receiverState0 transmitterState0 in
  let updateLightTimeCorrections0 :=
    if iterateCorrections_ (lightTimeConvergenceCriteria_ this) then true else false in
  (this,
   mkLocals receptionTime0 transmissionTime0 receiverState0 transmitterState0
     previousLightTimeCalculation0 s_zero false 0 updateLightTimeCorrections0).

(** Lines 494-502: the outputs by reference, the line printed and the
    returned value. *)
Definition setOutput (this : LightTimeCalculator) (v : Locals)
  (linkEndsStates : list State) (linkEndsTimes : list T)
  (multiLegTransmitterIndex multiLegReceiverIndex : Z) : M LegResult :=
  linkEndsTimes <- set_at linkEndsTimes multiLegReceiverIndex (receptionTime v) ;;
  linkEndsTimes <- set_at linkEndsTimes multiLegTransmitterIndex (transmissionTime v) ;;
  linkEndsStates <- set_at linkEndsStates multiLegReceiverIndex (receiverState v) ;;
  linkEndsStates <- set_at linkEndsStates multiLegTransmitterIndex (transmitterState v) ;;
  print (LightTimePrinted (newLightTimeCalculation v)) ;;;
  ret (mkLegResult (newLightTimeCalculation v) this linkEndsStates linkEndsTimes).

(** [calculateLightTimeWithMultiLegLinkEndsStates] (lines 406-503) *)
Definition calculateLightTimeWithMultiLegLinkEndsStates (fuel : nat)
  (this : LightTimeCalculator)
  (linkEndsStates : list State) (linkEndsTimes : list T)
  (time : T) (isTimeAtReception : bool) (multiLegTransmitterIndex : Z)
  : M LegResult :=
  let multiLegReceiverIndex := uint32 (multiLegTransmitterIndex + 1) in
  if negb (size linkEndsStates =? size linkEndsTimes)
     || (multiLegReceiverIndex >? size_t (size linkEndsTimes - 1))
  then raise ErrorInconsistentLinkEndVectors
  else
    '(receptionTime0, transmissionTime0) <-
      initialGuess linkEndsTimes time multiLegTransmitterIndex multiLegReceiverIndex ;;
    let '(this, v) := initialLocals this receptionTime0 transmissionTime0 in
    '(this, v) <- whileNotToleranceReached fuel time isTimeAtReception this v ;;
    setOutput this v linkEndsStates linkEndsTimes
      multiLegTransmitterIndex multiLegReceiverIndex.

(** [calculateLightTimeWithLinkEndsStates] (lines 375-391): the light
    time, the calculator, the receiver state and the transmitter state. *)
Definition calculateLightTimeWithLinkEndsStates (fuel : nat)
  (this : LightTimeCalculator) (time : T) (isTimeAtReception : bool)
  : M (T * LightTimeCalculator * State * State) :=
  let linkEndsStates := repeat (State_Constant s_nan) 2 in
  let linkEndsTimes := repeat s_nan 2 in
  r <- calculateLightTimeWithMultiLegLinkEndsStates fuel this
         linkEndsStates linkEndsTimes time isTimeAtReception 0 ;;
  transmitterStateOutput <- at_ (legLinkEndsStates r) 0 ;;
  receiverStateOutput <- at_ (legLinkEndsStates r) 1 ;;
  ret (legLightTime r, legCalculator r, receiverStateOutput, transmitterStateOutput).

(** [calculateLightTime] (lines 325-336) *)
Definition calculateLightTime (fuel : nat) (this : LightTimeCalculator)
  (time : T) (isTimeAtReception : bool) : M (T * LightTimeCalculator) :=
  '(lightTime, this, _, _) <-
    calculateLightTimeWithLinkEndsStates fuel this time isTimeAtReception ;;
  ret (lightTime, this).

(** [calculateRelativeRangeVector] (lines 349-360): the vector from the
    transmitter to the receiver, and the calculator. *)
Definition calculateRelativeRangeVector (fuel : nat) (this : LightTimeCalculator)
  (time : T) (isTimeAtReception : bool) : M (Position * LightTimeCalculator) :=
  '(_, this, receiverState0, transmitterState0) <-
    calculateLightTimeWithLinkEndsStates fuel this time isTimeAtReception ;;
  ret (segment_0_3 (state_sub receiverState0 transmitterState0), this).

(** ** The wrapper of a correction function (lines 149-248) *)

(** The line the two partial derivatives of the wrapper print on
    [std::cerr] (lines 207 and 234). *)
Inductive WrapperLogEntry : Type :=
| WarningPartialNotImplemented.

Record LightTimeCorrectionFunctionWrapper : Type := mkWrapper {
  lightTimeCorrectionFunction_ : LightTimeCorrection;
  isWarningProvided_ : bool
}.

(** The constructor (lines 160-164) *)
Definition new_LightTimeCorrectionFunctionWrapper
  (lightTimeCorrectionFunction : LightTimeCorrection)
  : LightTimeCorrectionFunctionWrapper :=
  mkWrapper lightTimeCorrectionFunction false.

(** [calculateLightTimeCorrection] (lines 175-183) *)
Definition calculateLightTimeCorrection (this : LightTimeCorrectionFunctionWrapper)
  (transmitterState receiverState : State) (transmissionTime receptionTime : T) : T :=
  lightTimeCorrectionFunction_ this transmitterState receiverState
    transmissionTime receptionTime.

(** [calculateLightTimeCorrectionPartialDerivativeWrtLinkEndTime] (lines
    197-212): what is printed, the value returned and the wrapper as the
    call leaves it.  The two link ends are of the type [LinkEndType] of
    the observation models, which the function does not look at. *)
Definition calculateLightTimeCorrectionPartialDerivativeWrtLinkEndTime
  {LinkEnd : Type} (this : LightTimeCorrectionFunctionWrapper)
  (transmitterState receiverState : State) (transmissionTime receptionTime : T)
  (fixedLinkEnd linkEndAtWhichPartialIsEvaluated : LinkEnd)
  : list WrapperLogEntry * (T * LightTimeCorrectionFunctionWrapper) :=
  if negb (isWarningProvided_ this)
  then ([WarningPartialNotImplemented],
        (s_zero, mkWrapper (lightTimeCorrectionFunction_ this) true))
  else ([], (s_zero, this)).

(** [calculateLightTimeCorrectionPartialDerivativeWrtLinkEndPosition]
    (lines 225-239) *)
Definition calculateLightTimeCorrectionPartialDerivativeWrtLinkEndPosition
  {LinkEnd : Type} (this : LightTimeCorrectionFunctionWrapper)
  (transmitterState receiverState : State) (transmissionTime receptionTime : T)
  (linkEndAtWhichPartialIsEvaluated : LinkEnd)
  : list WrapperLogEntry * (Position * LightTimeCorrectionFunctionWrapper) :=
  if negb (isWarningProvided_ this)
  then ([WarningPartialNotImplemented],
        ((s_zero, s_zero, s_zero), mkWrapper (lightTimeCorrectionFunction_ this) true))
  else ([], ((s_zero, s_zero, s_zero), this)).

(** The second constructor of the calculator (lines 296-313): each
    correction function is wrapped, in the order of the list. *)
Definition new_LightTimeCalculator_fromFunctions
  (positionFunctionOfTransmittingBody positionFunctionOfReceivingBody : T -> State)
  (correctionFunctions : list LightTimeCorrection)
  (lightTimeConvergenceCriteria : LightTimeConvergenceCriteria)
  (uninitialised : T) : LightTimeCalculator :=
  mkCalculator positionFunctionOfTransmittingBody positionFunctionOfReceivingBody
    (map (fun f => calculateLightTimeCorrection (new_LightTimeCorrectionFunctionWrapper f))
       correctionFunctions)
    lightTimeConvergenceCriteria uninitialised s_zero.

(** A call of one of the two partial derivatives of a wrapper, with its
    arguments, and what it returns. *)
Inductive PartialCall (LinkEnd : Type) : Type :=
| PartialWrtLinkEndTime (transmitterState receiverState : State)
    (transmissionTime receptionTime : T)
    (fixedLinkEnd linkEndAtWhichPartialIsEvaluated : LinkEnd)
| PartialWrtLinkEndPosition (transmitterState receiverState : State)
    (transmissionTime receptionTime : T)
    (linkEndAtWhichPartialIsEvaluated : LinkEnd).

Inductive PartialValue : Type :=
| TimePartial (value : T)
| PositionPartial (value : Position).

(** Calls made one after the other on one wrapper: what is printed, the
    values returned and the wrapper in the end. *)
Fixpoint callPartials {LinkEnd : Type} (this : LightTimeCorrectionFunctionWrapper)
  (calls : list (PartialCall LinkEnd))
  : list WrapperLogEntry * (list PartialValue * LightTimeCorrectionFunctionWrapper) :=
  match calls with
  | [] => ([], ([], this))
  | PartialWrtLinkEndTime _ sTx sRx tTx tRx fixed evaluated :: calls' =>
      let '(l, (value, this)) :=
        calculateLightTimeCorrectionPartialDerivativeWrtLinkEndTime
          this sTx sRx tTx tRx fixed evaluated in
      let '(l', (values, this)) := callPartials this calls' in
      (l ++ l', (TimePartial value :: values, this))
  | PartialWrtLinkEndPosition _ sTx sRx tTx tRx evaluated :: calls' =>
      let '(l, (value, this)) :=
        calculateLightTimeCorrectionPartialDerivativeWrtLinkEndPosition
          this sTx sRx tTx tRx evaluated in
      let '(l', (values, this)) := callPartials this calls' in
      (l ++ l', (PositionPartial value :: values, this))
  end.

(** ** Notions the statements about the loop use *)

(** The tolerance a criteria object answers [getAbsoluteTolerance] with. *)
Definition tolerance (c : LightTimeConvergenceCriteria) : T :=
  match getAbsoluteTolerance c with
  | (_, Returned (t, _)) => t
  | _ => s_nan
  end.

(** The change between successive estimates that the pass starting from
    [this] and [v] compares with the tolerance (line 103). *)
Definition change (time : T) (isTimeAtReception : bool)
  (this : LightTimeCalculator) (v : Locals) : T :=
  let '(_, v') := updateEstimate time isTimeAtReception this v in
  s_fabs (newLightTimeCalculation v' - previousLightTimeCalculation v')%sc.

Definition belowTolerance (time : T) (isTimeAtReception : bool)
  (this : LightTimeCalculator) (v : Locals) : bool :=
  (change time isTimeAtReception this v
     <? tolerance (lightTimeConvergenceCriteria_ this))%sc.

(** The calculator and the locals as pass number [k] (from 0) of the loop
    finds them, when the loop started from [this] and [v] gets that far:
    [None] when it has ended before, by convergence or by an exception. *)
Fixpoint stateAt (k : nat) (time : T) (isTimeAtReception : bool)
  (this : LightTimeCalculator) (v : Locals) : option (LightTimeCalculator * Locals) :=
  if isToleranceReached v then None
  else
    match k with
    | O => Some (this, v)
    | S k' =>
        match loopBody time isTimeAtReception this v with
        | (_, Returned (this', v')) => stateAt k' time isTimeAtReception this' v'
        | _ => None
        end
    end.


(** The calculator keeps its state functions, corrections and criteria. *)
Definition sameConfiguration (this this' : LightTimeCalculator) : Prop :=
  stateFunctionOfTransmittingBody_ this' = stateFunctionOfTransmittingBody_ this
  /\ stateFunctionOfReceivingBody_ this' = stateFunctionOfReceivingBody_ this
  /\ correctionFunctions_ this' = correctionFunctions_ this
  /\ lightTimeConvergenceCriteria_ this' = lightTimeConvergenceCriteria_ this.

(** The arguments by reference of a solve that the checks of lines 415-419
    accept and whose entries exist: two vectors of one size that hold the
    entries of the transmitter and of the receiver. *)
Definition wellFormedArguments (linkEndsStates : list State) (linkEndsTimes : list T)
  (multiLegTransmitterIndex : Z) : Prop :=
  size linkEndsStates = size linkEndsTimes
  /\ 0 <= multiLegTransmitterIndex
  /\ multiLegTransmitterIndex + 1 < size linkEndsTimes
  /\ size linkEndsTimes < 2 ^ 32.

(** The lines of a solve that are warnings. *)
Definition isWarning (e : LogEntry) : bool :=
  match e with
  | WarningLightTimeUnconverged _ _ _ => true
  | LightTimePrinted _ => false
  end.

Definition warnings (l : list LogEntry) : list LogEntry := filter isWarning l.

(** A partial derivative returned as zero: the number zero or the zero
    vector. *)
Definition isZeroPartial (p : PartialValue) : Prop :=
  match p with
  | TimePartial value => value = s_zero
  | PositionPartial value => value = (s_zero, s_zero, s_zero)
  end.

(** A state function of a link end that does not move. *)
Definition constantStateFunction (s : State) : T -> State := fun _ => s.





(** ** The chain solver (lines 638-806) *)

(** What [observationModel.h] declares and the header uses; the file is not
    among the sources at hand, so its declarations are taken as they are
    used: the type of link-end selectors with the index
    [getNWayLinkIndexFromLinkEndType] gives one of them in a chain of so many
    link ends, and the ancillary settings with the vector
    [getAncilliaryDoubleVectorData( retransmission_delays )] reads from
    them. *)
Class ObservationModel : Type := {
  LinkEndType : Type;
  ObservationAncilliarySimulationSettings : Type;
  getNWayLinkIndexFromLinkEndType : LinkEndType -> Z -> Z;
  getAncilliaryDoubleVectorData_retransmission_delays :
    ObservationAncilliarySimulationSettings -> list T
}.

Context {OM : ObservationModel}.

Record MultiLegLightTimeCalculator : Type := mkMultiLeg {
  lightTimeCalculators_ : list LightTimeCalculator;
  multiLegLightTimeConvergenceCriteria_ : LightTimeConvergenceCriteria;
  numberOfLinks_ : Z;
  numberOfLinkEnds_ : Z
}.

(** The constructor (lines 645-654): both counts are [unsigned int]. *)
Definition new_MultiLegLightTimeCalculator
  (lightTimeCalculators : list LightTimeCalculator)
  (lightTimeConvergenceCriteria : LightTimeConvergenceCriteria)
  : MultiLegLightTimeCalculator :=
  mkMultiLeg lightTimeCalculators lightTimeConvergenceCriteria
    (uint32 (size lightTimeCalculators))
    (uint32 (size_t (size lightTimeCalculators + 1))).

Definition set_lightTimeCalculators (this : MultiLegLightTimeCalculator)
  (calculators : list LightTimeCalculator) : MultiLegLightTimeCalculator :=
  mkMultiLeg calculators (multiLegLightTimeConvergenceCriteria_ this)
    (numberOfLinks_ this) (numberOfLinkEnds_ this).

(** Lines 664-692: the retransmission delays of the call. *)
Definition currentRetransmissionDelays (this : MultiLegLightTimeCalculator)
  (ancillarySettings : option ObservationAncilliarySimulationSettings) : M (list T) :=
  match ancillarySettings with
  | Some settings =>
      let delays := getAncilliaryDoubleVectorData_retransmission_delays settings in
      if size delays =? numberOfLinkEnds_ this
      then ret delays
      else if size delays =? uint32 (numberOfLinkEnds_ this - 2)
      then ret ((s_zero :: delays) ++ [s_zero])
      else raise (ErrorInvalidRetransmissionDelaysSize (size delays) (numberOfLinkEnds_ this))
  | None => ret (repeat s_zero (Z.to_nat (numberOfLinkEnds_ this)))
  end.

(** Lines 705-715: the check on the reference link end. *)
Definition checkReferenceLinkEnd (this : MultiLegLightTimeCalculator)
  (delays : list T) (startLinkEndIndex : Z) : M unit :=
  if negb (startLinkEndIndex =? 0)
     && negb (startLinkEndIndex =? uint32 (numberOfLinkEnds_ this - 1))
  then
    delay <- at_ delays startLinkEndIndex ;;
    if negb (delay =? s_zero)%sc
    then raise ErrorNonZeroDelayAtReferenceLinkEnd
    else ret tt
  else ret tt.

(** The variables the two walks share. *)
Record Walk : Type := mkWalk {
  walkCalculators : list LightTimeCalculator;
  walkLinkEndsStates : list State;
  walkLinkEndsTimes : list T;
  totalLightTime : T;
  currentLinkEndTime : T
}.

(** Lines 724-736: from the reference link end back to the transmitter. *)
Fixpoint moveBackwards (fuel : nat) (delays : list T) (currentDownIndex : nat)
  (w : Walk) : M Walk :=
  match currentDownIndex with
  | O => ret w
  | S previous =>
      let leg := Z.of_nat previous in
      let transmitterIndex := uint32 (2 * leg) in
      legCalculator0 <- at_ (walkCalculators w) leg ;;
      r <- calculateLightTimeWithMultiLegLinkEndsStates fuel legCalculator0
             (walkLinkEndsStates w) (walkLinkEndsTimes w)
             (currentLinkEndTime w) true transmitterIndex ;;
      calculators <- set_at (walkCalculators w) leg (legCalculator r) ;;
      delay <- at_ delays leg ;;
      let currentLightTime := (legLightTime r + delay)%sc in
      moveBackwards fuel delays previous
        (mkWalk calculators (legLinkEndsStates r) (legLinkEndsTimes r)
           (totalLightTime w + currentLightTime)%sc
           (currentLinkEndTime w - currentLightTime)%sc)
  end.

(** Lines 742-754: from the reference link end on to the receiver;
    [remaining] counts the passes left before [currentUpIndex] reaches
    [numberOfLinkEnds_ - 1]. *)
Fixpoint moveForwards (fuel : nat) (delays : list T) (remaining : nat)
  (currentUpIndex : Z) (w : Walk) : M Walk :=
  match remaining with
  | O => ret w
  | S remaining' =>
      let transmitterIndex := uint32 (2 * currentUpIndex) in
      legCalculator0 <- at_ (walkCalculators w) currentUpIndex ;;
      r <- calculateLightTimeWithMultiLegLinkEndsStates fuel legCalculator0
             (walkLinkEndsStates w) (walkLinkEndsTimes w)
             (currentLinkEndTime w) false transmitterIndex ;;
      calculators <- set_at (walkCalculators w) currentUpIndex (legCalculator r) ;;
      delay <- at_ delays (uint32 (currentUpIndex + 1)) ;;
      let currentLightTime := (legLightTime r + delay)%sc in
      moveForwards fuel delays remaining' (uint32 (currentUpIndex + 1))
        (mkWalk calculators (legLinkEndsStates r) (legLinkEndsTimes r)
           (totalLightTime w + currentLightTime)%sc
           (currentLinkEndTime w + currentLightTime)%sc)
  end.

(** What the chain solve gives back: the total light time, the calculator
    (its legs with their caches), and the two output vectors. *)
Record ChainResult : Type := mkChainResult {
  chainLightTime : T;
  chainCalculator : MultiLegLightTimeCalculator;
  linkEndsTimesOutput : list T;
  linkEndsStatesOutput : list State
}.

(** Lines 717-767: the two walks from the reference link end and the
    outputs. *)
Definition solveFromReference (fuel : nat) (this : MultiLegLightTimeCalculator)
  (time : T) (delays : list T) (startLinkEndIndex : Z) : M ChainResult :=
  let linkEndsTimes0 := repeat s_nan (Z.to_nat (uint32 (2 * numberOfLinks_ this))) in
  let linkEndsStates0 :=
    repeat (State_Constant s_nan) (Z.to_nat (uint32 (2 * numberOfLinks_ this))) in
  startDelay <- at_ delays startLinkEndIndex ;;
  w <- moveBackwards fuel delays (Z.to_nat startLinkEndIndex)
         (mkWalk (lightTimeCalculators_ this) linkEndsStates0 linkEndsTimes0
            (s_zero + startDelay)%sc (time - startDelay)%sc) ;;
  startDelay' <- at_ delays startLinkEndIndex ;;
  w <- moveForwards fuel delays
         (Z.to_nat (uint32 (numberOfLinkEnds_ this - 1) - startLinkEndIndex))
         startLinkEndIndex
         (mkWalk (walkCalculators w) (walkLinkEndsStates w) (walkLinkEndsTimes w)
            (totalLightTime w) (time + startDelay')%sc) ;;
  ret (mkChainResult (totalLightTime w)
         (set_lightTimeCalculators this (walkCalculators w))
         (walkLinkEndsTimes w) (walkLinkEndsStates w)).

(** Lines 694-767: the solve once the delays are known. *)
Definition solveWithDelays (fuel : nat) (this : MultiLegLightTimeCalculator)
  (time : T) (linkEndAssociatedWithTime : LinkEndType) (delays : list T)
  : M ChainResult :=
  let startLinkEndIndex :=
    uint32 (getNWayLinkIndexFromLinkEndType linkEndAssociatedWithTime
              (numberOfLinkEnds_ this)) in
  checkReferenceLinkEnd this delays startLinkEndIndex ;;;
  solveFromReference fuel this time delays startLinkEndIndex.

(** [MultiLegLightTimeCalculator::calculateLightTimeWithLinkEndsStates]
    (lines 656-768) *)
Definition MultiLeg_calculateLightTimeWithLinkEndsStates (fuel : nat)
  (this : MultiLegLightTimeCalculator) (time : T)
  (linkEndAssociatedWithTime : LinkEndType)
  (ancillarySettings : option ObservationAncilliarySimulationSettings)
  : M ChainResult :=
  delays <- currentRetransmissionDelays this ancillarySettings ;;
  solveWithDelays fuel this time linkEndAssociatedWithTime delays.

(** [getTotalIdealLightTime] (lines 770-778) *)
Definition getTotalIdealLightTime (this : MultiLegLightTimeCalculator) : T :=
  fold_left (fun lightTime leg => (lightTime + getCurrentIdealLightTime leg)%sc)
    (lightTimeCalculators_ this) s_zero.

(** [getTotalLightTimeCorrections] (lines 780-788) *)
Definition getTotalLightTimeCorrections (this : MultiLegLightTimeCalculator) : T :=
  fold_left (fun corrections leg => (corrections + getCurrentLightTimeCorrection leg)%sc)
    (lightTimeCalculators_ this) s_zero.

(** The light time a calculator caches: the ideal light time plus the
    correction. *)
Definition cachedLightTime (this : LightTimeCalculator) : T :=
  (getCurrentIdealLightTime this + getCurrentLightTimeCorrection this)%sc.

(** What each leg of a walk adds to the total: the light time of the leg
    plus the retransmission delay that goes with it. *)
Definition legTerms (calculators : list LightTimeCalculator) (delays : list T) : list T :=
  map (fun p => (cachedLightTime (fst p) + snd p)%sc) (combine calculators delays).

(** What a computation returns meets [Q], and what it raises meets [E]. *)
Definition satisfies {A : Type} (m : M A) (Q : A -> Prop) (E : Exception -> Prop)
  : Prop :=
  match snd m with
  | Returned a => Q a
  | Raised e => E e
  | OutOfFuel => True
  end.

(** The legs are those of [legs], each with the configuration it had. *)
Definition sameLegs (legs legs' : list LightTimeCalculator) : Prop :=
  Forall2 sameConfiguration legs legs'.

(** The vectors of a walk have [n] entries each and its legs are those of
    [legs]. *)
Definition walkShape (n : Z) (legs : list LightTimeCalculator) (w : Walk) : Prop :=
  size (walkLinkEndsStates w) = n
  /\ size (walkLinkEndsTimes w) = n
  /\ sameLegs legs (walkCalculators w).

(** The convergence error of a leg whose failure handling is to throw. *)
Definition isUnconvergedErrorOf (this : LightTimeCalculator) (e : Exception) : Prop :=
  (exists residual correction time,
      e = ErrorLightTimeUnconverged residual correction time)
  /\ failureHandling_ (lightTimeConvergenceCriteria_ this) = throw_exception.

(** The errors that come from the legs of a chain or from reading a
    vector: a range error, or the convergence error of a leg of [legs]. *)
Definition isLegOrRangeError (legs : list LightTimeCalculator) (e : Exception) : Prop :=
  e = ErrorOutOfRange \/ exists leg, In leg legs /\ isUnconvergedErrorOf leg e.

(** A computation that does not end in a configuration error. *)
Definition raisesNoConfigurationError {A : Type} (m : M A) : Prop :=
  forall l e, m = (l, Raised e) -> isConfigurationError e = false.

End Model.

Arguments Returned {T A} a.
Arguments Raised {T A} e.
Arguments OutOfFuel {T A}.

(** The types of the model name their scalar type. *)
Arguments State : clear implicits.
Arguments Position : clear implicits.
Arguments LogEntry : clear implicits.
Arguments Exception : clear implicits.
Arguments Outcome : clear implicits.
Arguments M : clear implicits.
Arguments LightTimeConvergenceCriteria : clear implicits.
Arguments LightTimeCorrection : clear implicits.
Arguments LightTimeCalculator : clear implicits.
Arguments Locals : clear implicits.
Arguments LegResult : clear implicits.
Arguments ObservationModel : clear implicits.
Arguments MultiLegLightTimeCalculator : clear implicits.
Arguments Walk : clear implicits.
Arguments ChainResult : clear implicits.
Arguments LightTimeCorrectionFunctionWrapper : clear implicits.
Arguments PartialCall : clear implicits.
Arguments PartialValue : clear implicits.

(** ** IEEE binary64 numbers: the scalar type the code runs on *)

(** Modelled from the spec: the two constants of the instance are defined
    outside the sources at hand ([physical_constants::getSpeedOfLight] in
    physicalConstants.h, the specialisation of
    [getDefaultLightTimeTolerance] for [double] in a translation unit); the
    spec names a signal propagation speed and a default tolerance sized to
    the numeric type's precision.  The values are the speed of light in
    metres per second and a picosecond (1e-12, here as the binary64
    number closest to it). *)
#[export] Instance double_Scalar : Scalar float := {|
  s_zero := 0%float;
  s_nan := PrimFloat.nan;
  s_add := PrimFloat.add;
  s_sub := PrimFloat.sub;
  s_mul := PrimFloat.mul;
  s_div := PrimFloat.div;
  s_sqrt := PrimFloat.sqrt;
  s_fabs := PrimFloat.abs;
  s_ltb := PrimFloat.ltb;
  s_eqb := PrimFloat.eqb;
  s_isnan := PrimFloat.is_nan;
  getSpeedOfLight := 299792458%float;
  getDefaultLightTimeTolerance := 0x1.19799812dea11p-40%float
|}.

(** ** Inputs the statements are evaluated on *)

(** A link end at rest at the origin, and one at rest one light-second
    away from it. *)
Definition atOrigin : State float :=
  mkState 0%float 0%float 0%float 0%float 0%float 0%float.

Definition oneLightSecondAway : State float :=
  mkState 299792458%float 0%float 0%float 0%float 0%float 0%float.

(** A link between two link ends at rest, with no corrections. *)
Definition staticLink (criteria : LightTimeConvergenceCriteria float)
  : LightTimeCalculator float :=
  new_LightTimeCalculator (constantStateFunction atOrigin)
    (constantStateFunction oneLightSecondAway) [] criteria PrimFloat.nan.

(** Two vectors with no initial guess, as
    [calculateLightTimeWithLinkEndsStates] builds them. *)
Definition noGuessStates : list (State float) := repeat (State_Constant PrimFloat.nan) 2.
Definition noGuessTimes : list float := repeat PrimFloat.nan 2.



(** Criteria that no change of the estimate can meet: a tolerance of zero,
    with the failure handling that is to print a warning and accept. *)
Definition zeroToleranceWarning (iterateCorrections : bool)
  (maximumNumberOfIterations : Z) : LightTimeConvergenceCriteria float :=
  mkCriteria iterateCorrections maximumNumberOfIterations
    print_warning_and_accept 0%float.

(** A receiver that moves away from the origin along the first axis at a
    quarter of the propagation speed, and the link to it from a transmitter
    at rest at the origin. *)
Definition recedingReceiver (t : float) : State float :=
  mkState (299792458 * t / 4)%float 0%float 0%float 74948114.5%float 0%float 0%float.

Definition recedingLink : LightTimeCalculator float :=
  new_LightTimeCalculator (constantStateFunction atOrigin) recedingReceiver []
    default_LightTimeConvergenceCriteria PrimFloat.nan.

(** An observation model to evaluate the chain solver with: a link end is
    selected by its index in the chain, and the ancillary settings are the
    vector of retransmission delays they hold. *)
Definition indexedObservationModel : ObservationModel float := {|
  LinkEndType := Z;
  ObservationAncilliarySimulationSettings := list float;
  getNWayLinkIndexFromLinkEndType := fun linkEnd _ => linkEnd;
  getAncilliaryDoubleVectorData_retransmission_delays := fun settings => settings
|}.

(** A chain of three link ends at rest: two static links. *)
Definition threeLinkEnds : MultiLegLightTimeCalculator float :=
  new_MultiLegLightTimeCalculator
    [staticLink default_LightTimeConvergenceCriteria;
     staticLink default_LightTimeConvergenceCriteria]
    default_LightTimeConvergenceCriteria.




(** The vectors of a chain of two links, with times in the entries of the
    first link and none in those of the second. *)
Definition twoLinkStates : list (State float) := repeat (State_Constant PrimFloat.nan) 4.
Definition twoLinkTimes : list float :=
  [5%float; 6%float; PrimFloat.nan; PrimFloat.nan].

(** The vectors a solve of the receding link for the reception time 60
    leaves: an initial guess for a later solve. *)
Definition guessedStates : list (State float) := [atOrigin; recedingReceiver 60%float].
Definition guessedTimes : list float := [45%float; 60%float].

(** A chain of one static link whose criteria no change of the estimate
    can meet, with the failure handling that is to throw at the first pass. *)
Definition throwingChain : MultiLegLightTimeCalculator float :=
  new_MultiLegLightTimeCalculator
    [staticLink (mkCriteria false 0 throw_exception 0%float)]
    default_LightTimeConvergenceCriteria.

(** * Properties *)

Section Properties.

Context {T : Type} {ST : Scalar T}.

(** ** Computations *)

Lemma bind_ret_l {A B : Type} (a : A) (f : A -> M T B) : bind (ret a) f = f a.
Proof. unfold bind, ret. destruct (f a). reflexivity. Qed.

Lemma bind_Returned {A B : Type} (m : M T A) (f : A -> M T B) l b :
  bind m f = (l, Returned b) ->
  exists l1 a l2, m = (l1, Returned a) /\ f a = (l2, Returned b) /\ l = l1 ++ l2.
Proof.
  unfold bind. destruct m as [l1 [a | e | ]]; try discriminate.
  destruct (f a) as [l2 r] eqn:E. intros H. inversion H; subst.
  exists l1, a, l2. auto.
Qed.

Lemma bind_Raised {A B : Type} (m : M T A) (f : A -> M T B) l e :
  bind m f = (l, Raised e) ->
  m = (l, Raised e)
  \/ exists l1 a l2, m = (l1, Returned a) /\ f a = (l2, Raised e) /\ l = l1 ++ l2.
Proof.
  unfold bind. destruct m as [l1 [a | e' | ]]; try discriminate.
  - destruct (f a) as [l2 r] eqn:E. intros H. inversion H; subst.
    right. exists l1, a, l2. auto.
  - intros H. inversion H; subst. left. reflexivity.
Qed.

Lemma bind_eq {A B : Type} (m : M T A) (f : A -> M T B) l a :
  m = (l, Returned a) -> bind m f = (l ++ fst (f a), snd (f a)).
Proof. intros ->. unfold bind. destruct (f a). reflexivity. Qed.

(** ** Vectors *)

Lemma at_in_range {A : Type} (v : list A) (i : Z) :
  0 <= i < size v -> exists x, nth_error v (Z.to_nat i) = Some x /\ at_ (T:=T) v i = ret x.
Proof.
  unfold size, at_. intros H.
  destruct (nth_error v (Z.to_nat i)) eqn:E.
  - eauto.
  - apply nth_error_None in E. lia.
Qed.

Lemma length_replace_nth {A : Type} (v : list A) (n : nat) (x : A) :
  length (replace_nth v n x) = length v.
Proof.
  revert n. induction v as [| y v IH]; intros [| n]; simpl; auto.
Qed.

Lemma set_at_in_range {A : Type} (v : list A) (i : Z) (x : A) :
  0 <= i < size v -> set_at (T:=T) v i x = ret (replace_nth v (Z.to_nat i) x).
Proof.
  unfold size, set_at. intros H.
  destruct (nth_error v (Z.to_nat i)) eqn:E.
  - reflexivity.
  - apply nth_error_None in E. lia.
Qed.

Lemma size_replace_nth {A : Type} (v : list A) (n : nat) (x : A) :
  size (replace_nth v n x) = size v.
Proof. unfold size. now rewrite length_replace_nth. Qed.

(** ** The convergence criteria *)

Lemma getAbsoluteTolerance_tolerance (c : LightTimeConvergenceCriteria T) :
  getAbsoluteTolerance c = ret (tolerance c, c).
Proof.
  unfold tolerance, getAbsoluteTolerance.
  destruct (absoluteTolerance_ c =? absoluteTolerance_ c)%sc; reflexivity.
Qed.

(** The decision of [isLightTimeSolutionConverged], case by case. *)
Lemma isLightTimeSolutionConverged_below c prev new n corr time upd :
  (s_fabs (new - prev) <? tolerance c)%sc = true ->
  isLightTimeSolutionConverged c prev new n corr time upd = ret (upd, true, c).
Proof.
  intros H. unfold isLightTimeSolutionConverged.
  rewrite getAbsoluteTolerance_tolerance, bind_ret_l. rewrite H.
  destruct upd; reflexivity.
Qed.

Lemma isLightTimeSolutionConverged_not_below c prev new n corr time upd :
  (s_fabs (new - prev) <? tolerance c)%sc = false ->
  isLightTimeSolutionConverged c prev new n corr time upd =
  if n =? maximumNumberOfIterations_ c
  then
    match failureHandling_ c with
    | accept_without_warning => ret (true, upd, c)
    | print_warning_and_accept =>
        ([WarningLightTimeUnconverged (s_fabs (new - prev)%sc) corr time],
         Returned (false, upd, c))
    | throw_exception =>
        raise (ErrorLightTimeUnconverged (s_fabs (new - prev)%sc) corr time)
    end
  else ret (false, upd, c).
Proof.
  intros H. unfold isLightTimeSolutionConverged.
  rewrite getAbsoluteTolerance_tolerance, bind_ret_l. rewrite H.
  destruct (n =? maximumNumberOfIterations_ c); [| reflexivity].
  destruct (failureHandling_ c); reflexivity.
Qed.

(** ** One pass of the loop *)

Lemma set_lightTimeConvergenceCriteria_same (this : LightTimeCalculator T) :
  set_lightTimeConvergenceCriteria this (lightTimeConvergenceCriteria_ this) = this.
Proof. destruct this; reflexivity. Qed.

Lemma sameConfiguration_refl (this : LightTimeCalculator T) :
  sameConfiguration this this.
Proof. repeat split. Qed.

Lemma sameConfiguration_trans (this1 this2 this3 : LightTimeCalculator T) :
  sameConfiguration this1 this2 -> sameConfiguration this2 this3 ->
  sameConfiguration this1 this3.
Proof.
  unfold sameConfiguration. intros (A1 & A2 & A3 & A4) (B1 & B2 & B3 & B4).
  repeat split; congruence.
Qed.

Lemma updateEstimate_configuration time b this v :
  sameConfiguration this (fst (updateEstimate time b this v)).
Proof.
  unfold updateEstimate.
  destruct (updateLightTimeCorrections v), b; repeat split.
Qed.

Lemma updateEstimate_estimate time b this v :
  newLightTimeCalculation (snd (updateEstimate time b this v)) =
  (currentIdealLightTime_ (fst (updateEstimate time b this v))
   + currentCorrection_ (fst (updateEstimate time b this v)))%sc.
Proof.
  unfold updateEstimate.
  destruct (updateLightTimeCorrections v), b; reflexivity.
Qed.

Lemma updateEstimate_frame time b this v :
  previousLightTimeCalculation (snd (updateEstimate time b this v))
    = previousLightTimeCalculation v
  /\ counter (snd (updateEstimate time b this v)) = counter v
  /\ updateLightTimeCorrections (snd (updateEstimate time b this v))
      = updateLightTimeCorrections v
  /\ isToleranceReached (snd (updateEstimate time b this v)) = isToleranceReached v.
Proof.
  unfold updateEstimate.
  destruct (updateLightTimeCorrections v), b; repeat split.
Qed.


Lemma change_eq time b this v :
  change time b this v =
  s_fabs (newLightTimeCalculation (snd (updateEstimate time b this v))
          - previousLightTimeCalculation v)%sc.
Proof.
  unfold change. destruct (updateEstimate_frame time b this v) as (Hp & _).
  destruct (updateEstimate time b this v) as [this1 v1]. simpl in *. now rewrite Hp.
Qed.

(** A pass whose change is below the tolerance: it ends the loop when the
    corrections were updated in it, and asks for their update otherwise. *)
Lemma loopBody_below time b this v :
  belowTolerance time b this v = true ->
  loopBody time b this v =
  ret (fst (updateEstimate time b this v),
       endOfPass (snd (updateEstimate time b this v))
         (updateLightTimeCorrections v) true).
Proof.
  unfold belowTolerance. rewrite change_eq. intros H.
  unfold loopBody.
  destruct (updateEstimate_frame time b this v) as (Hp & Hc & Hu & _).
  destruct (updateEstimate_configuration time b this v) as (_ & _ & _ & Hcr).
  destruct (updateEstimate time b this v) as [this1 v1]. simpl in *.
  rewrite Hp, Hu, Hcr.
  rewrite isLightTimeSolutionConverged_below by assumption.
  rewrite bind_ret_l. rewrite <- Hcr.
  now rewrite set_lightTimeConvergenceCriteria_same.
Qed.

(** A pass whose change is not below the tolerance: the failure handling
    decides when the counter equals the maximum, and the loop goes on
    otherwise. *)
Lemma loopBody_not_below time b this v :
  belowTolerance time b this v = false ->
  loopBody time b this v =
  let this1 := fst (updateEstimate time b this v) in
  let v1 := snd (updateEstimate time b this v) in
  if counter v =? maximumNumberOfIterations_ (lightTimeConvergenceCriteria_ this)
  then
    match failureHandling_ (lightTimeConvergenceCriteria_ this) with
    | accept_without_warning =>
        ret (this1, endOfPass v1 true (updateLightTimeCorrections v))
    | print_warning_and_accept =>
        ([WarningLightTimeUnconverged (change time b this v)
            (currentCorrection_ this1) time],
         Returned (this1, endOfPass v1 false (updateLightTimeCorrections v)))
    | throw_exception =>
        raise (ErrorLightTimeUnconverged (change time b this v)
                 (currentCorrection_ this1) time)
    end
  else ret (this1, endOfPass v1 false (updateLightTimeCorrections v)).
Proof.
  unfold belowTolerance. rewrite change_eq. intros H.
  unfold loopBody.
  destruct (updateEstimate_frame time b this v) as (Hp & Hc & Hu & _).
  destruct (updateEstimate_configuration time b this v) as (_ & _ & _ & Hcr).
  destruct (updateEstimate time b this v) as [this1 v1]. simpl in *.
  rewrite Hp, Hu, Hc, Hcr.
  rewrite isLightTimeSolutionConverged_not_below by assumption.
  destruct (counter v =? maximumNumberOfIterations_ (lightTimeConvergenceCriteria_ this)).
  - destruct (failureHandling_ (lightTimeConvergenceCriteria_ this)).
    + rewrite bind_ret_l, <- Hcr. now rewrite set_lightTimeConvergenceCriteria_same.
    + unfold bind, ret. simpl. rewrite <- Hcr.
      now rewrite set_lightTimeConvergenceCriteria_same.
    + reflexivity.
  - rewrite bind_ret_l, <- Hcr. now rewrite set_lightTimeConvergenceCriteria_same.
Qed.

(** What every pass that returns has established. *)
Lemma loopBody_Returned time b this v l this' v' :
  loopBody time b this v = (l, Returned (this', v')) ->
  this' = fst (updateEstimate time b this v)
  /\ sameConfiguration this this'
  /\ newLightTimeCalculation v' = (currentIdealLightTime_ this' + currentCorrection_ this')%sc
  /\ counter v' = counter v + 1.
Proof.
  intros H.
  pose proof (updateEstimate_configuration time b this v) as Hcfg.
  pose proof (updateEstimate_estimate time b this v) as Hest.
  destruct (updateEstimate_frame time b this v) as (_ & Hc & _ & _).
  destruct (belowTolerance time b this v) eqn:E.
  - rewrite loopBody_below in H by assumption. unfold ret in H.
    inversion H; subst; clear H. simpl. rewrite Hc. auto.
  - rewrite loopBody_not_below in H by assumption. cbv zeta in H.
    destruct (counter v =? _) in H;
      [destruct (failureHandling_ _) in H |]; unfold ret, raise in H;
      inversion H; subst; clear H; simpl; rewrite Hc; auto.
Qed.

(** ** The loop *)

Lemma whileNotToleranceReached_reached fuel time b this v :
  isToleranceReached v = true ->
  whileNotToleranceReached fuel time b this v = ret (this, v).
Proof. intros H. destruct fuel; simpl; rewrite H; reflexivity. Qed.

Lemma whileNotToleranceReached_step fuel time b this v :
  isToleranceReached v = false ->
  whileNotToleranceReached (S fuel) time b this v =
  bind (loopBody time b this v)
    (fun '(this', v') => whileNotToleranceReached fuel time b this' v').
Proof.
  intros H. simpl. rewrite H. reflexivity.
Qed.

(** A loop that returns has gone through a last pass, and a property every
    pass establishes holds of what it returns. *)
Lemma whileNotToleranceReached_Returned
  (I : LightTimeCalculator T -> Locals T -> Prop) time b :
  (forall this v l this' v',
      loopBody time b this v = (l, Returned (this', v')) -> I this' v') ->
  forall fuel this v l this' v',
    isToleranceReached v = false ->
    whileNotToleranceReached fuel time b this v = (l, Returned (this', v')) ->
    I this' v' /\ isToleranceReached v' = true.
Proof.
  intros HI. induction fuel as [| fuel IH]; intros this v l this' v' Hv H.
  - simpl in H. rewrite Hv in H. discriminate.
  - rewrite whileNotToleranceReached_step in H by assumption.
    apply bind_Returned in H. destruct H as (l1 & [this1 v1] & l2 & H1 & H2 & _).
    simpl in H2.
    destruct (isToleranceReached v1) eqn:E.
    + rewrite whileNotToleranceReached_reached in H2 by assumption.
      unfold ret in H2. inversion H2; subst. split; [eapply HI; eassumption | assumption].
    + eapply IH; eassumption.
Qed.

(** More fuel does not change what a loop that has ended gave. *)
Lemma whileNotToleranceReached_more_fuel time b :
  forall fuel this v l r,
    whileNotToleranceReached fuel time b this v = (l, r) ->
    r <> OutOfFuel ->
    forall fuel', (fuel <= fuel')%nat ->
    whileNotToleranceReached fuel' time b this v = (l, r).
Proof.
  induction fuel as [| fuel IH]; intros this v l r H Hr fuel' Hle.
  - simpl in H. destruct (isToleranceReached v) eqn:Hv.
    + rewrite whileNotToleranceReached_reached by assumption. exact H.
    + unfold outOfFuel in H. inversion H; subst. congruence.
  - destruct (isToleranceReached v) eqn:Hv.
    + rewrite whileNotToleranceReached_reached in * by assumption. exact H.
    + destruct fuel' as [| fuel']; [lia |].
      rewrite whileNotToleranceReached_step in * by assumption.
      unfold bind in *.
      destruct (loopBody time b this v) as [l1 [[this1 v1] | e | ]]; try exact H.
      simpl in *.
      destruct (whileNotToleranceReached fuel time b this1 v1) as [l2 r2] eqn:E.
      inversion H; subst.
      rewrite (IH this1 v1 l2 r E Hr fuel') by lia. reflexivity.
Qed.

(** ** The solve *)

Lemma initialLocals_facts (this : LightTimeCalculator T) rt tt :
  let s := initialLocals this rt tt in
  sameConfiguration this (fst s)
  /\ isToleranceReached (snd s) = false
  /\ counter (snd s) = 0
  /\ updateLightTimeCorrections (snd s)
      = iterateCorrections_ (lightTimeConvergenceCriteria_ this)
  /\ currentCorrection_ (fst s)
      = totalLightTimeCorrections (correctionFunctions_ this)
          (stateFunctionOfTransmittingBody_ this tt)
          (stateFunctionOfReceivingBody_ this rt) tt rt.
Proof.
  unfold initialLocals. simpl.
  destruct (iterateCorrections_ (lightTimeConvergenceCriteria_ this)); repeat split.
Qed.

(** What a solve that returns gives back comes from a loop that returned. *)
Lemma calculateLightTimeWithMultiLegLinkEndsStates_Returned
  fuel (this : LightTimeCalculator T) states times time b index l r :
  calculateLightTimeWithMultiLegLinkEndsStates fuel this states times time b index
    = (l, Returned r) ->
  exists rt tt l' v,
    whileNotToleranceReached fuel time b
      (fst (initialLocals this rt tt)) (snd (initialLocals this rt tt))
      = (l', Returned (legCalculator r, v))
    /\ legLightTime r = newLightTimeCalculation v.
Proof.
  unfold calculateLightTimeWithMultiLegLinkEndsStates.
  destruct (negb _ || _); [discriminate |].
  intros H. apply bind_Returned in H.
  destruct H as (l1 & [rt tt] & l2 & _ & H & _).
  destruct (initialLocals this rt tt) as [this0 v0] eqn:E0.
  apply bind_Returned in H. destruct H as (l3 & [this1 v1] & l4 & Hw & H & _).
  exists rt, tt, l3, v1. rewrite E0. simpl.
  unfold setOutput in H.
  repeat (apply bind_Returned in H; destruct H as (? & ? & ? & _ & H & _)).
  unfold ret in H. inversion H; subst. simpl. auto.
Qed.

Lemma whileNotToleranceReached_unroll fuel time b
  (this : LightTimeCalculator T) v l this' v' :
  isToleranceReached v = false ->
  loopBody time b this v = (l, Returned (this', v')) ->
  whileNotToleranceReached (S fuel) time b this v =
  (l ++ fst (whileNotToleranceReached fuel time b this' v'),
   snd (whileNotToleranceReached fuel time b this' v')).
Proof.
  intros Hv Hl. rewrite whileNotToleranceReached_step by assumption.
  now rewrite (bind_eq _ _ _ _ Hl).
Qed.

(** The initial guess of a call with well-formed arguments: the entries of
    the two link ends when neither is a NaN, the input time twice
    otherwise. *)
Lemma initialGuess_in_range (times : list T) time index :
  0 <= index -> index + 1 < size times ->
  exists rt tt,
    initialGuess times time index (index + 1) = ret (rt, tt)
    /\ exists x y,
         nth_error times (Z.to_nat index) = Some x
         /\ nth_error times (Z.to_nat (index + 1)) = Some y
         /\ (rt, tt) = if negb (s_isnan x) && negb (s_isnan y)
                       then (y, x) else (time, time).
Proof.
  intros H0 H1.
  destruct (at_in_range times index) as (x & Hx & _); [lia |].
  destruct (at_in_range times (index + 1)) as (y & Hy & _); [lia |].
  unfold initialGuess, at_. rewrite Hx, Hy. rewrite bind_ret_l.
  destruct (s_isnan x) eqn:Ex; cbn [negb andb]; repeat rewrite bind_ret_l.
  - do 2 eexists. split; [reflexivity |]. exists x, y. rewrite Ex. repeat split.
  - destruct (s_isnan y) eqn:Ey; cbn [negb andb]; repeat rewrite bind_ret_l;
      (do 2 eexists; split; [reflexivity |]; exists x, y; rewrite Ex, Ey;
       repeat split).
Qed.

(** A solve with well-formed arguments is its loop, started from the
    initial guess, and the writing of the outputs. *)
Lemma calculateLightTimeWithMultiLegLinkEndsStates_from_guess
  fuel (this : LightTimeCalculator T) states times time b index rt tt :
  wellFormedArguments states times index ->
  initialGuess times time index (index + 1) = ret (rt, tt) ->
  calculateLightTimeWithMultiLegLinkEndsStates fuel this states times time b index =
  bind (whileNotToleranceReached fuel time b
          (fst (initialLocals this rt tt)) (snd (initialLocals this rt tt)))
    (fun '(this', v') => setOutput this' v' states times index (index + 1)).
Proof.
  intros (Hsize & H0 & H1 & H32) Hg.
  unfold calculateLightTimeWithMultiLegLinkEndsStates.
  assert (Hrx : uint32 (index + 1) = index + 1)
    by (unfold uint32; apply Z.mod_small; lia).
  assert (Hsz : size_t (size times - 1) = size times - 1)
    by (unfold size_t; apply Z.mod_small; lia).
  rewrite Hrx, Hsz.
  replace (size states =? size times) with true by (symmetry; apply Z.eqb_eq; assumption).
  replace (index + 1 >? size times - 1) with false
    by (symmetry; rewrite Z.gtb_ltb; apply Z.ltb_ge; lia).
  cbn [negb orb]. rewrite Hg, bind_ret_l.
  destruct (initialLocals this rt tt) as [this0 v0]. reflexivity.
Qed.

(** The outputs of a call with well-formed arguments are written. *)
Lemma setOutput_in_range (this : LightTimeCalculator T) v states times index :
  wellFormedArguments states times index ->
  exists states' times',
    setOutput this v states times index (index + 1) =
    ([LightTimePrinted (newLightTimeCalculation v)],
     Returned (mkLegResult (newLightTimeCalculation v) this states' times')).
Proof.
  intros (Hsize & H0 & H1 & H32). unfold setOutput.
  rewrite set_at_in_range, bind_ret_l by lia.
  rewrite set_at_in_range, bind_ret_l by (rewrite size_replace_nth; lia).
  rewrite set_at_in_range, bind_ret_l by lia.
  rewrite set_at_in_range, bind_ret_l by (rewrite size_replace_nth; lia).
  do 2 eexists. reflexivity.
Qed.

(** ** A loop that does not end *)

(** With [print_warning_and_accept], a pass whose change is not below the
    tolerance leaves [isToleranceReached] false, whatever the counter. *)
Lemma loopBody_warning_goes_on time b (this : LightTimeCalculator T) v :
  failureHandling_ (lightTimeConvergenceCriteria_ this) = print_warning_and_accept ->
  belowTolerance time b this v = false ->
  exists l this' v',
    loopBody time b this v = (l, Returned (this', v'))
    /\ isToleranceReached v' = false
    /\ (counter v <> maximumNumberOfIterations_ (lightTimeConvergenceCriteria_ this) ->
        l = []).
Proof.
  intros Hp Hb. rewrite loopBody_not_below by assumption. cbv zeta. rewrite Hp.
  destruct (Z.eqb_spec (counter v)
              (maximumNumberOfIterations_ (lightTimeConvergenceCriteria_ this))).
  - do 3 eexists. split; [reflexivity |]. split; [reflexivity | congruence].
  - do 3 eexists. split; [reflexivity |]. split; reflexivity.
Qed.

(** When no change can be below the tolerance and the failure handling is
    [print_warning_and_accept], the loop is still running whatever the fuel. *)
Lemma whileNotToleranceReached_warning_diverges time b :
  forall fuel (this : LightTimeCalculator T) v,
    (forall x : T,
        (s_fabs x <? tolerance (lightTimeConvergenceCriteria_ this))%sc = false) ->
    failureHandling_ (lightTimeConvergenceCriteria_ this) = print_warning_and_accept ->
    isToleranceReached v = false ->
    snd (whileNotToleranceReached fuel time b this v) = OutOfFuel.
Proof.
  induction fuel as [| fuel IH]; intros this v Hnever Hp Hv.
  - simpl. rewrite Hv. reflexivity.
  - rewrite whileNotToleranceReached_step by assumption.
    assert (Hb : belowTolerance time b this v = false)
      by (unfold belowTolerance; rewrite change_eq; apply Hnever).
    destruct (loopBody_warning_goes_on time b this v Hp Hb)
      as (l & this' & v' & Hl & Hv' & _).
    rewrite (bind_eq _ _ _ _ Hl). simpl.
    apply loopBody_Returned in Hl. destruct Hl as (_ & (_ & _ & _ & Hc) & _).
    apply IH; [rewrite Hc; assumption | rewrite Hc; assumption | assumption].
Qed.

(** Once the counter is past the maximum, it also prints nothing more. *)
Lemma whileNotToleranceReached_warning_diverges_quietly time b :
  forall fuel (this : LightTimeCalculator T) v,
    (forall x : T,
        (s_fabs x <? tolerance (lightTimeConvergenceCriteria_ this))%sc = false) ->
    failureHandling_ (lightTimeConvergenceCriteria_ this) = print_warning_and_accept ->
    isToleranceReached v = false ->
    maximumNumberOfIterations_ (lightTimeConvergenceCriteria_ this) < counter v ->
    whileNotToleranceReached fuel time b this v = ([], OutOfFuel).
Proof.
  induction fuel as [| fuel IH]; intros this v Hnever Hp Hv Hmax.
  - simpl. rewrite Hv. reflexivity.
  - rewrite whileNotToleranceReached_step by assumption.
    assert (Hb : belowTolerance time b this v = false)
      by (unfold belowTolerance; rewrite change_eq; apply Hnever).
    destruct (loopBody_warning_goes_on time b this v Hp Hb)
      as (l & this' & v' & Hl & Hv' & Hquiet).
    rewrite (bind_eq _ _ _ _ Hl). simpl.
    rewrite Hquiet by lia.
    apply loopBody_Returned in Hl.
    destruct Hl as (_ & (_ & _ & _ & Hc) & _ & Hcount).
    rewrite IH; [reflexivity | rewrite Hc; assumption | rewrite Hc; assumption
                | assumption | rewrite Hc; lia].
Qed.

(** The solve around such a loop is still running as well. *)
Lemma calculateLightTimeWithMultiLegLinkEndsStates_warning_diverges
  fuel (this : LightTimeCalculator T) states times time b index :
  wellFormedArguments states times index ->
  (forall x : T,
      (s_fabs x <? tolerance (lightTimeConvergenceCriteria_ this))%sc = false) ->
  failureHandling_ (lightTimeConvergenceCriteria_ this) = print_warning_and_accept ->
  snd (calculateLightTimeWithMultiLegLinkEndsStates fuel this states times time b index)
  = OutOfFuel.
Proof.
  intros Hwf Hnever Hp.
  pose proof Hwf as (_ & H0 & H1 & _).
  destruct (initialGuess_in_range times time index H0 H1) as (rt & tt & Hg & _).
  rewrite (calculateLightTimeWithMultiLegLinkEndsStates_from_guess
             fuel this states times time b index rt tt Hwf Hg).
  destruct (initialLocals_facts this rt tt) as ((_ & _ & _ & Hc) & Hv & _).
  pose proof (whileNotToleranceReached_warning_diverges time b fuel
                (fst (initialLocals this rt tt)) (snd (initialLocals this rt tt))) as Hd.
  rewrite Hc in Hd. specialize (Hd Hnever Hp Hv).
  unfold bind.
  destruct (whileNotToleranceReached fuel time b _ _) as [l r].
  simpl in Hd. subst r. reflexivity.
Qed.

(** ** The passes of a loop, one by one *)

Lemma stateAt_Some_running k time b (this : LightTimeCalculator T) v this' v' :
  stateAt k time b this v = Some (this', v') ->
  isToleranceReached v = false /\ isToleranceReached v' = false.
Proof.
  revert this v. induction k as [| k IH]; intros this v H; simpl in H.
  - destruct (isToleranceReached v) eqn:E; [discriminate |].
    inversion H; subst. auto.
  - destruct (isToleranceReached v) eqn:E; [discriminate |].
    destruct (loopBody time b this v) as [l [[this1 v1] | e | ]]; try discriminate.
    split; [reflexivity | eapply IH; eassumption].
Qed.

Lemma stateAt_S k time b (this : LightTimeCalculator T) v l this1 v1 :
  isToleranceReached v = false ->
  loopBody time b this v = (l, Returned (this1, v1)) ->
  stateAt (S k) time b this v = stateAt k time b this1 v1.
Proof. intros Hv Hl. simpl. rewrite Hv, Hl. reflexivity. Qed.

(** Pass [k + 1] is found from where pass [k] is. *)
Lemma stateAt_snoc k time b : forall (this : LightTimeCalculator T) v,
  stateAt (S k) time b this v =
  match stateAt k time b this v with
  | Some (this', v') =>
      match loopBody time b this' v' with
      | (_, Returned (this'', v'')) =>
          if isToleranceReached v'' then None else Some (this'', v'')
      | _ => None
      end
  | None => None
  end.
Proof.
  induction k as [| k IH]; intros this v.
  - simpl. destruct (isToleranceReached v); [reflexivity |].
    destruct (loopBody time b this v) as [l [[this1 v1] | e | ]]; reflexivity.
  - change (stateAt (S (S k)) time b this v) with
      (if isToleranceReached v then None
       else match loopBody time b this v with
            | (_, Returned (this', v')) => stateAt (S k) time b this' v'
            | _ => None
            end).
    change (stateAt (S k) time b this v) with
      (if isToleranceReached v then None
       else match loopBody time b this v with
            | (_, Returned (this', v')) => stateAt k time b this' v'
            | _ => None
            end).
    destruct (isToleranceReached v); [reflexivity |].
    destruct (loopBody time b this v) as [l [[this1 v1] | e | ]]; try reflexivity.
    apply IH.
Qed.

Lemma stateAt_configuration k time b : forall (this : LightTimeCalculator T) v this' v',
  stateAt k time b this v = Some (this', v') -> sameConfiguration this this'.
Proof.
  induction k as [| k IH]; intros this v this' v' H; simpl in H;
    destruct (isToleranceReached v); try discriminate.
  - inversion H; subst. apply sameConfiguration_refl.
  - destruct (loopBody time b this v) as [l [[this1 v1] | e | ]] eqn:E;
      try discriminate.
    apply loopBody_Returned in E. destruct E as (_ & Hc & _).
    eapply sameConfiguration_trans; [exact Hc |]. eapply IH; eassumption.
Qed.

(** The loop with enough fuel to get to pass [k] goes on from there. *)
Lemma whileNotToleranceReached_stateAt k time b :
  forall (this : LightTimeCalculator T) v this' v',
    stateAt k time b this v = Some (this', v') ->
    exists l, forall fuel,
      whileNotToleranceReached (k + fuel) time b this v =
      (l ++ fst (whileNotToleranceReached fuel time b this' v'),
       snd (whileNotToleranceReached fuel time b this' v')).
Proof.
  induction k as [| k IH]; intros this v this' v' H; simpl in H;
    destruct (isToleranceReached v) eqn:Hv; try discriminate.
  - inversion H; subst. exists []. intros fuel. simpl.
    destruct (whileNotToleranceReached fuel time b this' v'). reflexivity.
  - destruct (loopBody time b this v) as [l1 [[this1 v1] | e | ]] eqn:E;
      try discriminate.
    destruct (IH _ _ _ _ H) as (l2 & Hl2).
    exists (l1 ++ l2). intros fuel.
    change (S k + fuel)%nat with (S (k + fuel)).
    rewrite (whileNotToleranceReached_unroll _ _ _ _ _ _ _ _ Hv E).
    rewrite Hl2. simpl. now rewrite app_assoc.
Qed.





Lemma stateAt_counter k time b :
  forall (this : LightTimeCalculator T) v this' v',
    stateAt k time b this v = Some (this', v') ->
    counter v' = counter v + Z.of_nat k.
Proof.
  induction k as [| k IH]; intros this v this' v' H.
  - simpl in H. destruct (isToleranceReached v); [discriminate |].
    inversion H; subst. lia.
  - destruct (stateAt_Some_running _ _ _ _ _ _ _ H) as (Hv & _).
    simpl in H. rewrite Hv in H.
    destruct (loopBody time b this v) as [l1 [[this1 v1] | e | ]] eqn:E;
      try discriminate.
    apply loopBody_Returned in E. destruct E as (_ & _ & _ & Hc).
    rewrite (IH _ _ _ _ H), Hc. lia.
Qed.

(** ** The failure handling *)

(** X1: when pass [k] of a solve finds the counter at the maximum number of
    iterations and a change of the estimate that is not below the tolerance:
    with [accept_without_warning] the solve returns the estimate of that
    pass; with [throw_exception] it raises the error that carries the
    change, the total correction and the input time; with
    [print_warning_and_accept] it prints the warning that carries them and
    runs pass [k + 1]. *)
Theorem failure_handling_at_maximum
  (this : LightTimeCalculator T) states times time b index rt tt
  (k : nat) thisk vk :
  let this' := fst (updateEstimate time b thisk vk) in
  let v' := snd (updateEstimate time b thisk vk) in
  wellFormedArguments states times index ->
  initialGuess times time index (index + 1) = ret (rt, tt) ->
  stateAt k time b (fst (initialLocals this rt tt)) (snd (initialLocals this rt tt))
  = Some (thisk, vk) ->
  Z.of_nat k = maximumNumberOfIterations_ (lightTimeConvergenceCriteria_ this) ->
  belowTolerance time b thisk vk = false ->
  exists l,
    (failureHandling_ (lightTimeConvergenceCriteria_ this) = accept_without_warning ->
     forall fuel, exists r,
       calculateLightTimeWithMultiLegLinkEndsStates (k + S fuel) this states times
         time b index
       = (l ++ [LightTimePrinted (newLightTimeCalculation v')], Returned r)
       /\ legLightTime r = newLightTimeCalculation v')
    /\ (failureHandling_ (lightTimeConvergenceCriteria_ this) = throw_exception ->
        forall fuel,
          calculateLightTimeWithMultiLegLinkEndsStates (k + S fuel) this states times
            time b index
          = (l, Raised (ErrorLightTimeUnconverged (change time b thisk vk)
                          (currentCorrection_ this') time)))
    /\ (failureHandling_ (lightTimeConvergenceCriteria_ this) = print_warning_and_accept ->
        loopBody time b thisk vk
        = ([WarningLightTimeUnconverged (change time b thisk vk)
              (currentCorrection_ this') time],
           Returned (this', endOfPass v' false (updateLightTimeCorrections vk)))
        /\ stateAt (S k) time b
             (fst (initialLocals this rt tt)) (snd (initialLocals this rt tt))
           = Some (this', endOfPass v' false (updateLightTimeCorrections vk))).
Proof.
  intros this' v' Hwf Hg Hk Hmax Hb.
  destruct (initialLocals_facts this rt tt) as (Hc0 & _ & Hcount0 & _).
  pose proof (stateAt_configuration _ _ _ _ _ _ _ Hk) as Hck.
  destruct (sameConfiguration_trans _ _ _ Hc0 Hck) as (_ & _ & _ & Hcrit).
  pose proof (stateAt_counter _ _ _ _ _ _ _ Hk) as Hcount.
  rewrite Hcount0 in Hcount. simpl in Hcount.
  pose proof (loopBody_not_below time b thisk vk Hb) as Hbody. cbv zeta in Hbody.
  fold this' v' in Hbody. rewrite Hcrit, Hcount, Hmax, Z.eqb_refl in Hbody.
  destruct (stateAt_Some_running _ _ _ _ _ _ _ Hk) as (_ & Hvk).
  destruct (whileNotToleranceReached_stateAt _ _ _ _ _ _ _ Hk) as (l & Hl).
  exists l. split; [| split]; intros Hp; rewrite Hp in Hbody.
  - intros fuel.
    destruct (setOutput_in_range this' (endOfPass v' true (updateLightTimeCorrections vk))
                states times index Hwf) as (states' & times' & Hout).
    eexists.
    rewrite (calculateLightTimeWithMultiLegLinkEndsStates_from_guess
               _ this states times time b index rt tt Hwf Hg).
    rewrite Hl, (whileNotToleranceReached_unroll _ _ _ _ _ _ _ _ Hvk Hbody).
    rewrite whileNotToleranceReached_reached by reflexivity.
    unfold bind, ret. simpl. rewrite Hout. simpl.
    rewrite app_nil_r. split; reflexivity.
  - intros fuel.
    rewrite (calculateLightTimeWithMultiLegLinkEndsStates_from_guess
               _ this states times time b index rt tt Hwf Hg).
    rewrite Hl, whileNotToleranceReached_step, Hbody by assumption.
    unfold bind, raise. simpl. now rewrite app_nil_r.
  - split; [exact Hbody |].
    rewrite stateAt_snoc, Hk, Hbody. reflexivity.
Qed.

(** ** A bound on the passes *)

(** With the corrections updated in every pass, a failure handling that is
    not [print_warning_and_accept] and the counter at most the maximum, the
    loop ends by the pass whose counter is the maximum. *)
Lemma whileNotToleranceReached_bounded time b :
  forall (n : nat) (this : LightTimeCalculator T) v,
    updateLightTimeCorrections v = true ->
    isToleranceReached v = false ->
    counter v + Z.of_nat n
    = maximumNumberOfIterations_ (lightTimeConvergenceCriteria_ this) ->
    failureHandling_ (lightTimeConvergenceCriteria_ this) <> print_warning_and_accept ->
    snd (whileNotToleranceReached (S n) time b this v) <> OutOfFuel.
Proof.
  induction n as [| n IH]; intros this v Hu Hv Hcount Hp;
    rewrite whileNotToleranceReached_step by assumption;
    destruct (belowTolerance time b this v) eqn:Hb.
  - rewrite loopBody_below, bind_ret_l, Hu by assumption.
    rewrite whileNotToleranceReached_reached by reflexivity. discriminate.
  - rewrite loopBody_not_below by assumption. cbv zeta.
    replace (counter v =? _) with true by (symmetry; apply Z.eqb_eq; lia).
    destruct (failureHandling_ (lightTimeConvergenceCriteria_ this));
      [| contradiction | discriminate].
    rewrite bind_ret_l, whileNotToleranceReached_reached by reflexivity.
    discriminate.
  - rewrite loopBody_below, bind_ret_l, Hu by assumption.
    rewrite whileNotToleranceReached_reached by reflexivity. discriminate.
  - rewrite loopBody_not_below by assumption. cbv zeta.
    replace (counter v =? _) with false by (symmetry; apply Z.eqb_neq; lia).
    rewrite bind_ret_l.
    destruct (updateEstimate_configuration time b this v) as (_ & _ & _ & Hc).
    destruct (updateEstimate_frame time b this v) as (_ & Hcv & _).
    apply IH; try reflexivity.
    + simpl. assumption.
    + rewrite Hc. simpl. rewrite Hcv. lia.
    + rewrite Hc. assumption.
Qed.

(** X2: when the criteria iterate the corrections and the failure handling
    is not [print_warning_and_accept], a solve with well-formed arguments has
    returned or raised within as many passes as the maximum number of
    iterations (not negative) plus one. *)
Theorem iterated_corrections_bound_the_passes
  (this : LightTimeCalculator T) states times time b index :
  wellFormedArguments states times index ->
  iterateCorrections_ (lightTimeConvergenceCriteria_ this) = true ->
  0 <= maximumNumberOfIterations_ (lightTimeConvergenceCriteria_ this) ->
  failureHandling_ (lightTimeConvergenceCriteria_ this) <> print_warning_and_accept ->
  snd (calculateLightTimeWithMultiLegLinkEndsStates
         (S (Z.to_nat (maximumNumberOfIterations_ (lightTimeConvergenceCriteria_ this))))
         this states times time b index)
  <> OutOfFuel.
Proof.
  intros Hwf Hit Hmax Hp.
  pose proof Hwf as (_ & H0 & H1 & _).
  destruct (initialGuess_in_range times time index H0 H1) as (rt & tt & Hg & _).
  rewrite (calculateLightTimeWithMultiLegLinkEndsStates_from_guess
             _ this states times time b index rt tt Hwf Hg).
  destruct (initialLocals_facts this rt tt) as ((_ & _ & _ & Hc) & Hv & Hcount & Hu & _).
  pose proof (whileNotToleranceReached_bounded time b
                (Z.to_nat (maximumNumberOfIterations_ (lightTimeConvergenceCriteria_ this)))
                (fst (initialLocals this rt tt)) (snd (initialLocals this rt tt))) as Hb.
  rewrite Hc, Hu, Hcount in Hb.
  specialize (Hb Hit Hv).
  rewrite Z2Nat.id in Hb by assumption. specialize (Hb eq_refl Hp).
  unfold bind.
  destruct (whileNotToleranceReached _ time b _ _) as [l [[this1 v1] | e | ]].
  - destruct (setOutput_in_range this1 v1 states times index Hwf)
      as (states' & times' & ->). discriminate.
  - discriminate.
  - contradiction.
Qed.

(** ** Fuel *)

(** A solve that has returned or raised with some fuel does the same with
    any more fuel: the fuel only bounds the passes the loop is followed
    for. *)
Theorem more_fuel_same_result
  fuel fuel' (this : LightTimeCalculator T) states times time b index l r :
  calculateLightTimeWithMultiLegLinkEndsStates fuel this states times time b index
  = (l, r) ->
  r <> OutOfFuel ->
  (fuel <= fuel')%nat ->
  calculateLightTimeWithMultiLegLinkEndsStates fuel' this states times time b index
  = (l, r).
Proof.
  unfold calculateLightTimeWithMultiLegLinkEndsStates.
  destruct (negb _ || _); [auto |].
  destruct (initialGuess times time index (uint32 (index + 1)))
    as [lg [[rt tt] | e | ]]; auto.
  unfold bind at 1 3.
  destruct (initialLocals this rt tt) as [this0 v0].
  intros H Hr Hle.
  destruct (whileNotToleranceReached fuel time b this0 v0) as [lw rw] eqn:Ew.
  assert (Hrw : rw <> OutOfFuel).
  { intros ->. unfold bind in H. inversion H; subst. congruence. }
  rewrite (whileNotToleranceReached_more_fuel time b fuel this0 v0 lw rw Ew Hrw fuel' Hle).
  exact H.
Qed.

(** ** The pass that guards the convergence *)


(** ** The states and the ideal light time of a pass *)

Lemma updateEstimate_states time b (this : LightTimeCalculator T) v :
  receiverState (snd (updateEstimate time b this v)) =
    (if b then receiverState v
     else stateFunctionOfReceivingBody_ this (time + previousLightTimeCalculation v)%sc)
  /\ transmitterState (snd (updateEstimate time b this v)) =
    (if b
     then stateFunctionOfTransmittingBody_ this (time - previousLightTimeCalculation v)%sc
     else transmitterState v)
  /\ currentIdealLightTime_ (fst (updateEstimate time b this v)) =
     (norm (segment_0_3
              (state_sub (receiverState (snd (updateEstimate time b this v)))
                 (transmitterState (snd (updateEstimate time b this v)))))
      / getSpeedOfLight)%sc.
Proof.
  unfold updateEstimate.
  destruct (updateLightTimeCorrections v), b; repeat split.
Qed.

(** ** The tolerance of the criteria *)

(** C9: [getAbsoluteTolerance] returns the tolerance the criteria were
    built with whenever it was set, that is, whenever it is not a NaN, and
    the default tolerance of the scalar type otherwise.  The call prints
    nothing, throws nothing and leaves the criteria object as it was.  A NaN
    is what does not equal itself, as IEEE comparison has it. *)
Theorem getAbsoluteTolerance_explicit_or_default
  (Hnan : forall x : T, (x =? x)%sc = negb (s_isnan x))
  (c : LightTimeConvergenceCriteria T) :
  (s_isnan (absoluteTolerance_ c) = false ->
   getAbsoluteTolerance c = ([], Returned (absoluteTolerance_ c, c)))
  /\ (s_isnan (absoluteTolerance_ c) = true ->
      getAbsoluteTolerance c = ([], Returned (getDefaultLightTimeTolerance, c))).
Proof.
  unfold getAbsoluteTolerance. rewrite Hnan.
  split; intros ->; reflexivity.
Qed.

(** ** The cache of the calculator *)

(** C10: when a single-leg solve returns, the light time it returns is the
    sum of the ideal light time and of the total correction the calculator
    holds after the call. *)
Theorem returned_light_time_is_cached_sum
  fuel (this : LightTimeCalculator T) states times time b index l r :
  calculateLightTimeWithMultiLegLinkEndsStates fuel this states times time b index
    = (l, Returned r) ->
  legLightTime r =
  (getCurrentIdealLightTime (legCalculator r)
   + getCurrentLightTimeCorrection (legCalculator r))%sc.
Proof.
  intros H.
  apply calculateLightTimeWithMultiLegLinkEndsStates_Returned in H.
  destruct H as (rt & tt & l' & v & Hw & Hr).
  rewrite Hr. unfold getCurrentIdealLightTime, getCurrentLightTimeCorrection.
  eapply (whileNotToleranceReached_Returned
            (fun this' v' =>
               newLightTimeCalculation v' =
               (currentIdealLightTime_ this' + currentCorrection_ this')%sc)).
  - intros this0 v0 l0 this1 v1 Hb. apply loopBody_Returned in Hb. tauto.
  - apply initialLocals_facts.
  - exact Hw.
Qed.

(** ** What a solve leaves behind *)

Lemma nth_error_replace_nth_same {A : Type} (v : list A) (n : nat) (x : A) :
  (n < length v)%nat -> nth_error (replace_nth v n x) n = Some x.
Proof.
  revert n. induction v as [| y v IH]; intros [| n] H; simpl in *; try lia.
  - reflexivity.
  - apply IH. lia.
Qed.

Lemma nth_error_replace_nth_other {A : Type} (v : list A) (n m : nat) (x : A) :
  n <> m -> nth_error (replace_nth v n x) m = nth_error v m.
Proof.
  revert n m. induction v as [| y v IH]; intros [| n] [| m] H; simpl; try reflexivity.
  - contradiction.
  - apply IH. congruence.
Qed.

(** The outputs of a call with well-formed arguments, entry by entry. *)
Lemma setOutput_eq (this : LightTimeCalculator T) v states times index :
  wellFormedArguments states times index ->
  setOutput this v states times index (index + 1) =
  ([LightTimePrinted (newLightTimeCalculation v)],
   Returned
     (mkLegResult (newLightTimeCalculation v) this
        (replace_nth (replace_nth states (Z.to_nat (index + 1)) (receiverState v))
           (Z.to_nat index) (transmitterState v))
        (replace_nth (replace_nth times (Z.to_nat (index + 1)) (receptionTime v))
           (Z.to_nat index) (transmissionTime v)))).
Proof.
  intros (Hsize & H0 & H1 & H32). unfold setOutput.
  rewrite set_at_in_range, bind_ret_l by lia.
  rewrite set_at_in_range, bind_ret_l by (rewrite size_replace_nth; lia).
  rewrite set_at_in_range, bind_ret_l by lia.
  rewrite set_at_in_range, bind_ret_l by (rewrite size_replace_nth; lia).
  reflexivity.
Qed.

Lemma updateEstimate_times time b (this : LightTimeCalculator T) v :
  receptionTime (snd (updateEstimate time b this v)) =
    (if b then time else (time + previousLightTimeCalculation v)%sc)
  /\ transmissionTime (snd (updateEstimate time b this v)) =
    (if b then (time - previousLightTimeCalculation v)%sc else time).
Proof.
  unfold updateEstimate.
  destruct (updateLightTimeCorrections v), b; split; reflexivity.
Qed.

(** The locals a pass leaves are those of its estimate, but for the
    decision. *)
Lemma loopBody_Returned_shape time b (this : LightTimeCalculator T) v l this' v' :
  loopBody time b this v = (l, Returned (this', v')) ->
  this' = fst (updateEstimate time b this v)
  /\ exists reached update,
       v' = endOfPass (snd (updateEstimate time b this v)) reached update.
Proof.
  intros H. destruct (belowTolerance time b this v) eqn:E.
  - rewrite loopBody_below in H by assumption. unfold ret in H.
    inversion H; subst. eauto.
  - rewrite loopBody_not_below in H by assumption. cbv zeta in H.
    destruct (counter v =? _) in H;
      [destruct (failureHandling_ _) in H |]; unfold ret, raise in H;
      inversion H; subst; eauto.
Qed.

(** A loop that returns has left a last pass, which it got to. *)
Lemma whileNotToleranceReached_last_pass time b :
  forall fuel (this : LightTimeCalculator T) v l this' v',
    isToleranceReached v = false ->
    whileNotToleranceReached fuel time b this v = (l, Returned (this', v')) ->
    exists k thisk vk lk,
      stateAt k time b this v = Some (thisk, vk)
      /\ loopBody time b thisk vk = (lk, Returned (this', v'))
      /\ isToleranceReached v' = true.
Proof.
  induction fuel as [| fuel IH]; intros this v l this' v' Hv H.
  - simpl in H. rewrite Hv in H. discriminate.
  - rewrite whileNotToleranceReached_step in H by assumption.
    apply bind_Returned in H. destruct H as (l1 & [this1 v1] & l2 & H1 & H2 & _).
    simpl in H2. destruct (isToleranceReached v1) eqn:E.
    + rewrite whileNotToleranceReached_reached in H2 by assumption.
      unfold ret in H2. inversion H2; subst.
      exists 0%nat, this, v, l1. simpl. rewrite Hv. auto.
    + destruct (IH _ _ _ _ _ E H2) as (k & thisk & vk & lk & Hk & Hl & Hr).
      exists (S k), thisk, vk, lk.
      rewrite (stateAt_S _ _ _ _ _ _ _ _ Hv H1). auto.
Qed.

(** A property of the calculator and the locals that every pass keeps
    holds wherever the loop gets. *)
Lemma stateAt_invariant (J : LightTimeCalculator T -> Locals T -> Prop) time b :
  (forall this v l this' v',
      J this v -> loopBody time b this v = (l, Returned (this', v')) -> J this' v') ->
  forall k this v thisk vk,
    J this v -> stateAt k time b this v = Some (thisk, vk) -> J thisk vk.
Proof.
  intros HJ. induction k as [| k IH]; intros this v thisk vk Hthis H; simpl in H;
    destruct (isToleranceReached v); try discriminate.
  - inversion H; subst. assumption.
  - destruct (loopBody time b this v) as [l1 [[this1 v1] | e | ]] eqn:E;
      try discriminate.
    eapply IH; [| exact H]. eapply HJ; eassumption.
Qed.

(** A solve with well-formed arguments that returns: the pass it ended
    with, and what it gives back, entry by entry. *)
Lemma calculateLightTimeWithMultiLegLinkEndsStates_Returned_inv
  fuel (this : LightTimeCalculator T) states times time b index l r :
  wellFormedArguments states times index ->
  calculateLightTimeWithMultiLegLinkEndsStates fuel this states times time b index
  = (l, Returned r) ->
  exists rt tt k thisk vk lw,
    initialGuess times time index (index + 1) = ret (rt, tt)
    /\ stateAt k time b (fst (initialLocals this rt tt)) (snd (initialLocals this rt tt))
       = Some (thisk, vk)
    /\ (exists lk update,
          loopBody time b thisk vk =
          (lk, Returned (fst (updateEstimate time b thisk vk),
                         endOfPass (snd (updateEstimate time b thisk vk)) true update)))
    /\ r = mkLegResult
             (newLightTimeCalculation (snd (updateEstimate time b thisk vk)))
             (fst (updateEstimate time b thisk vk))
             (replace_nth
                (replace_nth states (Z.to_nat (index + 1))
                   (receiverState (snd (updateEstimate time b thisk vk))))
                (Z.to_nat index)
                (transmitterState (snd (updateEstimate time b thisk vk))))
             (replace_nth
                (replace_nth times (Z.to_nat (index + 1))
                   (receptionTime (snd (updateEstimate time b thisk vk))))
                (Z.to_nat index)
                (transmissionTime (snd (updateEstimate time b thisk vk))))
    /\ l = lw ++ [LightTimePrinted
                    (newLightTimeCalculation (snd (updateEstimate time b thisk vk)))].
Proof.
  intros Hwf H.
  pose proof Hwf as (_ & H0 & H1 & _).
  destruct (initialGuess_in_range times time index H0 H1) as (rt & tt & Hg & _).
  rewrite (calculateLightTimeWithMultiLegLinkEndsStates_from_guess
             _ this states times time b index rt tt Hwf Hg) in H.
  apply bind_Returned in H. destruct H as (l1 & [this' v'] & l2 & Hw & Hout & Hl).
  destruct (initialLocals_facts this rt tt) as (_ & Hv0 & _).
  destruct (whileNotToleranceReached_last_pass _ _ _ _ _ _ _ _ Hv0 Hw)
    as (k & thisk & vk & lk & Hk & Hbody & Hreached).
  destruct (loopBody_Returned_shape _ _ _ _ _ _ _ Hbody) as (-> & reached & update & ->).
  simpl in Hreached. subst reached.
  rewrite setOutput_eq in Hout by assumption.
  inversion Hout; subst. simpl.
  exists rt, tt, k, thisk, vk, l1. repeat split; eauto.
Qed.

Lemma nth_error_outputs {A : Type} (v : list A) (index : Z) (x y : A) :
  0 <= index -> index + 1 < size v ->
  nth_error (replace_nth (replace_nth v (Z.to_nat (index + 1)) y) (Z.to_nat index) x)
    (Z.to_nat index) = Some x
  /\ nth_error (replace_nth (replace_nth v (Z.to_nat (index + 1)) y) (Z.to_nat index) x)
       (Z.to_nat (index + 1)) = Some y.
Proof.
  unfold size. intros H0 H1. split.
  - apply nth_error_replace_nth_same. rewrite length_replace_nth. lia.
  - rewrite nth_error_replace_nth_other by lia.
    apply nth_error_replace_nth_same. lia.
Qed.

Lemma initialLocals_states (this : LightTimeCalculator T) rt tt :
  receiverState (snd (initialLocals this rt tt)) = stateFunctionOfReceivingBody_ this rt
  /\ transmitterState (snd (initialLocals this rt tt))
     = stateFunctionOfTransmittingBody_ this tt.
Proof. split; reflexivity. Qed.

(** The four entries a returned solve writes, from the arguments of the
    call and the estimate [previous] its last pass started from. *)
Lemma calculateLightTimeWithMultiLegLinkEndsStates_outputs
  fuel (this : LightTimeCalculator T) states times time b index l r :
  wellFormedArguments states times index ->
  calculateLightTimeWithMultiLegLinkEndsStates fuel this states times time b index
  = (l, Returned r) ->
  exists x y previous,
    nth_error times (Z.to_nat index) = Some x
    /\ nth_error times (Z.to_nat (index + 1)) = Some y
    /\ nth_error (legLinkEndsTimes r) (Z.to_nat index)
       = Some (if b then (time - previous)%sc else time)
    /\ nth_error (legLinkEndsTimes r) (Z.to_nat (index + 1))
       = Some (if b then time else (time + previous)%sc)
    /\ nth_error (legLinkEndsStates r) (Z.to_nat index)
       = Some (stateFunctionOfTransmittingBody_ this
                 (if b then (time - previous)%sc
                  else if negb (s_isnan x) && negb (s_isnan y) then x else time))
    /\ nth_error (legLinkEndsStates r) (Z.to_nat (index + 1))
       = Some (stateFunctionOfReceivingBody_ this
                 (if b then (if negb (s_isnan x) && negb (s_isnan y) then y else time)
                  else (time + previous)%sc))
    /\ (forall sT sR,
          nth_error (legLinkEndsStates r) (Z.to_nat index) = Some sT ->
          nth_error (legLinkEndsStates r) (Z.to_nat (index + 1)) = Some sR ->
          getCurrentIdealLightTime (legCalculator r)
          = (norm (segment_0_3 (state_sub sR sT)) / getSpeedOfLight)%sc).
Proof.
  intros Hwf H.
  destruct (calculateLightTimeWithMultiLegLinkEndsStates_Returned_inv
              _ _ _ _ _ _ _ _ _ Hwf H)
    as (rt & tt & k & thisk & vk & lw & Hg & Hk & _ & -> & _).
  cbn [legLinkEndsStates legLinkEndsTimes legCalculator].
  destruct Hwf as (Hsize & H0 & H1 & _).
  destruct (initialGuess_in_range times time index H0 H1)
    as (rt' & tt' & Hg' & x & y & Hx & Hy & Hxy).
  rewrite Hg in Hg'. unfold ret in Hg'. inversion Hg'; subst rt' tt'. clear Hg'.
  exists x, y, (previousLightTimeCalculation vk).
  split; [exact Hx |]. split; [exact Hy |].
  destruct (nth_error_outputs states index
              (transmitterState (snd (updateEstimate time b thisk vk)))
              (receiverState (snd (updateEstimate time b thisk vk))) H0)
    as (HsT & HsR); [lia |].
  destruct (nth_error_outputs times index
              (transmissionTime (snd (updateEstimate time b thisk vk)))
              (receptionTime (snd (updateEstimate time b thisk vk))) H0 H1)
    as (HtT & HtR).
  destruct (updateEstimate_states time b thisk vk) as (HR & HT & Hideal).
  destruct (updateEstimate_times time b thisk vk) as (HtR' & HtT').
  assert (Hc : sameConfiguration this thisk).
  { eapply sameConfiguration_trans; [| eapply stateAt_configuration; exact Hk].
    apply (initialLocals_facts this rt tt). }
  destruct Hc as (Htx & Hrx & _).
  assert (HJ : if b
               then receiverState vk = stateFunctionOfReceivingBody_ this rt
               else transmitterState vk = stateFunctionOfTransmittingBody_ this tt).
  { refine (stateAt_invariant
              (fun _ v => if b
                          then receiverState v = stateFunctionOfReceivingBody_ this rt
                          else transmitterState v = stateFunctionOfTransmittingBody_ this tt)
              time b _ k _ _ _ _ _ Hk).
    - intros this1 v1 l1 this2 v2 HJ Hbody.
      destruct (loopBody_Returned_shape _ _ _ _ _ _ _ Hbody) as (_ & reached & update & ->).
      destruct (updateEstimate_states time b this1 v1) as (HR1 & HT1 & _).
      cbn [endOfPass receiverState transmitterState].
      destruct b; congruence.
    - destruct (initialLocals_states this rt tt) as (HR0 & HT0).
      destruct b; assumption. }
  rewrite HsT, HsR, HtT, HtR, HtR', HtT'.
  split; [destruct b; reflexivity |]. split; [destruct b; reflexivity |].
  split; [| split].
  - rewrite HT. destruct b; [congruence |]. rewrite HJ.
    destruct (negb (s_isnan x) && negb (s_isnan y)); inversion Hxy; reflexivity.
  - rewrite HR. destruct b; [| congruence]. rewrite HJ.
    destruct (negb (s_isnan x) && negb (s_isnan y)); inversion Hxy; reflexivity.
  - intros sT sR HT' HR'. inversion HT'. inversion HR'. exact Hideal.
Qed.

(** X3: a single-leg solve that returns leaves both vectors at their sizes
    and writes the entries of its transmitter and of its receiver only: every
    other entry of the states and of the times is the one the caller passed.
    The calculator it leaves has the state functions, the corrections and the
    criteria it had. *)
Theorem solve_writes_its_two_entries_only
  fuel (this : LightTimeCalculator T) states times time b index l r :
  wellFormedArguments states times index ->
  calculateLightTimeWithMultiLegLinkEndsStates fuel this states times time b index
  = (l, Returned r) ->
  size (legLinkEndsStates r) = size states
  /\ size (legLinkEndsTimes r) = size times
  /\ (forall i : nat, i <> Z.to_nat index -> i <> Z.to_nat (index + 1) ->
      nth_error (legLinkEndsStates r) i = nth_error states i
      /\ nth_error (legLinkEndsTimes r) i = nth_error times i)
  /\ sameConfiguration this (legCalculator r).
Proof.
  intros Hwf H.
  destruct (calculateLightTimeWithMultiLegLinkEndsStates_Returned_inv
              _ _ _ _ _ _ _ _ _ Hwf H)
    as (rt & tt & k & thisk & vk & lw & Hg & Hk & _ & -> & _).
  cbn [legLinkEndsStates legLinkEndsTimes legCalculator].
  rewrite !size_replace_nth.
  split; [reflexivity |]. split; [reflexivity |]. split.
  - intros i Hi Hi'.
    split; rewrite !nth_error_replace_nth_other by congruence; reflexivity.
  - eapply sameConfiguration_trans; [| apply updateEstimate_configuration].
    eapply sameConfiguration_trans; [| eapply stateAt_configuration; exact Hk].
    apply (initialLocals_facts this rt tt).
Qed.

(** X4: what a returned single-leg solve leaves for the link end it solved
    for.  The time it wrote for the end whose time is given is that time; the
    state it wrote for the other end is the state function of that end at the
    time it wrote for it; and the ideal light time the calculator caches is
    the distance between the two positions it wrote, over the speed of
    light. *)
Theorem solved_end_is_on_its_state_function
  fuel (this : LightTimeCalculator T) states times time b index l r :
  wellFormedArguments states times index ->
  calculateLightTimeWithMultiLegLinkEndsStates fuel this states times time b index
  = (l, Returned r) ->
  exists sT sR tT tR,
    nth_error (legLinkEndsStates r) (Z.to_nat index) = Some sT
    /\ nth_error (legLinkEndsStates r) (Z.to_nat (index + 1)) = Some sR
    /\ nth_error (legLinkEndsTimes r) (Z.to_nat index) = Some tT
    /\ nth_error (legLinkEndsTimes r) (Z.to_nat (index + 1)) = Some tR
    /\ getCurrentIdealLightTime (legCalculator r)
       = (norm (segment_0_3 (state_sub sR sT)) / getSpeedOfLight)%sc
    /\ (if b then tR = time /\ sT = stateFunctionOfTransmittingBody_ this tT
        else tT = time /\ sR = stateFunctionOfReceivingBody_ this tR).
Proof.
  intros Hwf H.
  destruct (calculateLightTimeWithMultiLegLinkEndsStates_outputs
              _ _ _ _ _ _ _ _ _ Hwf H)
    as (x & y & previous & _ & _ & HtT & HtR & HsT & HsR & Hideal).
  do 4 eexists. split; [exact HsT |]. split; [exact HsR |].
  split; [exact HtT |]. split; [exact HtR |].
  split; [apply Hideal; assumption |].
  destruct b; split; reflexivity.
Qed.

(** X5: the state a returned single-leg solve writes for the link end
    whose time is given is the state function of that end at the time the
    solve started from: the entry of the times vector for that end when
    neither entry of the link is a NaN, the time argument otherwise.  It is
    evaluated once, before the loop, and no pass writes it again. *)
Theorem known_end_state_is_at_the_guess
  fuel (this : LightTimeCalculator T) states times time b index l r :
  wellFormedArguments states times index ->
  calculateLightTimeWithMultiLegLinkEndsStates fuel this states times time b index
  = (l, Returned r) ->
  exists x y,
    nth_error times (Z.to_nat index) = Some x
    /\ nth_error times (Z.to_nat (index + 1)) = Some y
    /\ if b
       then nth_error (legLinkEndsStates r) (Z.to_nat (index + 1))
            = Some (stateFunctionOfReceivingBody_ this
                      (if negb (s_isnan x) && negb (s_isnan y) then y else time))
       else nth_error (legLinkEndsStates r) (Z.to_nat index)
            = Some (stateFunctionOfTransmittingBody_ this
                      (if negb (s_isnan x) && negb (s_isnan y) then x else time)).
Proof.
  intros Hwf H.
  destruct (calculateLightTimeWithMultiLegLinkEndsStates_outputs
              _ _ _ _ _ _ _ _ _ Hwf H)
    as (x & y & previous & Hx & Hy & _ & _ & HsT & HsR & _).
  exists x, y. split; [exact Hx |]. split; [exact Hy |].
  destruct b; assumption.
Qed.


(** ** Link ends that do not move *)







(** ** The total of the corrections *)




(** ** What a solve prints *)

Lemma loopBody_log time b (this : LightTimeCalculator T) v l o :
  loopBody time b this v = (l, o) ->
  l = []
  \/ exists w,
       l = [w] /\ isWarning w = true
       /\ counter v = maximumNumberOfIterations_ (lightTimeConvergenceCriteria_ this)
       /\ failureHandling_ (lightTimeConvergenceCriteria_ this) = print_warning_and_accept.
Proof.
  intros H. destruct (belowTolerance time b this v) eqn:E.
  - rewrite loopBody_below in H by assumption. inversion H. auto.
  - rewrite loopBody_not_below in H by assumption. cbv zeta in H.
    destruct (counter v =? _) eqn:Ec in H;
      [destruct (failureHandling_ _) eqn:Ef in H |];
      unfold ret, raise in H; inversion H; auto.
    right. eexists. apply Z.eqb_eq in Ec. repeat split; auto.
Qed.

Lemma whileNotToleranceReached_log time b :
  forall fuel (this : LightTimeCalculator T) v,
    warnings (fst (whileNotToleranceReached fuel time b this v))
    = fst (whileNotToleranceReached fuel time b this v)
    /\ (length (fst (whileNotToleranceReached fuel time b this v))
        <= if (counter v <=? maximumNumberOfIterations_ (lightTimeConvergenceCriteria_ this))%Z
           then 1 else 0)%nat
    /\ (failureHandling_ (lightTimeConvergenceCriteria_ this) <> print_warning_and_accept ->
        fst (whileNotToleranceReached fuel time b this v) = []).
Proof.
  induction fuel as [| fuel IH]; intros this v.
  - simpl. destruct (isToleranceReached v); simpl; repeat split; lia.
  - destruct (isToleranceReached v) eqn:Hv.
    { rewrite whileNotToleranceReached_reached by assumption. simpl.
      repeat split; lia. }
    destruct (loopBody time b this v) as [l1 o1] eqn:Hbody.
    pose proof (loopBody_log _ _ _ _ _ _ Hbody) as Hl1.
    destruct o1 as [[this1 v1] | e | ].
    + rewrite (whileNotToleranceReached_unroll _ _ _ _ _ _ _ _ Hv Hbody).
      cbn [fst].
      destruct (loopBody_Returned _ _ _ _ _ _ _ Hbody) as (_ & (_ & _ & _ & Hc) & _ & Hcount).
      destruct (IH this1 v1) as (Hw & Hlen & Hnone).
      rewrite Hc, Hcount in *.
      destruct Hl1 as [-> | (w & -> & Hisw & Hmax & Hwarn)].
      * cbn [app]. split; [exact Hw |]. split; [| exact Hnone].
        destruct (counter v + 1 <=? _) eqn:E1 in Hlen;
          destruct (counter v <=? _) eqn:E2; try lia.
      * assert (E1 : (counter v + 1 <=?
                      maximumNumberOfIterations_ (lightTimeConvergenceCriteria_ this))
                     = false) by (apply Z.leb_gt; lia).
        rewrite E1 in Hlen.
        destruct (fst (whileNotToleranceReached fuel time b this1 v1)); [| simpl in Hlen; lia].
        assert (E2 : (counter v <=?
                      maximumNumberOfIterations_ (lightTimeConvergenceCriteria_ this))
                     = true) by (apply Z.leb_le; lia).
        rewrite E2. unfold warnings. simpl. rewrite Hisw.
        repeat split; [lia | congruence].
    + rewrite whileNotToleranceReached_step, Hbody by assumption. cbn [bind fst].
      destruct Hl1 as [-> | (w & -> & Hisw & Hmax & Hwarn)].
      * simpl. repeat split; lia.
      * assert (E2 : (counter v <=?
                      maximumNumberOfIterations_ (lightTimeConvergenceCriteria_ this))
                     = true) by (apply Z.leb_le; lia).
        rewrite E2. unfold warnings. simpl. rewrite Hisw.
        repeat split; [lia | congruence].
    + rewrite whileNotToleranceReached_step, Hbody by assumption. cbn [bind fst].
      destruct Hl1 as [-> | (w & -> & Hisw & Hmax & Hwarn)].
      * simpl. repeat split; lia.
      * assert (E2 : (counter v <=?
                      maximumNumberOfIterations_ (lightTimeConvergenceCriteria_ this))
                     = true) by (apply Z.leb_le; lia).
        rewrite E2. unfold warnings. simpl. rewrite Hisw.
        repeat split; [lia | congruence].
Qed.

Lemma initialGuess_log (times : list T) time i j :
  fst (initialGuess times time i j) = [].
Proof.
  unfold initialGuess, at_.
  destruct (nth_error times (Z.to_nat i)) as [x |]; [| reflexivity].
  rewrite bind_ret_l.
  destruct (negb (s_isnan x)).
  - destruct (nth_error times (Z.to_nat j)) as [y |]; [| reflexivity].
    rewrite !bind_ret_l. destruct (negb (s_isnan y)); reflexivity.
  - rewrite bind_ret_l. reflexivity.
Qed.

Lemma setOutput_log (this : LightTimeCalculator T) v states times i j :
  (exists r, setOutput this v states times i j
             = ([LightTimePrinted (legLightTime r)], Returned r))
  \/ setOutput this v states times i j = raise ErrorOutOfRange.
Proof.
  unfold setOutput, set_at.
  destruct (nth_error times (Z.to_nat j)); [| right; reflexivity].
  rewrite bind_ret_l.
  destruct (nth_error (replace_nth times (Z.to_nat j) (receptionTime v)) (Z.to_nat i));
    [| right; reflexivity].
  rewrite bind_ret_l.
  destruct (nth_error states (Z.to_nat j)); [| right; reflexivity].
  rewrite bind_ret_l.
  destruct (nth_error (replace_nth states (Z.to_nat j) (receiverState v)) (Z.to_nat i));
    [| right; reflexivity].
  rewrite bind_ret_l.
  left. eexists (mkLegResult (newLightTimeCalculation v) this _ _). reflexivity.
Qed.

(** The lines of a solve: warnings, at most one of them and none unless the
    failure handling asks for them, then the light time when it returns. *)
Lemma calculateLightTimeWithMultiLegLinkEndsStates_log
  fuel (this : LightTimeCalculator T) states times time b index l o :
  calculateLightTimeWithMultiLegLinkEndsStates fuel this states times time b index
  = (l, o) ->
  exists lw,
    warnings lw = lw
    /\ (length lw <= 1)%nat
    /\ (failureHandling_ (lightTimeConvergenceCriteria_ this) <> print_warning_and_accept ->
        lw = [])
    /\ match o with
       | Returned r => l = lw ++ [LightTimePrinted (legLightTime r)]
       | _ => l = lw
       end.
Proof.
  unfold calculateLightTimeWithMultiLegLinkEndsStates.
  destruct (negb (size states =? size times) || _).
  { intros H. inversion H. exists []. repeat split; simpl; lia. }
  pose proof (initialGuess_log times time index (uint32 (index + 1))) as Hg.
  destruct (initialGuess times time index (uint32 (index + 1)))
    as [lg [[rt tt] | e | ]]; simpl in Hg; subst lg;
    [| intros H; inversion H; exists []; repeat split; simpl; lia
     | intros H; inversion H; exists []; repeat split; simpl; lia].
  cbn [bind]. destruct (initialLocals this rt tt) as [this0 v0] eqn:E0.
  pose proof (whileNotToleranceReached_log time b fuel this0 v0) as (Hw & Hlen & Hnone).
  assert (Hc : lightTimeConvergenceCriteria_ this0 = lightTimeConvergenceCriteria_ this).
  { pose proof (initialLocals_facts this rt tt) as ((_ & _ & _ & Hc) & _).
    rewrite E0 in Hc. exact Hc. }
  rewrite Hc in *.
  assert (Hlen1 : (length (fst (whileNotToleranceReached fuel time b this0 v0)) <= 1)%nat).
  { destruct (counter v0 <=? _) in Hlen; lia. }
  destruct (whileNotToleranceReached fuel time b this0 v0)
    as [lw [[this1 v1] | e | ]]; cbn [fst] in *; cbn [bind].
  - destruct (setOutput_log this1 v1 states times index (uint32 (index + 1)))
      as [(r & ->) | ->]; unfold raise; intros H; inversion H; subst.
    + exists lw. auto.
    + exists lw. rewrite app_nil_r. auto.
  - intros H. inversion H; subst. exists l. auto.
  - intros H. inversion H; subst. exists l. auto.
Qed.

(** The counter of a pass is the number of the pass: in a loop followed for
    fewer than 2^31 passes it is incremented without an overflow of the
    [int] it stands for. *)
Lemma passes_do_not_overflow fuel (this : LightTimeCalculator T) rt tt time b
  k thisk vk :
  Z.of_nat fuel < 2 ^ 31 ->
  (k < fuel)%nat ->
  stateAt k time b (fst (initialLocals this rt tt)) (snd (initialLocals this rt tt))
  = Some (thisk, vk) ->
  counter vk = Z.of_nat k /\ counter vk + 1 < 2 ^ 31.
Proof.
  intros Hfuel Hk Hs.
  pose proof (stateAt_counter _ _ _ _ _ _ _ Hs) as Hcount.
  destruct (initialLocals_facts this rt tt) as (_ & _ & Hc0 & _).
  rewrite Hc0 in Hcount. lia.
Qed.

(** X7: what a single-leg solve prints, whatever its arguments and however
    it ends, while its loop is followed for fewer than 2^31 passes, those the
    [int] counter of the source counts without overflow.  It prints at most
    one warning, and none unless the failure handling is to print a warning
    and accept.  When it returns, the last line is the returned light time
    and the lines before it are warnings; when it does not return, every line
    is a warning.  The counter of each of these passes is the number of the
    pass, and incrementing it does not overflow. *)
Theorem solve_prints_at_most_one_warning
  fuel (this : LightTimeCalculator T) states times time b index :
  let run :=
    calculateLightTimeWithMultiLegLinkEndsStates fuel this states times time b index in
  Z.of_nat fuel < 2 ^ 31 ->
  (length (warnings (fst run)) <= 1)%nat
  /\ (failureHandling_ (lightTimeConvergenceCriteria_ this) <> print_warning_and_accept ->
      warnings (fst run) = [])
  /\ (forall r, snd run = Returned r ->
      exists lw, fst run = lw ++ [LightTimePrinted (legLightTime r)]
                 /\ warnings lw = lw)
  /\ ((forall r, snd run <> Returned r) -> warnings (fst run) = fst run)
  /\ (forall rt tt k thisk vk, (k < fuel)%nat ->
      stateAt k time b (fst (initialLocals this rt tt)) (snd (initialLocals this rt tt))
      = Some (thisk, vk) ->
      counter vk = Z.of_nat k /\ counter vk + 1 < 2 ^ 31).
Proof.
  intros run Hfuel.
  destruct run as [l o] eqn:E. unfold run in E. clear run.
  destruct (calculateLightTimeWithMultiLegLinkEndsStates_log _ _ _ _ _ _ _ _ _ E)
    as (lw & Hw & Hlen & Hnone & Hl).
  cbn [fst snd].
  assert (Hwl : warnings l = lw).
  { destruct o as [r | e | ]; subst l; try exact Hw.
    unfold warnings in *. rewrite filter_app, Hw. simpl. apply app_nil_r. }
  rewrite Hwl. split; [exact Hlen |]. split; [exact Hnone |]. split; [| split].
  - intros r ->. exists lw. auto.
  - intros Hnot. destruct o as [r | e | ]; [destruct (Hnot r); reflexivity | |];
      congruence.
  - intros rt tt k thisk vk Hk Hs.
    exact (passes_do_not_overflow fuel this rt tt time b k thisk vk Hfuel Hk Hs).
Qed.

(** ** Arguments a solve does not accept *)

(** X8: the arguments a single-leg solve refuses before it reads a state
    function.  Vectors of different sizes, or a receiver index beyond the last
    entry of vectors that are not empty, raise the error of inconsistent
    vectors.  Two empty vectors pass that check, as the last index
    [size( ) - 1] wraps around in [size_t], and the first read of an entry
    raises the range error. *)
Theorem ill_formed_arguments_raise
  fuel (this : LightTimeCalculator T) states times time b index :
  (size states <> size times ->
   calculateLightTimeWithMultiLegLinkEndsStates fuel this states times time b index
   = raise ErrorInconsistentLinkEndVectors)
  /\ (0 < size times -> size times <= uint32 (index + 1) ->
      calculateLightTimeWithMultiLegLinkEndsStates fuel this states times time b index
      = raise ErrorInconsistentLinkEndVectors)
  /\ calculateLightTimeWithMultiLegLinkEndsStates fuel this [] [] time b index
     = raise ErrorOutOfRange.
Proof.
  unfold calculateLightTimeWithMultiLegLinkEndsStates. repeat split.
  - intros H. apply Z.eqb_neq in H. rewrite H. reflexivity.
  - intros H0 H1.
    assert (H32 : uint32 (index + 1) < 2 ^ 32) by (apply Z.mod_pos_bound; lia).
    assert (E : (uint32 (index + 1) >? size_t (size times - 1)) = true).
    { unfold size_t. rewrite Z.mod_small by lia. apply Z.gtb_lt. lia. }
    rewrite E, orb_true_r. reflexivity.
  - assert (H32 : uint32 (index + 1) < 2 ^ 32) by (apply Z.mod_pos_bound; lia).
    assert (E : (uint32 (index + 1) >? size_t (size (@nil T) - 1)) = false).
    { change (size_t (size (@nil T) - 1)) with (2 ^ 64 - 1).
      destruct (uint32 (index + 1) >? 2 ^ 64 - 1) eqn:E'; [| reflexivity].
      apply Z.gtb_lt in E'. lia. }
    rewrite E. cbn [size length Z.of_nat Z.eqb negb orb].
    unfold initialGuess, at_.
    destruct (Z.to_nat index); reflexivity.
Qed.

(** ** A maximum that is never met *)




(** ** The calls that build the vectors themselves *)

Lemma noGuess_wellFormedArguments :
  wellFormedArguments (repeat (State_Constant (s_nan : T)) 2) (repeat (s_nan : T) 2) 0.
Proof. unfold wellFormedArguments, size. simpl. lia. Qed.

Lemma calculateLightTimeWithLinkEndsStates_Returned
  fuel (this : LightTimeCalculator T) time b l lt this' sR sT :
  calculateLightTimeWithLinkEndsStates fuel this time b
  = (l, Returned (lt, this', sR, sT)) ->
  exists r,
    calculateLightTimeWithMultiLegLinkEndsStates fuel this
      (repeat (State_Constant s_nan) 2) (repeat s_nan 2) time b 0 = (l, Returned r)
    /\ lt = legLightTime r /\ this' = legCalculator r
    /\ nth_error (legLinkEndsStates r) (Z.to_nat 0) = Some sT
    /\ nth_error (legLinkEndsStates r) (Z.to_nat (0 + 1)) = Some sR.
Proof.
  unfold calculateLightTimeWithLinkEndsStates. intros H.
  apply bind_Returned in H. destruct H as (l1 & r & l2 & Hr & H & ->).
  apply bind_Returned in H. destruct H as (l3 & sT' & l4 & HT & H & ->).
  apply bind_Returned in H. destruct H as (l5 & sR' & l6 & HR & H & ->).
  unfold at_ in HT, HR.
  destruct (nth_error (legLinkEndsStates r) (Z.to_nat 0)) eqn:ET; [| discriminate].
  destruct (nth_error (legLinkEndsStates r) (Z.to_nat 1)) eqn:ER; [| discriminate].
  unfold ret in *. inversion HT; inversion HR; inversion H; subst.
  exists r. rewrite !app_nil_r. repeat split; assumption.
Qed.

(** X9: the states [calculateLightTimeWithLinkEndsStates] hands back.  The
    call builds its vectors with a NaN in every entry, so no initial guess is
    read: the state of the link end whose time is given is the state function
    of that end at that time, the state of the other end is its state
    function at the time the solve found for it, the ideal light time of the
    calculator is the distance between the two over the speed of light, and
    the returned light time is that ideal light time plus the correction the
    calculator caches. *)
Theorem link_end_states_are_at_the_link_end_times
  fuel (this : LightTimeCalculator T) time b l lt this' sR sT :
  s_isnan (s_nan : T) = true ->
  calculateLightTimeWithLinkEndsStates fuel this time b
  = (l, Returned (lt, this', sR, sT)) ->
  (exists t,
     sR = stateFunctionOfReceivingBody_ this (if b then time else t)
     /\ sT = stateFunctionOfTransmittingBody_ this (if b then t else time))
  /\ getCurrentIdealLightTime this'
     = (norm (segment_0_3 (state_sub sR sT)) / getSpeedOfLight)%sc
  /\ lt = (getCurrentIdealLightTime this' + getCurrentLightTimeCorrection this')%sc.
Proof.
  intros Hnan H.
  destruct (calculateLightTimeWithLinkEndsStates_Returned _ _ _ _ _ _ _ _ _ H)
    as (r & Hr & -> & -> & HT & HR).
  destruct (calculateLightTimeWithMultiLegLinkEndsStates_outputs
              _ _ _ _ _ _ _ _ _ noGuess_wellFormedArguments Hr)
    as (x & y & previous & Hx & Hy & _ & _ & HsT & HsR & Hideal).
  simpl in Hx, Hy. inversion Hx; inversion Hy; subst x y.
  rewrite Hnan in HsT, HsR. cbn [negb andb] in HsT, HsR.
  rewrite HT in HsT. rewrite HR in HsR.
  split; [| split].
  - exists (if b then (time - previous)%sc else (time + previous)%sc).
    destruct b; split; congruence.
  - apply Hideal; assumption.
  - destruct (calculateLightTimeWithMultiLegLinkEndsStates_Returned
                _ _ _ _ _ _ _ _ _ Hr) as (rt & tt & l' & v & Hw & ->).
    destruct (initialLocals_facts this rt tt) as (_ & Hv0 & _).
    apply (whileNotToleranceReached_Returned
             (fun this' v' =>
                newLightTimeCalculation v'
                = (currentIdealLightTime_ this' + currentCorrection_ this')%sc)
             time b) in Hw; [apply Hw | | exact Hv0].
    intros this1 v1 l1 this2 v2 Hbody.
    apply (loopBody_Returned _ _ _ _ _ _ _ Hbody).
Qed.

(** X10: the vector [calculateRelativeRangeVector] returns is the one
    whose length makes the ideal light time: its norm over the speed of light
    is what [getCurrentIdealLightTime] answers after the call. *)
Theorem relative_range_vector_spans_the_ideal_light_time
  fuel (this : LightTimeCalculator T) time b l range this' :
  calculateRelativeRangeVector fuel this time b = (l, Returned (range, this')) ->
  (norm range / getSpeedOfLight)%sc = getCurrentIdealLightTime this'.
Proof.
  unfold calculateRelativeRangeVector. intros H.
  apply bind_Returned in H.
  destruct H as (l1 & [[[lt this1] sR] sT] & l2 & Hcall & H & _).
  unfold ret in H. inversion H; subst. clear H.
  destruct (calculateLightTimeWithLinkEndsStates_Returned _ _ _ _ _ _ _ _ _ Hcall)
    as (r & Hr & _ & -> & HT & HR).
  destruct (calculateLightTimeWithMultiLegLinkEndsStates_outputs
              _ _ _ _ _ _ _ _ _ noGuess_wellFormedArguments Hr)
    as (_ & _ & _ & _ & _ & _ & _ & _ & _ & Hideal).
  symmetry. apply Hideal; assumption.
Qed.

(** ** The wrapper of a correction function *)

Lemma callPartials_from {LinkEnd : Type} (calls : list (PartialCall T LinkEnd)) :
  forall this : LightTimeCorrectionFunctionWrapper T,
    fst (callPartials this calls)
    = (if isWarningProvided_ this then []
       else match calls with [] => [] | _ :: _ => [WarningPartialNotImplemented] end)
    /\ length (fst (snd (callPartials this calls))) = length calls
    /\ Forall isZeroPartial (fst (snd (callPartials this calls)))
    /\ lightTimeCorrectionFunction_ (snd (snd (callPartials this calls)))
       = lightTimeCorrectionFunction_ this
    /\ isWarningProvided_ (snd (snd (callPartials this calls)))
       = (isWarningProvided_ this || match calls with [] => false | _ :: _ => true end).
Proof.
  induction calls as [| call calls IH]; intros this.
  - simpl. rewrite orb_false_r. destruct (isWarningProvided_ this); auto.
  - destruct call; cbn [callPartials];
      unfold calculateLightTimeCorrectionPartialDerivativeWrtLinkEndTime,
        calculateLightTimeCorrectionPartialDerivativeWrtLinkEndPosition;
      destruct (isWarningProvided_ this) eqn:Ew; cbn [negb];
      match goal with
      | |- context [callPartials ?w calls] =>
          destruct (IH w) as (Hl & Hn & Hz & Hf & Hp);
          destruct (callPartials w calls) as [l' [values this']]
      end;
      cbn [fst snd isWarningProvided_ lightTimeCorrectionFunction_] in *;
      rewrite ?Ew in *; subst l'; cbn [app length orb];
      (split; [reflexivity |]);
      (split; [congruence |]);
      (split; [constructor; [reflexivity | assumption] |]);
      (split; [assumption |]); assumption.
Qed.

(** X11: the partial derivatives of a wrapped correction function.
    However many times and in whatever order the two are called on a new
    wrapper, with whatever arguments, the warning that they are not
    implemented is printed once, by the first call; every call returns zero,
    the number or the vector; and the wrapper goes on computing the function
    it was made from. *)
Theorem partial_derivatives_warn_once {LinkEnd : Type}
  (f : LightTimeCorrection T) (calls : list (PartialCall T LinkEnd)) :
  let run := callPartials (new_LightTimeCorrectionFunctionWrapper f) calls in
  fst run = match calls with [] => [] | _ :: _ => [WarningPartialNotImplemented] end
  /\ length (fst (snd run)) = length calls
  /\ Forall isZeroPartial (fst (snd run))
  /\ (forall sTx sRx tTx tRx,
        calculateLightTimeCorrection (snd (snd run)) sTx sRx tTx tRx = f sTx sRx tTx tRx).
Proof.
  intros run.
  destruct (callPartials_from calls (new_LightTimeCorrectionFunctionWrapper f))
    as (Hl & Hn & Hz & Hf & _).
  fold run in Hl, Hn, Hz, Hf. cbn [new_LightTimeCorrectionFunctionWrapper
    isWarningProvided_ lightTimeCorrectionFunction_] in Hl, Hf.
  split; [exact Hl |]. split; [exact Hn |]. split; [exact Hz |].
  intros sTx sRx tTx tRx. unfold calculateLightTimeCorrection. rewrite Hf. reflexivity.
Qed.

(** A calculator constructed from plain correction functions is the
    calculator constructed from the same list as corrections: the wrapper of
    each function computes that function, and the wrappers are kept in the
    order of the list. *)
Lemma wrapped_functions_are_the_corrections
  (tx rx : T -> State T) (functions : list (LightTimeCorrection T))
  (criteria : LightTimeConvergenceCriteria T) (uninitialised : T) :
  new_LightTimeCalculator_fromFunctions tx rx functions criteria uninitialised
  = new_LightTimeCalculator tx rx functions criteria uninitialised
  /\ forall fuel states times time b index,
       calculateLightTimeWithMultiLegLinkEndsStates fuel
         (new_LightTimeCalculator_fromFunctions tx rx functions criteria uninitialised)
         states times time b index
       = calculateLightTimeWithMultiLegLinkEndsStates fuel
           (new_LightTimeCalculator tx rx functions criteria uninitialised)
           states times time b index.
Proof.
  assert (E : new_LightTimeCalculator_fromFunctions tx rx functions criteria uninitialised
              = new_LightTimeCalculator tx rx functions criteria uninitialised).
  { unfold new_LightTimeCalculator_fromFunctions, new_LightTimeCalculator.
    f_equal. induction functions as [| f functions IH]; simpl; [reflexivity |].
    rewrite IH. reflexivity. }
  split; [exact E |]. intros. rewrite E. reflexivity.
Qed.

(** ** The chain solver *)

(** *** Computations that raise no configuration error *)

Lemma raisesNoConfigurationError_bind {A B : Type} (m : M T A) (f : A -> M T B) :
  raisesNoConfigurationError m ->
  (forall a, raisesNoConfigurationError (f a)) ->
  raisesNoConfigurationError (bind m f).
Proof.
  intros Hm Hf l e H. apply bind_Raised in H.
  destruct H as [H | (l1 & a & l2 & _ & H & _)]; [eapply Hm | eapply Hf]; eassumption.
Qed.

Lemma raisesNoConfigurationError_ret {A : Type} (a : A) :
  raisesNoConfigurationError (ret (T := T) a).
Proof. intros l e H. discriminate H. Qed.

Lemma raisesNoConfigurationError_raise {A : Type} (e : Exception T) :
  isConfigurationError e = false -> raisesNoConfigurationError (raise (A := A) e).
Proof. intros He l e' H. inversion H; subst. assumption. Qed.

Lemma raisesNoConfigurationError_outOfFuel {A : Type} :
  raisesNoConfigurationError (outOfFuel (T := T) (A := A)).
Proof. intros l e H. discriminate H. Qed.

Lemma raisesNoConfigurationError_print (entry : LogEntry T) :
  raisesNoConfigurationError (print entry).
Proof. intros l e H. discriminate H. Qed.

Lemma raisesNoConfigurationError_at {A : Type} (v : list A) (i : Z) :
  raisesNoConfigurationError (at_ (T := T) v i).
Proof.
  unfold at_. destruct (nth_error v (Z.to_nat i)).
  - apply raisesNoConfigurationError_ret.
  - now apply raisesNoConfigurationError_raise.
Qed.

Lemma raisesNoConfigurationError_set_at {A : Type} (v : list A) (i : Z) (x : A) :
  raisesNoConfigurationError (set_at (T := T) v i x).
Proof.
  unfold set_at. destruct (nth_error v (Z.to_nat i)).
  - apply raisesNoConfigurationError_ret.
  - now apply raisesNoConfigurationError_raise.
Qed.

Ltac no_configuration_error :=
  repeat first
    [ assumption
    | apply raisesNoConfigurationError_ret
    | apply raisesNoConfigurationError_outOfFuel
    | apply raisesNoConfigurationError_print
    | apply raisesNoConfigurationError_at
    | apply raisesNoConfigurationError_set_at
    | apply raisesNoConfigurationError_raise; reflexivity
    | apply raisesNoConfigurationError_bind; [| intros ?]
    | match goal with
      | |- raisesNoConfigurationError (if ?c then _ else _) => destruct c
      | |- raisesNoConfigurationError (match ?p with _ => _ end) => destruct p
      end ].

Lemma raisesNoConfigurationError_loopBody time b (this : LightTimeCalculator T) v :
  raisesNoConfigurationError (loopBody time b this v).
Proof.
  unfold loopBody.
  destruct (updateEstimate time b this v) as [this1 v1].
  unfold isLightTimeSolutionConverged, getAbsoluteTolerance.
  no_configuration_error.
Qed.

Lemma raisesNoConfigurationError_while time b :
  forall fuel (this : LightTimeCalculator T) v,
    raisesNoConfigurationError (whileNotToleranceReached fuel time b this v).
Proof.
  induction fuel as [| fuel IH]; intros this v; simpl.
  - no_configuration_error.
  - destruct (isToleranceReached v); [no_configuration_error |].
    apply raisesNoConfigurationError_bind.
    + apply raisesNoConfigurationError_loopBody.
    + intros [this1 v1]. apply IH.
Qed.

Lemma raisesNoConfigurationError_leg fuel (this : LightTimeCalculator T)
  states times time b index :
  raisesNoConfigurationError
    (calculateLightTimeWithMultiLegLinkEndsStates fuel this states times time b index).
Proof.
  unfold calculateLightTimeWithMultiLegLinkEndsStates.
  destruct (negb _ || _); [now apply raisesNoConfigurationError_raise |].
  apply raisesNoConfigurationError_bind.
  - unfold initialGuess. no_configuration_error.
  - intros [rt tt]. destruct (initialLocals this rt tt) as [this0 v0].
    apply raisesNoConfigurationError_bind.
    + apply raisesNoConfigurationError_while.
    + intros [this1 v1]. unfold setOutput. no_configuration_error.
Qed.

Lemma raisesNoConfigurationError_moveBackwards fuel delays :
  forall currentDownIndex (w : Walk T),
    raisesNoConfigurationError (moveBackwards fuel delays currentDownIndex w).
Proof.
  induction currentDownIndex as [| previous IH]; intros w; simpl.
  - no_configuration_error.
  - apply raisesNoConfigurationError_bind; [apply raisesNoConfigurationError_at |].
    intros leg. apply raisesNoConfigurationError_bind;
      [apply raisesNoConfigurationError_leg |].
    intros r. apply raisesNoConfigurationError_bind;
      [apply raisesNoConfigurationError_set_at |].
    intros calculators. apply raisesNoConfigurationError_bind;
      [apply raisesNoConfigurationError_at |].
    intros delay. apply IH.
Qed.

Lemma raisesNoConfigurationError_moveForwards fuel delays :
  forall remaining currentUpIndex (w : Walk T),
    raisesNoConfigurationError (moveForwards fuel delays remaining currentUpIndex w).
Proof.
  induction remaining as [| remaining IH]; intros currentUpIndex w; simpl.
  - no_configuration_error.
  - apply raisesNoConfigurationError_bind; [apply raisesNoConfigurationError_at |].
    intros leg. apply raisesNoConfigurationError_bind;
      [apply raisesNoConfigurationError_leg |].
    intros r. apply raisesNoConfigurationError_bind;
      [apply raisesNoConfigurationError_set_at |].
    intros calculators. apply raisesNoConfigurationError_bind;
      [apply raisesNoConfigurationError_at |].
    intros delay. apply IH.
Qed.

Context {OM : ObservationModel T}.

Lemma raisesNoConfigurationError_solveFromReference fuel
  (this : MultiLegLightTimeCalculator T) time delays startLinkEndIndex :
  raisesNoConfigurationError
    (solveFromReference fuel this time delays startLinkEndIndex).
Proof.
  unfold solveFromReference.
  apply raisesNoConfigurationError_bind; [apply raisesNoConfigurationError_at |].
  intros startDelay. apply raisesNoConfigurationError_bind;
    [apply raisesNoConfigurationError_moveBackwards |].
  intros w. apply raisesNoConfigurationError_bind;
    [apply raisesNoConfigurationError_at |].
  intros startDelay'. apply raisesNoConfigurationError_bind;
    [apply raisesNoConfigurationError_moveForwards |].
  intros w'. apply raisesNoConfigurationError_ret.
Qed.

(** *** The counts of a chain *)

Lemma new_MultiLegLightTimeCalculator_counts
  (legs : list (LightTimeCalculator T)) criteria :
  size legs + 1 < 2 ^ 32 ->
  numberOfLinks_ (new_MultiLegLightTimeCalculator legs criteria) = size legs
  /\ numberOfLinkEnds_ (new_MultiLegLightTimeCalculator legs criteria) = size legs + 1.
Proof.
  intros H. simpl. unfold uint32, size_t.
  assert (0 <= size legs) by (unfold size; lia).
  rewrite (Z.mod_small (size legs + 1) (2 ^ 64)) by lia.
  rewrite !Z.mod_small by lia. auto.
Qed.

(** C5: for a chain of [N] legs over [N + 1] link ends ([N] at least one),
    the retransmission delays of a call are: with no ancillary settings, a
    zero for each of the [N + 1] link ends; the vector of the settings when
    its size is [N + 1]; that vector with a zero put before it and a zero
    after it when its size is [N - 1]; and with any other size the call
    raises the configuration error about the size, before any leg is solved
    and so whatever the legs and their failure handling.  In particular a
    vector of size two raises it in a chain of three link ends.  In the
    three cases that give delays, the call goes on with them. *)
Theorem retransmission_delays_are_normalised
  (legs : list (LightTimeCalculator T)) (criteria : LightTimeConvergenceCriteria T) :
  let this := new_MultiLegLightTimeCalculator legs criteria in
  let N := size legs in
  1 <= N -> N + 1 < 2 ^ 32 ->
  currentRetransmissionDelays this None = ret (repeat s_zero (Z.to_nat (N + 1)))
  /\ (forall settings,
        let delays := getAncilliaryDoubleVectorData_retransmission_delays settings in
        (size delays = N + 1 ->
         currentRetransmissionDelays this (Some settings) = ret delays)
        /\ (size delays = N - 1 ->
            currentRetransmissionDelays this (Some settings)
            = ret ((s_zero :: delays) ++ [s_zero]))
        /\ (size delays <> N + 1 -> size delays <> N - 1 ->
            forall fuel time linkEnd,
              MultiLeg_calculateLightTimeWithLinkEndsStates fuel this time linkEnd
                (Some settings)
              = ([], Raised (ErrorInvalidRetransmissionDelaysSize (size delays) (N + 1)))
              /\ isConfigurationError (T := T)
                   (ErrorInvalidRetransmissionDelaysSize (size delays) (N + 1)) = true)
        /\ (N = 2 -> size delays = 2 ->
            forall fuel time linkEnd,
              MultiLeg_calculateLightTimeWithLinkEndsStates fuel this time linkEnd
                (Some settings)
              = ([], Raised (ErrorInvalidRetransmissionDelaysSize 2 3))))
  /\ (forall fuel time linkEnd ancillarySettings delays,
        currentRetransmissionDelays this ancillarySettings = ret delays ->
        MultiLeg_calculateLightTimeWithLinkEndsStates fuel this time linkEnd
          ancillarySettings
        = solveWithDelays fuel this time linkEnd delays).
Proof.
  intros this N H1 H32.
  destruct (new_MultiLegLightTimeCalculator_counts legs criteria H32) as (_ & Hends).
  fold this N in Hends.
  assert (Hminus : uint32 (N + 1 - 2) = N - 1)
    by (unfold uint32; rewrite Z.mod_small; lia).
  assert (Hraise : forall settings,
             size (getAncilliaryDoubleVectorData_retransmission_delays settings) <> N + 1 ->
             size (getAncilliaryDoubleVectorData_retransmission_delays settings) <> N - 1 ->
             forall fuel time linkEnd,
               MultiLeg_calculateLightTimeWithLinkEndsStates fuel this time linkEnd
                 (Some settings)
               = ([], Raised (ErrorInvalidRetransmissionDelaysSize
                                (size (getAncilliaryDoubleVectorData_retransmission_delays
                                         settings)) (N + 1)))).
  { intros settings Hne1 Hne2 fuel time linkEnd.
    unfold MultiLeg_calculateLightTimeWithLinkEndsStates, currentRetransmissionDelays.
    rewrite Hends, Hminus.
    destruct (Z.eqb_spec (size (getAncilliaryDoubleVectorData_retransmission_delays
                                  settings)) (N + 1)); [contradiction |].
    destruct (Z.eqb_spec (size (getAncilliaryDoubleVectorData_retransmission_delays
                                  settings)) (N - 1)); [contradiction |].
    reflexivity. }
  split; [| split].
  - unfold currentRetransmissionDelays. now rewrite Hends.
  - intros settings delays. split; [| split; [| split]].
    + intros Hsize. unfold currentRetransmissionDelays. fold delays.
      rewrite Hends, Hsize, Z.eqb_refl. reflexivity.
    + intros Hsize. unfold currentRetransmissionDelays. fold delays.
      rewrite Hends, Hminus, Hsize, Z.eqb_refl.
      destruct (Z.eqb_spec (N - 1) (N + 1)); [lia | reflexivity].
    + intros Hne1 Hne2 fuel time linkEnd.
      split; [apply Hraise; assumption | reflexivity].
    + intros HN Hsize fuel time linkEnd.
      rewrite (Hraise settings) by (fold delays; lia).
      fold delays. rewrite Hsize, HN. reflexivity.
  - intros fuel time linkEnd ancillarySettings delays Hd.
    unfold MultiLeg_calculateLightTimeWithLinkEndsStates.
    now rewrite Hd, bind_ret_l.
Qed.

(** C6: once the delays of a call are known, when the reference link end
    is interior, neither the first nor the last of the chain, a delay there
    that is not zero makes the call raise the configuration error about the
    reference link end, before any leg is solved; with a zero delay there
    the call is the two walks from the reference link end, and whatever
    they raise is no configuration error. *)
Theorem interior_reference_needs_zero_delay
  (this : MultiLegLightTimeCalculator T) fuel time linkEnd ancillarySettings
  (delays : list T) (delay : T) :
  let start :=
    uint32 (getNWayLinkIndexFromLinkEndType linkEnd (numberOfLinkEnds_ this)) in
  currentRetransmissionDelays this ancillarySettings = ret delays ->
  start <> 0 -> start <> uint32 (numberOfLinkEnds_ this - 1) ->
  nth_error delays (Z.to_nat start) = Some delay ->
  ((delay =? s_zero)%sc = false ->
   MultiLeg_calculateLightTimeWithLinkEndsStates fuel this time linkEnd ancillarySettings
   = ([], Raised ErrorNonZeroDelayAtReferenceLinkEnd))
  /\ ((delay =? s_zero)%sc = true ->
      MultiLeg_calculateLightTimeWithLinkEndsStates fuel this time linkEnd
        ancillarySettings
      = solveFromReference fuel this time delays start
      /\ raisesNoConfigurationError
           (MultiLeg_calculateLightTimeWithLinkEndsStates fuel this time linkEnd
              ancillarySettings)).
Proof.
  intros start Hd H0 Hlast Hnth.
  assert (Hcall : MultiLeg_calculateLightTimeWithLinkEndsStates fuel this time linkEnd
                    ancillarySettings
                  = bind (if negb (delay =? s_zero)%sc
                          then raise ErrorNonZeroDelayAtReferenceLinkEnd
                          else ret tt)
                      (fun _ => solveFromReference fuel this time delays start)).
  { unfold MultiLeg_calculateLightTimeWithLinkEndsStates.
    rewrite Hd, bind_ret_l. unfold solveWithDelays. fold start.
    unfold checkReferenceLinkEnd.
    destruct (Z.eqb_spec start 0); [contradiction |].
    destruct (Z.eqb_spec start (uint32 (numberOfLinkEnds_ this - 1))); [contradiction |].
    cbn [negb andb]. unfold at_ at 1. rewrite Hnth, bind_ret_l. reflexivity. }
  split; intros Hz; rewrite Hcall, Hz; cbn [negb].
  - reflexivity.
  - rewrite bind_ret_l. split; [reflexivity |].
    apply raisesNoConfigurationError_solveFromReference.
Qed.

(** *** The shape of a chain and the errors of its legs *)

Lemma satisfies_ret {A : Type} (a : A) (Q : A -> Prop) (E : Exception T -> Prop) :
  Q a -> satisfies (ret a) Q E.
Proof. intros H. exact H. Qed.

Lemma satisfies_raise {A : Type} (e : Exception T) (Q : A -> Prop)
  (E : Exception T -> Prop) :
  E e -> satisfies (raise e) Q E.
Proof. intros H. exact H. Qed.

Lemma satisfies_bind {A B : Type} (m : M T A) (f : A -> M T B)
  (Q : A -> Prop) (Q' : B -> Prop) (E : Exception T -> Prop) :
  satisfies m Q E ->
  (forall a, Q a -> satisfies (f a) Q' E) ->
  satisfies (bind m f) Q' E.
Proof.
  unfold satisfies, bind. destruct m as [l [a | e | ]]; cbn [snd]; intros Hm Hf.
  - specialize (Hf a Hm). destruct (f a) as [l' o]. exact Hf.
  - exact Hm.
  - exact I.
Qed.

Lemma satisfies_weaken {A : Type} (m : M T A)
  (Q Q' : A -> Prop) (E E' : Exception T -> Prop) :
  satisfies m Q E ->
  (forall a, Q a -> Q' a) -> (forall e, E e -> E' e) ->
  satisfies m Q' E'.
Proof.
  unfold satisfies. destruct (snd m); auto.
Qed.

Lemma satisfies_Returned {A : Type} (m : M T A) Q E l a :
  satisfies m Q E -> m = (l, Returned a) -> Q a.
Proof. intros H ->. exact H. Qed.

Lemma satisfies_Raised {A : Type} (m : M T A) Q E l e :
  satisfies m Q E -> m = (l, Raised e) -> E e.
Proof. intros H ->. exact H. Qed.

Lemma satisfies_at {A : Type} (v : list A) (i : Z) :
  satisfies (at_ (T := T) v i)
    (fun x => nth_error v (Z.to_nat i) = Some x) (fun e => e = ErrorOutOfRange).
Proof.
  unfold at_, satisfies. destruct (nth_error v (Z.to_nat i)); reflexivity.
Qed.

Lemma satisfies_set_at {A : Type} (v : list A) (i : Z) (x : A) :
  satisfies (set_at (T := T) v i x)
    (fun v' => v' = replace_nth v (Z.to_nat i) x) (fun e => e = ErrorOutOfRange).
Proof.
  unfold set_at, satisfies. destruct (nth_error v (Z.to_nat i)); reflexivity.
Qed.

Lemma satisfies_loopBody time b (this : LightTimeCalculator T) v :
  satisfies (loopBody time b this v)
    (fun s => sameConfiguration this (fst s)) (isUnconvergedErrorOf this).
Proof.
  unfold satisfies.
  destruct (loopBody time b this v) as [l [[this1 v1] | e | ]] eqn:Hbody; cbn [snd fst].
  - apply (loopBody_Returned _ _ _ _ _ _ _ Hbody).
  - destruct (belowTolerance time b this v) eqn:E.
    + rewrite loopBody_below in Hbody by assumption. discriminate.
    + rewrite loopBody_not_below in Hbody by assumption. cbv zeta in Hbody.
      destruct (counter v =? _) in Hbody; [| discriminate].
      destruct (failureHandling_ (lightTimeConvergenceCriteria_ this)) eqn:Ef;
        try discriminate.
      unfold raise in Hbody. inversion Hbody; subst.
      split; [do 3 eexists; reflexivity | exact Ef].
  - exact I.
Qed.

Lemma isUnconvergedErrorOf_configuration (this this' : LightTimeCalculator T) e :
  sameConfiguration this this' ->
  isUnconvergedErrorOf this' e -> isUnconvergedErrorOf this e.
Proof.
  intros (_ & _ & _ & Hc) (He & Hf). split; [exact He | congruence].
Qed.

Lemma satisfies_while time b :
  forall fuel (this : LightTimeCalculator T) v,
    satisfies (whileNotToleranceReached fuel time b this v)
      (fun s => sameConfiguration this (fst s)) (isUnconvergedErrorOf this).
Proof.
  induction fuel as [| fuel IH]; intros this v; simpl.
  - destruct (isToleranceReached v); [apply sameConfiguration_refl | exact I].
  - destruct (isToleranceReached v); [apply sameConfiguration_refl |].
    eapply satisfies_bind; [apply satisfies_loopBody |].
    intros [this1 v1] Hc. cbn [fst] in Hc.
    eapply satisfies_weaken; [apply IH | |].
    + intros s Hs. eapply sameConfiguration_trans; eassumption.
    + intros e He. eapply isUnconvergedErrorOf_configuration; eassumption.
Qed.

(** A solve: what it returns has the sizes and the configuration it was
    given; with well-formed arguments, what it raises is the convergence
    error of a leg that throws. *)
Lemma satisfies_leg fuel (this : LightTimeCalculator T) states times time b index :
  satisfies
    (calculateLightTimeWithMultiLegLinkEndsStates fuel this states times time b index)
    (fun r =>
       size (legLinkEndsStates r) = size states
       /\ size (legLinkEndsTimes r) = size times
       /\ sameConfiguration this (legCalculator r))
    (fun e => wellFormedArguments states times index -> isUnconvergedErrorOf this e).
Proof.
  unfold satisfies.
  destruct (calculateLightTimeWithMultiLegLinkEndsStates fuel this states times time b index)
    as [l [r | e | ]] eqn:H; cbn [snd]; [| | exact I].
  - unfold calculateLightTimeWithMultiLegLinkEndsStates in H.
    destruct (negb _ || _) in H; [discriminate |].
    apply bind_Returned in H. destruct H as (l1 & [rt tt] & l2 & Hg & H & _).
    destruct (initialLocals this rt tt) as [this0 v0] eqn:E0.
    apply bind_Returned in H. destruct H as (l3 & [this1 v1] & l4 & Hw & H & _).
    assert (Hc : sameConfiguration this this1).
    { eapply sameConfiguration_trans.
      - pose proof (initialLocals_facts this rt tt) as (Hc0 & _).
        rewrite E0 in Hc0. exact Hc0.
      - exact (satisfies_Returned _ _ _ _ _ (satisfies_while time b fuel this0 v0) Hw). }
    unfold setOutput in H.
    apply bind_Returned in H. destruct H as (? & times1 & ? & Ht1 & H & _).
    apply bind_Returned in H. destruct H as (? & times2 & ? & Ht2 & H & _).
    apply bind_Returned in H. destruct H as (? & states1 & ? & Hs1 & H & _).
    apply bind_Returned in H. destruct H as (? & states2 & ? & Hs2 & H & _).
    apply bind_Returned in H. destruct H as (? & ? & ? & _ & H & _).
    unfold ret in H. inversion H; subst r. cbn [legLinkEndsStates legLinkEndsTimes legCalculator].
    rewrite (satisfies_Returned _ _ _ _ _ (satisfies_set_at _ _ _) Ht2).
    rewrite (satisfies_Returned _ _ _ _ _ (satisfies_set_at _ _ _) Ht1).
    rewrite (satisfies_Returned _ _ _ _ _ (satisfies_set_at _ _ _) Hs2).
    rewrite (satisfies_Returned _ _ _ _ _ (satisfies_set_at _ _ _) Hs1).
    rewrite !size_replace_nth. auto.
  - intros Hwf.
    pose proof Hwf as (_ & H0 & H1 & _).
    destruct (initialGuess_in_range times time index H0 H1) as (rt & tt & Hg & _).
    rewrite (calculateLightTimeWithMultiLegLinkEndsStates_from_guess
               _ this states times time b index rt tt Hwf Hg) in H.
    apply bind_Raised in H.
    destruct H as [H | (l1 & [this1 v1] & l2 & _ & H & _)].
    + eapply isUnconvergedErrorOf_configuration;
        [apply (initialLocals_facts this rt tt) |].
      exact (satisfies_Raised _ _ _ _ _ (satisfies_while time b fuel _ _) H).
    + rewrite setOutput_eq in H by assumption. discriminate.
Qed.

Lemma Forall2_nth_error_r {A B : Type} (R : A -> B -> Prop) (l : list A) (l' : list B) :
  Forall2 R l l' ->
  forall n y, nth_error l' n = Some y -> exists x, nth_error l n = Some x /\ R x y.
Proof.
  induction 1 as [| x y l l' Hxy Hll IH]; intros [| n] z Hz; simpl in *;
    try discriminate.
  - inversion Hz; subst. eauto.
  - apply IH. exact Hz.
Qed.

Lemma sameLegs_replace_nth (legs calculators : list (LightTimeCalculator T)) n c c' :
  sameLegs legs calculators ->
  nth_error calculators n = Some c ->
  sameConfiguration c c' ->
  sameLegs legs (replace_nth calculators n c').
Proof.
  unfold sameLegs. intros H. revert n.
  induction H as [| x y l l' Hxy Hll IH]; intros [| n] Hn Hc; simpl in *;
    try discriminate.
  - inversion Hn; subst. constructor; [| assumption].
    eapply sameConfiguration_trans; eassumption.
  - constructor; [assumption |]. apply IH; assumption.
Qed.

Lemma sameLegs_size (legs legs' : list (LightTimeCalculator T)) :
  sameLegs legs legs' -> size legs' = size legs.
Proof.
  unfold sameLegs, size. intros H. apply Forall2_length in H. lia.
Qed.

Lemma sameLegs_refl (legs : list (LightTimeCalculator T)) : sameLegs legs legs.
Proof.
  unfold sameLegs. induction legs; constructor; [apply sameConfiguration_refl | assumption].
Qed.

(** One leg of a walk: the calculator is read, the leg is solved and the
    calculator is put back. *)
Lemma satisfies_walk_leg fuel (legs : list (LightTimeCalculator T)) n
  (w : Walk T) (leg : Z) time b :
  walkShape n legs w ->
  0 <= leg ->
  satisfies
    (bind (at_ (walkCalculators w) leg) (fun legCalculator0 =>
     bind (calculateLightTimeWithMultiLegLinkEndsStates fuel legCalculator0
             (walkLinkEndsStates w) (walkLinkEndsTimes w) time b (uint32 (2 * leg)))
       (fun r =>
     bind (set_at (walkCalculators w) leg (legCalculator r)) (fun calculators =>
     ret (r, calculators)))))
    (fun s =>
       forall total current,
         walkShape n legs
           (mkWalk (snd s) (legLinkEndsStates (fst s)) (legLinkEndsTimes (fst s))
              total current))
    (fun e => n = 2 * size legs -> n < 2 ^ 32 -> isLegOrRangeError legs e).
Proof.
  intros (Hs & Ht & Hlegs) Hleg.
  eapply satisfies_bind.
  { eapply satisfies_weaken; [apply satisfies_at | |].
    - intros c Hc. exact Hc.
    - intros e -> _ _. left. reflexivity. }
  cbv beta. intros c Hc.
  destruct (Forall2_nth_error_r _ _ _ Hlegs _ _ Hc) as (c0 & Hc0 & Hsame).
  eapply satisfies_bind.
  { eapply satisfies_weaken; [apply satisfies_leg | |].
    - intros r Hr. exact Hr.
    - intros e He Hn H32. right. exists c0. split; [eapply nth_error_In; exact Hc0 |].
      eapply isUnconvergedErrorOf_configuration; [exact Hsame |].
      apply He.
      assert (Hlt : (Z.to_nat leg < length (walkCalculators w))%nat).
      { apply nth_error_Some. congruence. }
      pose proof (sameLegs_size _ _ Hlegs) as Hsize. unfold size in Hsize, Hn.
      assert (E : uint32 (2 * leg) = 2 * leg).
      { unfold uint32. apply Z.mod_small. lia. }
      rewrite E. unfold wellFormedArguments. lia. }
  cbv beta. intros r (Hrs & Hrt & Hrc).
  eapply satisfies_bind.
  { eapply satisfies_weaken; [apply satisfies_set_at | |].
    - intros v Hv. exact Hv.
    - intros e -> _ _. left. reflexivity. }
  cbv beta. intros calculators ->.
  apply satisfies_ret. intros total current.
  unfold walkShape. cbn [walkCalculators walkLinkEndsStates walkLinkEndsTimes fst snd].
  split; [congruence |]. split; [congruence |].
  eapply sameLegs_replace_nth; eassumption.
Qed.

Lemma satisfies_moveBackwards fuel delays (legs : list (LightTimeCalculator T)) n :
  forall currentDownIndex (w : Walk T),
    walkShape n legs w ->
    satisfies (moveBackwards fuel delays currentDownIndex w)
      (walkShape n legs)
      (fun e => n = 2 * size legs -> n < 2 ^ 32 -> isLegOrRangeError legs e).
Proof.
  induction currentDownIndex as [| previous IH]; intros w Hw.
  - apply satisfies_ret. exact Hw.
  - pose proof (satisfies_walk_leg fuel legs n w (Z.of_nat previous)
                  (currentLinkEndTime w) true Hw ltac:(lia)) as Hleg.
    cbn [moveBackwards]. unfold satisfies in *.
    destruct (at_ (walkCalculators w) (Z.of_nat previous)) as [l0 [c | e | ]];
      cbn [bind snd] in *; try exact Hleg.
    destruct (calculateLightTimeWithMultiLegLinkEndsStates fuel c
                (walkLinkEndsStates w) (walkLinkEndsTimes w)
                (currentLinkEndTime w) true (uint32 (2 * Z.of_nat previous)))
      as [l1 [r | e | ]]; cbn [bind snd] in *; try exact Hleg.
    destruct (set_at (walkCalculators w) (Z.of_nat previous) (legCalculator r))
      as [l2 [calculators | e | ]]; cbn [bind snd ret fst app] in *; try exact Hleg.
    pose proof (satisfies_at delays (Z.of_nat previous)) as Hd.
    unfold satisfies in Hd.
    destruct (at_ delays (Z.of_nat previous)) as [l3 [delay | e | ]];
      cbn [bind snd] in *.
    + specialize (IH _ (Hleg (totalLightTime w + (legLightTime r + delay))%sc
                             (currentLinkEndTime w - (legLightTime r + delay))%sc)).
      destruct (moveBackwards fuel delays previous _) as [l4 o]. exact IH.
    + intros _ _. left. exact Hd.
    + exact I.
Qed.

Lemma satisfies_moveForwards fuel delays (legs : list (LightTimeCalculator T)) n :
  forall remaining currentUpIndex (w : Walk T),
    walkShape n legs w ->
    0 <= currentUpIndex ->
    satisfies (moveForwards fuel delays remaining currentUpIndex w)
      (walkShape n legs)
      (fun e => n = 2 * size legs -> n < 2 ^ 32 -> isLegOrRangeError legs e).
Proof.
  induction remaining as [| remaining IH]; intros currentUpIndex w Hw Hup.
  - apply satisfies_ret. exact Hw.
  - pose proof (satisfies_walk_leg fuel legs n w currentUpIndex
                  (currentLinkEndTime w) false Hw Hup) as Hleg.
    cbn [moveForwards]. unfold satisfies in *.
    destruct (at_ (walkCalculators w) currentUpIndex) as [l0 [c | e | ]];
      cbn [bind snd] in *; try exact Hleg.
    destruct (calculateLightTimeWithMultiLegLinkEndsStates fuel c
                (walkLinkEndsStates w) (walkLinkEndsTimes w)
                (currentLinkEndTime w) false (uint32 (2 * currentUpIndex)))
      as [l1 [r | e | ]]; cbn [bind snd] in *; try exact Hleg.
    destruct (set_at (walkCalculators w) currentUpIndex (legCalculator r))
      as [l2 [calculators | e | ]]; cbn [bind snd ret fst app] in *; try exact Hleg.
    pose proof (satisfies_at delays (uint32 (currentUpIndex + 1))) as Hd.
    unfold satisfies in Hd.
    destruct (at_ delays (uint32 (currentUpIndex + 1))) as [l3 [delay | e | ]];
      cbn [bind snd] in *.
    + assert (H32 : 0 <= uint32 (currentUpIndex + 1)) by (apply Z.mod_pos_bound; lia).
      specialize (IH (uint32 (currentUpIndex + 1)) _
                    (Hleg (totalLightTime w + (legLightTime r + delay))%sc
                          (currentLinkEndTime w + (legLightTime r + delay))%sc) H32).
      destruct (moveForwards fuel delays remaining _ _) as [l4 o]. exact IH.
    + intros _ _. left. exact Hd.
    + exact I.
Qed.

Lemma size_repeat {A : Type} (x : A) (n : Z) :
  0 <= n -> size (repeat x (Z.to_nat n)) = n.
Proof. intros H. unfold size. rewrite repeat_length. lia. Qed.

Lemma uint32_bounds (x : Z) : 0 <= uint32 x < 2 ^ 32.
Proof. apply Z.mod_pos_bound. lia. Qed.

Lemma satisfies_solveFromReference fuel (this : MultiLegLightTimeCalculator T)
  time delays startLinkEndIndex :
  0 <= startLinkEndIndex ->
  satisfies (solveFromReference fuel this time delays startLinkEndIndex)
    (fun r =>
       size (linkEndsTimesOutput r) = uint32 (2 * numberOfLinks_ this)
       /\ size (linkEndsStatesOutput r) = uint32 (2 * numberOfLinks_ this)
       /\ sameLegs (lightTimeCalculators_ this) (lightTimeCalculators_ (chainCalculator r))
       /\ numberOfLinks_ (chainCalculator r) = numberOfLinks_ this
       /\ numberOfLinkEnds_ (chainCalculator r) = numberOfLinkEnds_ this)
    (fun e =>
       uint32 (2 * numberOfLinks_ this) = 2 * size (lightTimeCalculators_ this) ->
       isLegOrRangeError (lightTimeCalculators_ this) e).
Proof.
  intros Hstart. unfold solveFromReference.
  pose proof (uint32_bounds (2 * numberOfLinks_ this)) as Hn.
  eapply satisfies_bind.
  { eapply satisfies_weaken; [apply satisfies_at | intros a Ha; exact I |].
    intros e -> _. left. reflexivity. }
  cbv beta. intros startDelay _.
  eapply satisfies_bind.
  { eapply satisfies_weaken;
      [apply (satisfies_moveBackwards fuel delays (lightTimeCalculators_ this)
                (uint32 (2 * numberOfLinks_ this)))
      | intros w Hw; exact Hw
      | intros e He H; apply He; [exact H | lia]].
    unfold walkShape. cbn [walkLinkEndsStates walkLinkEndsTimes walkCalculators].
    rewrite !size_repeat by lia. auto using sameLegs_refl. }
  cbv beta. intros w Hw.
  eapply satisfies_bind.
  { eapply satisfies_weaken; [apply satisfies_at | intros a Ha; exact I |].
    intros e -> _. left. reflexivity. }
  cbv beta. intros startDelay' _.
  eapply satisfies_bind.
  { eapply satisfies_weaken;
      [apply (satisfies_moveForwards fuel delays (lightTimeCalculators_ this)
                (uint32 (2 * numberOfLinks_ this)))
      | intros w' Hw'; exact Hw'
      | intros e He H; apply He; [exact H | lia]].
    - exact Hw.
    - exact Hstart. }
  cbv beta. intros w' (Hs & Ht & Hlegs).
  apply satisfies_ret.
  cbn [linkEndsTimesOutput linkEndsStatesOutput chainCalculator set_lightTimeCalculators
         lightTimeCalculators_ numberOfLinks_ numberOfLinkEnds_].
  auto.
Qed.

Lemma satisfies_checkReferenceLinkEnd (this : MultiLegLightTimeCalculator T)
  delays startLinkEndIndex :
  satisfies (checkReferenceLinkEnd this delays startLinkEndIndex)
    (fun _ => True)
    (fun e => e = ErrorNonZeroDelayAtReferenceLinkEnd \/ e = ErrorOutOfRange).
Proof.
  unfold checkReferenceLinkEnd.
  destruct (negb _ && negb _); [| exact I].
  eapply satisfies_bind.
  { eapply satisfies_weaken; [apply satisfies_at | intros a Ha; exact I |].
    intros e ->. right. reflexivity. }
  cbv beta. intros delay _.
  destruct (negb _); [| exact I]. left. reflexivity.
Qed.

Lemma satisfies_currentRetransmissionDelays (this : MultiLegLightTimeCalculator T)
  ancillarySettings :
  satisfies (currentRetransmissionDelays this ancillarySettings)
    (fun _ => True)
    (fun e => exists delaysSize,
         e = ErrorInvalidRetransmissionDelaysSize delaysSize (numberOfLinkEnds_ this)).
Proof.
  unfold currentRetransmissionDelays.
  destruct ancillarySettings as [settings |]; [| exact I].
  destruct (_ =? _); [exact I |]. destruct (_ =? _); [exact I |].
  eexists. reflexivity.
Qed.

(** X13: a chain solve that returns gives output vectors of twice as many
    entries as the chain has legs, two for each leg, and leaves the chain
    with its counts and with as many legs as it had, each with the state
    functions, the corrections and the criteria it had. *)
Theorem chain_solve_keeps_its_shape
  fuel (this : MultiLegLightTimeCalculator T) time linkEnd ancillarySettings l r :
  MultiLeg_calculateLightTimeWithLinkEndsStates fuel this time linkEnd ancillarySettings
  = (l, Returned r) ->
  size (linkEndsTimesOutput r) = uint32 (2 * numberOfLinks_ this)
  /\ size (linkEndsStatesOutput r) = uint32 (2 * numberOfLinks_ this)
  /\ size (lightTimeCalculators_ (chainCalculator r)) = size (lightTimeCalculators_ this)
  /\ sameLegs (lightTimeCalculators_ this) (lightTimeCalculators_ (chainCalculator r))
  /\ numberOfLinks_ (chainCalculator r) = numberOfLinks_ this
  /\ numberOfLinkEnds_ (chainCalculator r) = numberOfLinkEnds_ this.
Proof.
  unfold MultiLeg_calculateLightTimeWithLinkEndsStates, solveWithDelays. intros H.
  apply bind_Returned in H. destruct H as (l1 & delays & l2 & _ & H & _).
  apply bind_Returned in H. destruct H as (l3 & [] & l4 & _ & H & _).
  pose proof (satisfies_Returned _ _ _ _ _
                (satisfies_solveFromReference fuel this time delays _
                   (proj1 (uint32_bounds _))) H)
    as (Ht & Hs & Hlegs & Hn & Hne).
  pose proof (sameLegs_size _ _ Hlegs). auto 10.
Qed.

(** X14: the errors of a chain solve.  In a chain constructed from fewer
    than 2^31 legs, a solve raises nothing but: one of the two errors about
    its configuration, a range error from reading a vector, or the convergence
    error of one of its legs, and that leg has the failure handling that is to
    throw.  It never raises the error of inconsistent vectors: the vectors
    it hands to its legs fit them. *)
Theorem chain_errors_come_from_its_legs
  (legs : list (LightTimeCalculator T)) (criteria : LightTimeConvergenceCriteria T)
  fuel time linkEnd ancillarySettings l e :
  2 * size legs < 2 ^ 32 ->
  MultiLeg_calculateLightTimeWithLinkEndsStates fuel
    (new_MultiLegLightTimeCalculator legs criteria) time linkEnd ancillarySettings
  = (l, Raised e) ->
  e <> ErrorInconsistentLinkEndVectors
  /\ (isConfigurationError e = true
      \/ e = ErrorOutOfRange
      \/ exists leg residual correction time',
           In leg legs
           /\ failureHandling_ (lightTimeConvergenceCriteria_ leg) = throw_exception
           /\ e = ErrorLightTimeUnconverged residual correction time').
Proof.
  intros H32 H.
  assert (Hsize : 0 <= size legs) by (unfold size; lia).
  assert (Hcases : isConfigurationError e = true
                   \/ isLegOrRangeError legs e).
  { unfold MultiLeg_calculateLightTimeWithLinkEndsStates, solveWithDelays in H.
    apply bind_Raised in H. destruct H as [H | (l1 & delays & l2 & _ & H & _)].
    { destruct (satisfies_Raised _ _ _ _ _
                  (satisfies_currentRetransmissionDelays _ _) H) as (n & ->).
      left. reflexivity. }
    apply bind_Raised in H. destruct H as [H | (l3 & [] & l4 & _ & H & _)].
    { destruct (satisfies_Raised _ _ _ _ _ (satisfies_checkReferenceLinkEnd _ _ _) H)
        as [-> | ->]; [left; reflexivity | right; left; reflexivity]. }
    right.
    apply (satisfies_Raised _ _ _ _ _
             (satisfies_solveFromReference fuel _ time delays _
                (proj1 (uint32_bounds _))) H).
    cbn [new_MultiLegLightTimeCalculator numberOfLinks_ lightTimeCalculators_].
    unfold uint32. rewrite (Z.mod_small (size legs)) by lia.
    apply Z.mod_small. lia. }
  split.
  - destruct Hcases as [Hc | [-> | (leg & _ & (a & b & c & ->) & _)]];
      [intros -> |..]; discriminate.
  - destruct Hcases as [Hc | [-> | (leg & Hin & (a & b & c & ->) & Hf)]]; auto.
    right. right. exists leg, a, b, c. auto.
Qed.

Lemma currentRetransmissionDelays_size
  (legs : list (LightTimeCalculator T)) (criteria : LightTimeConvergenceCriteria T)
  ancillarySettings delays l :
  1 <= size legs -> size legs + 1 < 2 ^ 32 ->
  currentRetransmissionDelays (new_MultiLegLightTimeCalculator legs criteria)
    ancillarySettings = (l, Returned delays) ->
  size delays = size legs + 1.
Proof.
  intros H1 H32.
  destruct (new_MultiLegLightTimeCalculator_counts legs criteria H32) as (_ & Hends).
  unfold currentRetransmissionDelays. rewrite Hends.
  assert (Hminus : uint32 (size legs + 1 - 2) = size legs - 1)
    by (unfold uint32; rewrite Z.mod_small; lia).
  rewrite Hminus.
  destruct ancillarySettings as [settings |].
  - destruct (Z.eqb_spec (size (getAncilliaryDoubleVectorData_retransmission_delays
                                  settings)) (size legs + 1)) as [E | _].
    { intros H. inversion H; subst. exact E. }
    destruct (Z.eqb_spec (size (getAncilliaryDoubleVectorData_retransmission_delays
                                  settings)) (size legs - 1)) as [E | _];
      [| discriminate].
    intros H. inversion H; subst. unfold size in *. cbn [length app].
    rewrite length_app. cbn [length]. lia.
  - intros H. inversion H; subst. apply size_repeat. lia.
Qed.

(** X15: a reference link end beyond the chain.  In a chain of [N] legs
    ([N] at least one), when the index of the link end the time is given at
    is greater than [N], the index of the last link end, a solve whose
    retransmission delays are accepted raises the range error, from the read
    of the delay at that index, before any leg is solved and whatever the
    legs are. *)
Theorem reference_beyond_the_chain_raises
  (legs : list (LightTimeCalculator T)) (criteria : LightTimeConvergenceCriteria T)
  fuel time linkEnd ancillarySettings delays :
  let this := new_MultiLegLightTimeCalculator legs criteria in
  let start :=
    uint32 (getNWayLinkIndexFromLinkEndType linkEnd (numberOfLinkEnds_ this)) in
  1 <= size legs -> size legs + 1 < 2 ^ 32 ->
  currentRetransmissionDelays this ancillarySettings = ret delays ->
  size legs < start ->
  MultiLeg_calculateLightTimeWithLinkEndsStates fuel this time linkEnd ancillarySettings
  = raise ErrorOutOfRange.
Proof.
  intros this start H1 H32 Hd Hstart.
  pose proof (currentRetransmissionDelays_size legs criteria ancillarySettings delays []
                H1 H32 Hd) as Hsize.
  destruct (new_MultiLegLightTimeCalculator_counts legs criteria H32) as (_ & Hends).
  fold this in Hends.
  unfold MultiLeg_calculateLightTimeWithLinkEndsStates.
  rewrite Hd, bind_ret_l. unfold solveWithDelays. fold start.
  unfold checkReferenceLinkEnd. rewrite Hends.
  assert (Hlast : uint32 (size legs + 1 - 1) = size legs)
    by (unfold uint32; rewrite Z.mod_small; lia).
  rewrite Hlast.
  destruct (Z.eqb_spec start 0); [lia |].
  destruct (Z.eqb_spec start (size legs)); [lia |].
  cbn [negb andb]. unfold at_.
  assert (E : nth_error delays (Z.to_nat start) = None).
  { apply nth_error_None. unfold size in *. lia. }
  rewrite E. reflexivity.
Qed.

(** X16: a chain with no leg.  It has one link end, and a solve with no
    ancillary settings reads no state function.  When the time is given at
    that link end the solve prints nothing and returns the sum of the initial
    total, zero, and the delay there, zero, with no entry in either output
    vector; when the index of the link end the time is given at is any other,
    it raises the range error. *)
Theorem chain_with_no_leg
  (criteria : LightTimeConvergenceCriteria T) fuel time linkEnd :
  let this := new_MultiLegLightTimeCalculator [] criteria in
  let start :=
    uint32 (getNWayLinkIndexFromLinkEndType linkEnd (numberOfLinkEnds_ this)) in
  (start = 0 ->
   MultiLeg_calculateLightTimeWithLinkEndsStates fuel this time linkEnd None
   = ret (mkChainResult (s_zero + s_zero)%sc this [] []))
  /\ (start <> 0 ->
      MultiLeg_calculateLightTimeWithLinkEndsStates fuel this time linkEnd None
      = raise ErrorOutOfRange).
Proof.
  intros this start.
  unfold MultiLeg_calculateLightTimeWithLinkEndsStates, solveWithDelays.
  fold start.
  change (currentRetransmissionDelays this None) with (ret (T := T) [s_zero : T]).
  rewrite bind_ret_l. unfold checkReferenceLinkEnd.
  change (uint32 (numberOfLinkEnds_ this - 1)) with 0.
  split; intros Hstart.
  - rewrite Hstart. reflexivity.
  - destruct (Z.eqb_spec start 0); [contradiction |].
    cbn [negb andb]. unfold at_.
    assert (E : nth_error [s_zero : T] (Z.to_nat start) = None).
    { apply nth_error_None. pose proof (uint32_bounds
        (getNWayLinkIndexFromLinkEndType linkEnd (numberOfLinkEnds_ this))).
      fold start in H. simpl. lia. }
    rewrite E. reflexivity.
Qed.

(** *** The errors of the calls that build their vectors *)

Lemma satisfies_calculateLightTimeWithLinkEndsStates
  fuel (this : LightTimeCalculator T) time b :
  satisfies (calculateLightTimeWithLinkEndsStates fuel this time b)
    (fun _ => True) (isUnconvergedErrorOf this).
Proof.
  unfold calculateLightTimeWithLinkEndsStates.
  eapply satisfies_bind.
  { eapply satisfies_weaken; [apply satisfies_leg | intros r Hr; exact Hr |].
    intros e He. apply He. exact noGuess_wellFormedArguments. }
  cbv beta. intros r (Hsize & _ & _).
  unfold size in Hsize. cbn [repeat length] in Hsize.
  destruct (legLinkEndsStates r) as [| sT [| sR rest]]; simpl in Hsize; try lia.
  exact I.
Qed.

(** X20: the calls that build their vectors themselves raise nothing but
    the convergence error.  Whatever the calculator and the time,
    [calculateLightTime], [calculateLightTimeWithLinkEndsStates] and
    [calculateRelativeRangeVector] never raise the error of inconsistent
    vectors nor a range error: what they raise is the convergence error, and
    only when the failure handling of the criteria is to throw. *)
Theorem entry_points_raise_only_the_convergence_error
  fuel (this : LightTimeCalculator T) time b l e :
  calculateLightTime fuel this time b = (l, Raised e)
  \/ calculateLightTimeWithLinkEndsStates fuel this time b = (l, Raised e)
  \/ calculateRelativeRangeVector fuel this time b = (l, Raised e) ->
  (exists residual correction time',
      e = ErrorLightTimeUnconverged residual correction time')
  /\ failureHandling_ (lightTimeConvergenceCriteria_ this) = throw_exception.
Proof.
  pose proof (satisfies_calculateLightTimeWithLinkEndsStates fuel this time b) as Hcall.
  intros [H | [H | H]].
  - unfold calculateLightTime in H.
    refine (satisfies_Raised _ (fun _ => True) (isUnconvergedErrorOf this) _ _ _ H).
    eapply satisfies_bind; [exact Hcall |].
    intros [[[lt this'] sR] sT] _. exact I.
  - exact (satisfies_Raised _ _ _ _ _ Hcall H).
  - unfold calculateRelativeRangeVector in H.
    refine (satisfies_Raised _ (fun _ => True) (isUnconvergedErrorOf this) _ _ _ H).
    eapply satisfies_bind; [exact Hcall |].
    intros [[[lt this'] sR] sT] _. exact I.
Qed.

(** *** The legs of a walk, one by one *)

Lemma firstn_S_nth_error {A : Type} (l : list A) n x :
  nth_error l n = Some x -> firstn (S n) l = firstn n l ++ [x].
Proof.
  revert n. induction l as [| y l IH]; intros [| n] H; simpl in *; try discriminate.
  - inversion H. reflexivity.
  - f_equal. apply IH. exact H.
Qed.

Lemma skipn_nth_error {A : Type} (l : list A) n x :
  nth_error l n = Some x -> skipn n l = x :: skipn (S n) l.
Proof.
  revert n. induction l as [| y l IH]; intros [| n] H; simpl in *; try discriminate.
  - inversion H. reflexivity.
  - apply IH. exact H.
Qed.

Lemma skipn_replace_nth {A : Type} (l : list A) n m x :
  (n < m)%nat -> skipn m (replace_nth l n x) = skipn m l.
Proof.
  revert n m. induction l as [| y l IH]; intros [| n] [| m] H; simpl; try lia; try reflexivity.
  apply IH. lia.
Qed.

Lemma firstn_replace_nth {A : Type} (l : list A) n m x :
  (m <= n)%nat -> firstn m (replace_nth l n x) = firstn m l.
Proof.
  revert n m. induction l as [| y l IH]; intros [| n] [| m] H; simpl; try lia; try reflexivity.
  f_equal. apply IH. lia.
Qed.

Lemma skipn_S_eq {A : Type} (l l' : list A) n :
  skipn n l = skipn n l' -> skipn (S n) l = skipn (S n) l'.
Proof.
  intros H. rewrite <- (Nat.add_1_l n), <- !skipn_skipn, H. reflexivity.
Qed.

Lemma firstn_eq_le {A : Type} (l l' : list A) n m :
  (m <= n)%nat -> firstn n l = firstn n l' -> firstn m l = firstn m l'.
Proof.
  intros Hm H.
  rewrite <- (Nat.min_l m n) by assumption.
  rewrite <- !firstn_firstn, H. reflexivity.
Qed.

Lemma nth_error_skipn_eq {A : Type} (l l' : list A) n :
  skipn n l = skipn n l' -> nth_error l n = nth_error l' n.
Proof.
  intros H.
  pose proof (nth_error_skipn n l 0) as H1.
  pose proof (nth_error_skipn n l' 0) as H2.
  rewrite Nat.add_0_r in H1, H2. rewrite <- H1, <- H2, H. reflexivity.
Qed.

Lemma nth_error_firstn_eq {A : Type} (l l' : list A) n :
  firstn (S n) l = firstn (S n) l' -> nth_error l n = nth_error l' n.
Proof.
  intros H.
  pose proof (nth_error_firstn (S n) l n) as H1.
  pose proof (nth_error_firstn (S n) l' n) as H2.
  assert (E : Nat.ltb n (S n) = true) by (apply Nat.ltb_lt; lia).
  rewrite E in H1, H2. rewrite <- H1, <- H2, H. reflexivity.
Qed.

Lemma calculateLightTimeWithMultiLegLinkEndsStates_cached
  fuel (this : LightTimeCalculator T) states times time b index l r :
  calculateLightTimeWithMultiLegLinkEndsStates fuel this states times time b index
    = (l, Returned r) ->
  legLightTime r = cachedLightTime (legCalculator r).
Proof.
  intros H.
  destruct (calculateLightTimeWithMultiLegLinkEndsStates_Returned
              _ _ _ _ _ _ _ _ _ H) as (rt & tt & l' & v & Hw & ->).
  destruct (initialLocals_facts this rt tt) as (_ & Hv0 & _).
  apply (whileNotToleranceReached_Returned
           (fun this' v' =>
              newLightTimeCalculation v'
              = (currentIdealLightTime_ this' + currentCorrection_ this')%sc)
           time b) in Hw; [apply Hw | | exact Hv0].
  intros this1 v1 l1 this2 v2 Hbody.
  apply (loopBody_Returned _ _ _ _ _ _ _ Hbody).
Qed.

Lemma moveBackwards_S_Returned fuel delays previous (w w' : Walk T) l :
  moveBackwards fuel delays (S previous) w = (l, Returned w') ->
  exists c r d l',
    nth_error (walkCalculators w) previous = Some c
    /\ legLightTime r = cachedLightTime (legCalculator r)
    /\ nth_error delays previous = Some d
    /\ moveBackwards fuel delays previous
         (mkWalk (replace_nth (walkCalculators w) previous (legCalculator r))
            (legLinkEndsStates r) (legLinkEndsTimes r)
            (totalLightTime w + (legLightTime r + d))%sc
            (currentLinkEndTime w - (legLightTime r + d))%sc)
       = (l', Returned w')
    /\ exists l0,
         calculateLightTimeWithMultiLegLinkEndsStates fuel c
           (walkLinkEndsStates w) (walkLinkEndsTimes w) (currentLinkEndTime w) true
           (uint32 (2 * Z.of_nat previous))
         = (l0, Returned r).
Proof.
  cbn [moveBackwards]. intros H.
  apply bind_Returned in H. destruct H as (? & c & ? & Hc & H & _).
  apply bind_Returned in H. destruct H as (? & r & ? & Hr & H & _).
  apply bind_Returned in H. destruct H as (? & calculators & ? & Hset & H & _).
  apply bind_Returned in H. destruct H as (? & d & l' & Hd & H & _).
  pose proof (satisfies_Returned _ _ _ _ _ (satisfies_at _ _) Hc) as Hc'.
  pose proof (satisfies_Returned _ _ _ _ _ (satisfies_at _ _) Hd) as Hd'.
  pose proof (satisfies_Returned _ _ _ _ _ (satisfies_set_at _ _ _) Hset) as Hset'.
  cbv beta in Hc', Hd', Hset'. rewrite Nat2Z.id in Hc', Hd', Hset'. subst calculators.
  exists c, r, d, l'. repeat split; try assumption.
  - eapply calculateLightTimeWithMultiLegLinkEndsStates_cached. exact Hr.
  - eexists. exact Hr.
Qed.

Lemma moveForwards_S_Returned fuel delays remaining currentUpIndex (w w' : Walk T) l :
  0 <= currentUpIndex -> currentUpIndex + 1 < 2 ^ 32 ->
  moveForwards fuel delays (S remaining) currentUpIndex w = (l, Returned w') ->
  exists c r d l',
    nth_error (walkCalculators w) (Z.to_nat currentUpIndex) = Some c
    /\ legLightTime r = cachedLightTime (legCalculator r)
    /\ nth_error delays (S (Z.to_nat currentUpIndex)) = Some d
    /\ moveForwards fuel delays remaining (currentUpIndex + 1)
         (mkWalk (replace_nth (walkCalculators w) (Z.to_nat currentUpIndex)
                    (legCalculator r))
            (legLinkEndsStates r) (legLinkEndsTimes r)
            (totalLightTime w + (legLightTime r + d))%sc
            (currentLinkEndTime w + (legLightTime r + d))%sc)
       = (l', Returned w')
    /\ exists l0,
         calculateLightTimeWithMultiLegLinkEndsStates fuel c
           (walkLinkEndsStates w) (walkLinkEndsTimes w) (currentLinkEndTime w) false
           (uint32 (2 * currentUpIndex))
         = (l0, Returned r).
Proof.
  intros H0 H32. cbn [moveForwards].
  assert (E : uint32 (currentUpIndex + 1) = currentUpIndex + 1)
    by (unfold uint32; apply Z.mod_small; lia).
  rewrite E. intros H.
  apply bind_Returned in H. destruct H as (? & c & ? & Hc & H & _).
  apply bind_Returned in H. destruct H as (? & r & ? & Hr & H & _).
  apply bind_Returned in H. destruct H as (? & calculators & ? & Hset & H & _).
  apply bind_Returned in H. destruct H as (? & d & l' & Hd & H & _).
  pose proof (satisfies_Returned _ _ _ _ _ (satisfies_at _ _) Hc) as Hc'.
  pose proof (satisfies_Returned _ _ _ _ _ (satisfies_at _ _) Hd) as Hd'.
  pose proof (satisfies_Returned _ _ _ _ _ (satisfies_set_at _ _ _) Hset) as Hset'.
  cbv beta in Hc', Hd', Hset'. subst calculators.
  replace (Z.to_nat (currentUpIndex + 1)) with (S (Z.to_nat currentUpIndex)) in Hd' by lia.
  exists c, r, d, l'. repeat split; try assumption.
  - eapply calculateLightTimeWithMultiLegLinkEndsStates_cached. exact Hr.
  - eexists. exact Hr.
Qed.

Lemma calculateLightTimeWithMultiLegLinkEndsStates_frame
  fuel (this : LightTimeCalculator T) states times time b index l r :
  wellFormedArguments states times index ->
  calculateLightTimeWithMultiLegLinkEndsStates fuel this states times time b index
  = (l, Returned r) ->
  forall i : nat, i <> Z.to_nat index -> i <> Z.to_nat (index + 1) ->
    nth_error (legLinkEndsStates r) i = nth_error states i
    /\ nth_error (legLinkEndsTimes r) i = nth_error times i.
Proof.
  intros Hwf H i Hi Hi'.
  destruct (calculateLightTimeWithMultiLegLinkEndsStates_Returned_inv
              _ _ _ _ _ _ _ _ _ Hwf H)
    as (rt & tt & k & thisk & vk & lw & Hg & Hk & _ & -> & _).
  cbn [legLinkEndsStates legLinkEndsTimes].
  split; rewrite !nth_error_replace_nth_other by congruence; reflexivity.
Qed.

(** What a walk needs of its vectors and legs to solve leg [leg]. *)
Lemma walk_leg_wellFormed (legs : list (LightTimeCalculator T)) (w : Walk T) (leg : nat) c :
  walkShape (2 * size legs) legs w ->
  2 * size legs < 2 ^ 32 ->
  nth_error (walkCalculators w) leg = Some c ->
  uint32 (2 * Z.of_nat leg) = 2 * Z.of_nat leg
  /\ wellFormedArguments (walkLinkEndsStates w) (walkLinkEndsTimes w) (2 * Z.of_nat leg)
  /\ exists c0, nth_error legs leg = Some c0 /\ sameConfiguration c0 c.
Proof.
  intros (Hs & Ht & Hlegs) H32 Hc.
  assert (Hlt : (leg < length (walkCalculators w))%nat)
    by (apply nth_error_Some; congruence).
  pose proof (sameLegs_size _ _ Hlegs) as Hsize. unfold size in Hsize.
  unfold size in H32.
  split; [| split].
  - unfold uint32. apply Z.mod_small. lia.
  - unfold wellFormedArguments. unfold size in *. lia.
  - exact (Forall2_nth_error_r _ _ _ Hlegs _ _ Hc).
Qed.

Lemma walkShape_after_leg (legs : list (LightTimeCalculator T)) n (w : Walk T)
  (leg : nat) c r total current :
  walkShape n legs w ->
  nth_error (walkCalculators w) leg = Some c ->
  size (legLinkEndsStates r) = size (walkLinkEndsStates w) ->
  size (legLinkEndsTimes r) = size (walkLinkEndsTimes w) ->
  sameConfiguration c (legCalculator r) ->
  walkShape n legs
    (mkWalk (replace_nth (walkCalculators w) leg (legCalculator r))
       (legLinkEndsStates r) (legLinkEndsTimes r) total current).
Proof.
  intros (Hs & Ht & Hlegs) Hc Hrs Hrt Hsame.
  unfold walkShape. cbn [walkCalculators walkLinkEndsStates walkLinkEndsTimes].
  split; [congruence |]. split; [congruence |].
  eapply sameLegs_replace_nth; eassumption.
Qed.

Lemma moveBackwards_frame fuel delays (legs : list (LightTimeCalculator T)) :
  2 * size legs < 2 ^ 32 ->
  forall currentDownIndex (w w' : Walk T) l,
    walkShape (2 * size legs) legs w ->
    moveBackwards fuel delays currentDownIndex w = (l, Returned w') ->
    walkShape (2 * size legs) legs w'
    /\ forall i : nat, (2 * currentDownIndex <= i)%nat ->
         nth_error (walkLinkEndsStates w') i = nth_error (walkLinkEndsStates w) i
         /\ nth_error (walkLinkEndsTimes w') i = nth_error (walkLinkEndsTimes w) i.
Proof.
  intros H32.
  induction currentDownIndex as [| previous IH]; intros w w' l Hw H.
  - simpl in H. inversion H; subst. auto.
  - destruct (moveBackwards_S_Returned _ _ _ _ _ _ H)
      as (c & r & d & l' & Hc & _ & _ & Hrec & l0 & Hsolve).
    destruct (walk_leg_wellFormed legs w previous c Hw H32 Hc) as (Hu & Hwf & _).
    rewrite Hu in Hsolve.
    pose proof (satisfies_Returned _ _ _ _ _ (satisfies_leg _ _ _ _ _ _ _) Hsolve)
      as (Hrs & Hrt & Hsame).
    destruct (IH _ _ _ (walkShape_after_leg legs _ w previous c r _ _ Hw Hc Hrs Hrt Hsame)
                Hrec) as (Hw' & Hframe).
    split; [exact Hw' |]. intros i Hi.
    destruct (Hframe i ltac:(lia)) as (Hs1 & Ht1).
    cbn [walkLinkEndsStates walkLinkEndsTimes] in Hs1, Ht1.
    destruct (calculateLightTimeWithMultiLegLinkEndsStates_frame
                _ _ _ _ _ _ _ _ _ Hwf Hsolve i) as (Hs2 & Ht2); [lia | lia |].
    split; congruence.
Qed.

Lemma moveForwards_frame fuel delays (legs : list (LightTimeCalculator T)) :
  2 * size legs < 2 ^ 32 ->
  forall remaining currentUpIndex (w w' : Walk T) l,
    0 <= currentUpIndex -> currentUpIndex + Z.of_nat remaining < 2 ^ 32 ->
    walkShape (2 * size legs) legs w ->
    moveForwards fuel delays remaining currentUpIndex w = (l, Returned w') ->
    walkShape (2 * size legs) legs w'
    /\ forall i : nat, (i < 2 * Z.to_nat currentUpIndex)%nat ->
         nth_error (walkLinkEndsStates w') i = nth_error (walkLinkEndsStates w) i
         /\ nth_error (walkLinkEndsTimes w') i = nth_error (walkLinkEndsTimes w) i.
Proof.
  intros H32.
  induction remaining as [| remaining IH]; intros up w w' l H0 Hb Hw H.
  - simpl in H. inversion H; subst. auto.
  - assert (H1 : up + 1 < 2 ^ 32) by lia.
    destruct (moveForwards_S_Returned _ _ _ _ _ _ _ H0 H1 H)
      as (c & r & d & l' & Hc & _ & _ & Hrec & l0 & Hsolve).
    destruct (walk_leg_wellFormed legs w (Z.to_nat up) c Hw H32 Hc) as (Hu & Hwf & _).
    rewrite Z2Nat.id in Hu, Hwf by assumption.
    rewrite Hu in Hsolve.
    pose proof (satisfies_Returned _ _ _ _ _ (satisfies_leg _ _ _ _ _ _ _) Hsolve)
      as (Hrs & Hrt & Hsame).
    assert (H0' : 0 <= up + 1) by lia.
    assert (Hb' : up + 1 + Z.of_nat remaining < 2 ^ 32) by lia.
    destruct (IH _ _ _ _ H0' Hb'
                (walkShape_after_leg legs _ w (Z.to_nat up) c r _ _ Hw Hc Hrs Hrt Hsame)
                Hrec) as (Hw' & Hframe).
    split; [exact Hw' |]. intros i Hi.
    destruct (Hframe i ltac:(lia)) as (Hs1 & Ht1).
    cbn [walkLinkEndsStates walkLinkEndsTimes] in Hs1, Ht1.
    destruct (calculateLightTimeWithMultiLegLinkEndsStates_frame
                _ _ _ _ _ _ _ _ _ Hwf Hsolve i) as (Hs2 & Ht2); [lia | lia |].
    split; congruence.
Qed.


(** *** The total of a chain *)

Lemma legTerms_snoc (cs : list (LightTimeCalculator T)) ds c d :
  length cs = length ds ->
  legTerms (cs ++ [c]) (ds ++ [d]) = legTerms cs ds ++ [(cachedLightTime c + d)%sc].
Proof.
  unfold legTerms. revert ds.
  induction cs as [| c0 cs IH]; intros [| d0 ds] H; simpl in *; try discriminate.
  - reflexivity.
  - rewrite IH by lia. reflexivity.
Qed.

(** The walk back adds, to the total it starts from, the term of each leg
    it solves, the nearest to the reference link end first. *)
Lemma moveBackwards_total fuel delays :
  forall currentDownIndex (w w' : Walk T) l,
    moveBackwards fuel delays currentDownIndex w = (l, Returned w') ->
    length (walkCalculators w') = length (walkCalculators w)
    /\ skipn currentDownIndex (walkCalculators w')
       = skipn currentDownIndex (walkCalculators w)
    /\ (currentDownIndex <= length (walkCalculators w))%nat
    /\ (currentDownIndex <= length delays)%nat
    /\ totalLightTime w'
       = fold_left s_add
           (rev (legTerms (firstn currentDownIndex (walkCalculators w'))
                   (firstn currentDownIndex delays)))
           (totalLightTime w).
Proof.
  induction currentDownIndex as [| previous IH]; intros w w' l H.
  - simpl in H. inversion H; subst. simpl. repeat split; lia.
  - destruct (moveBackwards_S_Returned _ _ _ _ _ _ H)
      as (c & r & d & l' & Hc & Hlt & Hd & Hrec & _).
    destruct (IH _ _ _ Hrec) as (Hlen & Hskip & Hle & Hled & Htotal).
    cbn [walkCalculators totalLightTime] in Hlen, Hskip, Hle, Htotal.
    rewrite length_replace_nth in Hlen, Hle.
    assert (Hlt_c : (previous < length (walkCalculators w))%nat)
      by (apply nth_error_Some; congruence).
    assert (Hlt_d : (previous < length delays)%nat)
      by (apply nth_error_Some; congruence).
    assert (Hnth : nth_error (walkCalculators w') previous = Some (legCalculator r)).
    { rewrite (nth_error_skipn_eq _ _ _ Hskip).
      apply nth_error_replace_nth_same. exact Hlt_c. }
    split; [exact Hlen |]. split; [| split; [lia | split; [lia |]]].
    + rewrite (skipn_S_eq _ _ _ Hskip). apply skipn_replace_nth. lia.
    + rewrite Htotal.
      rewrite (firstn_S_nth_error _ _ _ Hnth), (firstn_S_nth_error _ _ _ Hd).
      rewrite legTerms_snoc by (rewrite !length_firstn; lia).
      rewrite rev_app_distr. cbn [rev app fold_left]. rewrite Hlt. reflexivity.
Qed.

(** The walk on adds the term of each leg it solves, in the order of the
    chain. *)
Lemma moveForwards_total fuel delays :
  forall remaining currentUpIndex (w w' : Walk T) l,
    0 <= currentUpIndex -> currentUpIndex + Z.of_nat remaining < 2 ^ 32 ->
    moveForwards fuel delays remaining currentUpIndex w = (l, Returned w') ->
    length (walkCalculators w') = length (walkCalculators w)
    /\ firstn (Z.to_nat currentUpIndex) (walkCalculators w')
       = firstn (Z.to_nat currentUpIndex) (walkCalculators w)
    /\ totalLightTime w'
       = fold_left s_add
           (legTerms
              (firstn remaining (skipn (Z.to_nat currentUpIndex) (walkCalculators w')))
              (firstn remaining (skipn (S (Z.to_nat currentUpIndex)) delays)))
           (totalLightTime w).
Proof.
  induction remaining as [| remaining IH]; intros up w w' l H0 H32 H.
  - simpl in H. inversion H; subst. simpl. repeat split; auto.
  - assert (H1 : up + 1 < 2 ^ 32) by lia.
    destruct (moveForwards_S_Returned _ _ _ _ _ _ _ H0 H1 H)
      as (c & r & d & l' & Hc & Hlt & Hd & Hrec & _).
    assert (H0' : 0 <= up + 1) by lia.
    assert (H32' : up + 1 + Z.of_nat remaining < 2 ^ 32) by lia.
    destruct (IH _ _ _ _ H0' H32' Hrec) as (Hlen & Hfirst & Htotal).
    cbn [walkCalculators totalLightTime] in Hlen, Hfirst, Htotal.
    rewrite length_replace_nth in Hlen.
    replace (Z.to_nat (up + 1)) with (S (Z.to_nat up)) in Hfirst, Htotal by lia.
    assert (Hlt_c : (Z.to_nat up < length (walkCalculators w))%nat)
      by (apply nth_error_Some; congruence).
    assert (Hnth : nth_error (walkCalculators w') (Z.to_nat up) = Some (legCalculator r)).
    { rewrite (nth_error_firstn_eq _ _ _ Hfirst).
      apply nth_error_replace_nth_same. exact Hlt_c. }
    split; [exact Hlen |]. split.
    + rewrite (firstn_eq_le _ _ (S (Z.to_nat up)) (Z.to_nat up) ltac:(lia) Hfirst).
      apply firstn_replace_nth. lia.
    + rewrite Htotal.
      rewrite (skipn_nth_error _ _ _ Hnth), (skipn_nth_error _ _ _ Hd).
      cbn [firstn]. unfold legTerms at 2. cbn [combine map fst snd fold_left].
      rewrite Hlt. reflexivity.
Qed.

Lemma currentRetransmissionDelays_log (this : MultiLegLightTimeCalculator T)
  ancillarySettings :
  fst (currentRetransmissionDelays this ancillarySettings) = [].
Proof.
  unfold currentRetransmissionDelays.
  destruct ancillarySettings as [settings |]; [| reflexivity].
  destruct (_ =? _); [reflexivity |]. destruct (_ =? _); reflexivity.
Qed.

(** X18: the light time a chain solve returns is a running total, in the
    arithmetic of the scalar type.  It starts at zero plus the delay at the
    reference link end; the walk back adds, for each leg before the reference
    link end and the nearest first, the light time of the leg plus the delay
    at its transmitting link end; the walk on adds, for each leg after it in
    the order of the chain, the light time of the leg plus the delay at its
    receiving link end.  The light time of a leg is the ideal light time plus
    the correction its calculator answers after the call.  There is one term
    for each leg and one delay more than legs: each leg is solved once and
    each delay is added once. *)
Theorem chain_total_is_the_running_total
  (legs : list (LightTimeCalculator T)) (criteria : LightTimeConvergenceCriteria T)
  fuel time linkEnd ancillarySettings l r :
  let this := new_MultiLegLightTimeCalculator legs criteria in
  let start :=
    Z.to_nat (uint32 (getNWayLinkIndexFromLinkEndType linkEnd (numberOfLinkEnds_ this))) in
  1 <= size legs -> size legs + 1 < 2 ^ 32 ->
  MultiLeg_calculateLightTimeWithLinkEndsStates fuel this time linkEnd ancillarySettings
  = (l, Returned r) ->
  exists delays delay,
    currentRetransmissionDelays this ancillarySettings = ret delays
    /\ nth_error delays start = Some delay
    /\ length (lightTimeCalculators_ (chainCalculator r)) = length legs
    /\ length delays = S (length legs)
    /\ chainLightTime r
       = fold_left s_add
           (rev (legTerms (firstn start (lightTimeCalculators_ (chainCalculator r)))
                   (firstn start delays))
            ++ legTerms (skipn start (lightTimeCalculators_ (chainCalculator r)))
                 (skipn (S start) delays))
           (s_zero + delay)%sc.
Proof.
  intros this start0 H1 H32 H.
  destruct (new_MultiLegLightTimeCalculator_counts legs criteria H32) as (_ & Hends).
  fold this in Hends.
  unfold MultiLeg_calculateLightTimeWithLinkEndsStates, solveWithDelays in H.
  apply bind_Returned in H. destruct H as (l1 & delays & l2 & Hd & H & _).
  pose proof (currentRetransmissionDelays_log this ancillarySettings) as Hl1.
  rewrite Hd in Hl1. cbn [fst] in Hl1. subst l1.
  pose proof (currentRetransmissionDelays_size legs criteria ancillarySettings delays []
                H1 H32 Hd) as Hsize.
  apply bind_Returned in H. destruct H as (? & [] & ? & _ & H & _).
  set (start := uint32 (getNWayLinkIndexFromLinkEndType linkEnd (numberOfLinkEnds_ this)))
    in *.
  pose proof (uint32_bounds
                (getNWayLinkIndexFromLinkEndType linkEnd (numberOfLinkEnds_ this)))
    as Hstart.
  fold start in Hstart.
  unfold solveFromReference in H.
  apply bind_Returned in H. destruct H as (? & d & ? & Hds & H & _).
  apply bind_Returned in H. destruct H as (? & w1 & ? & Hback & H & _).
  apply bind_Returned in H. destruct H as (? & d' & ? & Hds' & H & _).
  apply bind_Returned in H. destruct H as (? & w2 & ? & Hfor & H & _).
  unfold ret in H. inversion H; subst r. clear H.
  pose proof (satisfies_Returned _ _ _ _ _ (satisfies_at _ _) Hds) as Hnth.
  cbv beta in Hnth.
  assert (Hs : (Z.to_nat start < length delays)%nat)
    by (apply nth_error_Some; congruence).
  unfold size in Hsize, H1, H32.
  exists delays, d. split; [exact Hd |]. split; [exact Hnth |].
  destruct (moveBackwards_total _ _ _ _ _ _ Hback)
    as (Hlen1 & _ & _ & _ & Htotal1).
  cbn [walkCalculators totalLightTime lightTimeCalculators_ this
         new_MultiLegLightTimeCalculator] in Hlen1, Htotal1.
  assert (Hrem : Z.to_nat (uint32 (numberOfLinkEnds_ this - 1) - start)
                 = (length legs - Z.to_nat start)%nat).
  { rewrite Hends. unfold uint32, size. rewrite Z.mod_small by lia. lia. }
  rewrite Hrem in Hfor.
  assert (Hbound : start + Z.of_nat (length legs - Z.to_nat start) < 2 ^ 32) by lia.
  destruct (moveForwards_total _ _ _ _ _ _ _ (proj1 Hstart) Hbound Hfor)
    as (Hlen2 & Hfirst & Htotal2).
  cbn [walkCalculators totalLightTime] in Hlen2, Hfirst, Htotal2.
  cbn [chainLightTime chainCalculator set_lightTimeCalculators lightTimeCalculators_].
  split; [congruence |]. split; [lia |].
  rewrite Htotal2, Htotal1, fold_left_app.
  rewrite (@firstn_all2 _ (length legs - Z.to_nat start)%nat
             (skipn (Z.to_nat start) (walkCalculators w2)))
    by (rewrite length_skipn; lia).
  rewrite (@firstn_all2 _ (length legs - Z.to_nat start)%nat
             (skipn (S (Z.to_nat start)) delays))
    by (rewrite length_skipn; lia).
  rewrite <- Hfirst. reflexivity.
Qed.

(** *** The reference link end *)

Lemma nth_error_repeat_Some {A : Type} (a x : A) (m n : nat) :
  nth_error (repeat a m) n = Some x -> x = a.
Proof.
  intros H. apply nth_error_In in H. apply repeat_spec in H. exact H.
Qed.

(** X19: the chain solver keeps the given time at the reference link end.
    In the outputs of a chain solve that returns, the time of the reception
    at the reference link end, by the leg before it, is the given time less
    the retransmission delay there, and the time of the transmission from it,
    by the leg after it, is the given time plus that delay.  The states
    written there are the state functions of those legs at these times: the
    chain hands each leg entries that hold a NaN, so no leg starts from an
    initial guess. *)
Theorem chain_keeps_the_time_at_the_reference_link_end
  (legs : list (LightTimeCalculator T)) (criteria : LightTimeConvergenceCriteria T)
  fuel time linkEnd ancillarySettings l r :
  let this := new_MultiLegLightTimeCalculator legs criteria in
  let start :=
    uint32 (getNWayLinkIndexFromLinkEndType linkEnd (numberOfLinkEnds_ this)) in
  s_isnan (s_nan : T) = true ->
  1 <= size legs -> 2 * size legs < 2 ^ 32 ->
  MultiLeg_calculateLightTimeWithLinkEndsStates fuel this time linkEnd ancillarySettings
  = (l, Returned r) ->
  exists delays delay,
    currentRetransmissionDelays this ancillarySettings = ret delays
    /\ nth_error delays (Z.to_nat start) = Some delay
    /\ (0 < start ->
        exists leg,
          nth_error legs (Z.to_nat (start - 1)) = Some leg
          /\ nth_error (linkEndsTimesOutput r) (Z.to_nat (2 * start - 1))
             = Some (time - delay)%sc
          /\ nth_error (linkEndsStatesOutput r) (Z.to_nat (2 * start - 1))
             = Some (stateFunctionOfReceivingBody_ leg (time - delay)%sc))
    /\ (start < size legs ->
        exists leg,
          nth_error legs (Z.to_nat start) = Some leg
          /\ nth_error (linkEndsTimesOutput r) (Z.to_nat (2 * start))
             = Some (time + delay)%sc
          /\ nth_error (linkEndsStatesOutput r) (Z.to_nat (2 * start))
             = Some (stateFunctionOfTransmittingBody_ leg (time + delay)%sc)).
Proof.
  intros this start Hnan H1 H32 H.
  assert (H32' : size legs + 1 < 2 ^ 32) by lia.
  destruct (new_MultiLegLightTimeCalculator_counts legs criteria H32') as (Hlinks & Hends).
  fold this in Hlinks, Hends.
  unfold MultiLeg_calculateLightTimeWithLinkEndsStates, solveWithDelays in H.
  apply bind_Returned in H. destruct H as (l1 & delays & l2 & Hd & H & _).
  pose proof (currentRetransmissionDelays_log this ancillarySettings) as Hl1.
  rewrite Hd in Hl1. cbn [fst] in Hl1. subst l1.
  pose proof (currentRetransmissionDelays_size legs criteria ancillarySettings delays []
                H1 H32' Hd) as Hsize.
  apply bind_Returned in H. destruct H as (? & [] & ? & _ & H & _).
  fold start in H.
  pose proof (uint32_bounds
                (getNWayLinkIndexFromLinkEndType linkEnd (numberOfLinkEnds_ this)))
    as Hstart.
  fold start in Hstart.
  unfold solveFromReference in H.
  apply bind_Returned in H. destruct H as (? & d & ? & Hds & H & _).
  apply bind_Returned in H. destruct H as (? & w1 & ? & Hback & H & _).
  apply bind_Returned in H. destruct H as (? & d' & ? & Hds' & H & _).
  apply bind_Returned in H. destruct H as (? & w2 & ? & Hfor & H & _).
  unfold ret in H. inversion H; subst r. clear H.
  cbn [linkEndsTimesOutput linkEndsStatesOutput].
  pose proof (satisfies_Returned _ _ _ _ _ (satisfies_at _ _) Hds) as Hnth.
  pose proof (satisfies_Returned _ _ _ _ _ (satisfies_at _ _) Hds') as Hnth'.
  cbv beta in Hnth, Hnth'.
  assert (d' = d) by congruence. subst d'. clear Hnth' Hds'.
  exists delays, d. split; [exact Hd |]. split; [exact Hnth |].
  assert (Hs : (Z.to_nat start < length delays)%nat)
    by (apply nth_error_Some; congruence).
  assert (HN : 0 <= size legs) by (unfold size; lia).
  assert (Hn : uint32 (2 * numberOfLinks_ this) = 2 * size legs).
  { rewrite Hlinks. unfold uint32. apply Z.mod_small. lia. }
  rewrite Hn in Hback.
  set (w0 := mkWalk (lightTimeCalculators_ this)
               (repeat (State_Constant s_nan) (Z.to_nat (2 * size legs)))
               (repeat s_nan (Z.to_nat (2 * size legs)))
               (s_zero + d)%sc (time - d)%sc) in Hback.
  assert (Hw0 : walkShape (2 * size legs) legs w0).
  { unfold walkShape, w0. cbn [walkLinkEndsStates walkLinkEndsTimes walkCalculators].
    rewrite !size_repeat by lia. auto using sameLegs_refl. }
  destruct (moveBackwards_frame fuel delays legs H32 _ _ _ _ Hw0 Hback)
    as (Hw1 & Hframe1).
  set (w1' := mkWalk (walkCalculators w1) (walkLinkEndsStates w1) (walkLinkEndsTimes w1)
                (totalLightTime w1) (time + d)%sc) in Hfor.
  assert (Hw1' : walkShape (2 * size legs) legs w1') by exact Hw1.
  assert (Hrem : Z.to_nat (uint32 (numberOfLinkEnds_ this - 1) - start)
                 = (length legs - Z.to_nat start)%nat).
  { rewrite Hends. unfold uint32, size. rewrite Z.mod_small by (unfold size in *; lia).
    lia. }
  rewrite Hrem in Hfor.
  unfold size in Hsize.
  assert (Hbound : start + Z.of_nat (length legs - Z.to_nat start) < 2 ^ 32)
    by (unfold size in *; lia).
  destruct (moveForwards_frame fuel delays legs H32 _ _ _ _ _ (proj1 Hstart) Hbound
              Hw1' Hfor) as (Hw2 & Hframe2).
  cbn [walkLinkEndsStates walkLinkEndsTimes w1'] in Hframe2.
  split.
  - intros Hpos.
    destruct (Z.to_nat start) as [| p] eqn:Ep; [lia |].
    destruct (moveBackwards_S_Returned _ _ _ _ _ _ Hback)
      as (c & r1 & dp & l' & Hc & _ & _ & Hrec & l0 & Hsolve).
    destruct (walk_leg_wellFormed legs w0 p c Hw0 H32 Hc) as (Hu & Hwf & _).
    rewrite Hu in Hsolve.
    pose proof (satisfies_Returned _ _ _ _ _ (satisfies_leg _ _ _ _ _ _ _) Hsolve)
      as (Hrs & Hrt & Hsame).
    destruct (moveBackwards_frame fuel delays legs H32 _ _ _ _
                (walkShape_after_leg legs _ w0 p c r1 _ _ Hw0 Hc Hrs Hrt Hsame) Hrec)
      as (_ & HframeA).
    cbn [walkLinkEndsStates walkLinkEndsTimes] in HframeA.
    destruct (calculateLightTimeWithMultiLegLinkEndsStates_outputs
                _ _ _ _ _ _ _ _ _ Hwf Hsolve)
      as (gx & gy & previous & Hx & Hy & _ & HtR & _ & HsR & _).
    apply nth_error_repeat_Some in Hx, Hy. subst gx gy.
    rewrite Hnan in HsR. cbn [negb andb] in HsR.
    cbn [currentLinkEndTime w0] in HtR, HsR.
    replace (Z.to_nat (2 * Z.of_nat p + 1)) with (2 * p + 1)%nat in HtR, HsR by lia.
    replace (Z.to_nat (2 * start - 1)) with (2 * p + 1)%nat by lia.
    replace (Z.to_nat (start - 1)) with p by lia.
    exists c. split; [exact Hc |].
    destruct (Hframe2 (2 * p + 1)%nat ltac:(lia)) as (Hs2 & Ht2).
    destruct (HframeA (2 * p + 1)%nat ltac:(lia)) as (HsA & HtA).
    split; congruence.
  - intros Hlast.
    destruct (length legs - Z.to_nat start)%nat as [| rem] eqn:Er;
      [unfold size in Hlast; lia |].
    assert (H1' : start + 1 < 2 ^ 32) by (unfold size in *; lia).
    destruct (moveForwards_S_Returned _ _ _ _ _ _ _ (proj1 Hstart) H1' Hfor)
      as (c & r2 & dn & l' & Hc & _ & _ & Hrec & l0 & Hsolve).
    destruct (walk_leg_wellFormed legs w1' (Z.to_nat start) c Hw1' H32 Hc)
      as (Hu & Hwf & c0 & Hc0 & Hsame0).
    rewrite Z2Nat.id in Hu, Hwf by lia.
    rewrite Hu in Hsolve.
    pose proof (satisfies_Returned _ _ _ _ _ (satisfies_leg _ _ _ _ _ _ _) Hsolve)
      as (Hrs & Hrt & Hsame).
    assert (H0' : 0 <= start + 1) by lia.
    assert (Hb' : start + 1 + Z.of_nat rem < 2 ^ 32) by (unfold size in *; lia).
    destruct (moveForwards_frame fuel delays legs H32 _ _ _ _ _ H0' Hb'
                (walkShape_after_leg legs _ w1' (Z.to_nat start) c r2 _ _
                   Hw1' Hc Hrs Hrt Hsame) Hrec)
      as (_ & HframeB).
    cbn [walkLinkEndsStates walkLinkEndsTimes] in HframeB.
    destruct (calculateLightTimeWithMultiLegLinkEndsStates_outputs
                _ _ _ _ _ _ _ _ _ Hwf Hsolve)
      as (gx & gy & previous & Hx & Hy & HtT & _ & HsT & _ & _).
    cbn [walkLinkEndsTimes w1'] in Hx, Hy.
    destruct (Hframe1 (Z.to_nat (2 * start)) ltac:(lia)) as (_ & Hx0).
    destruct (Hframe1 (Z.to_nat (2 * start + 1)) ltac:(lia)) as (_ & Hy0).
    rewrite Hx0 in Hx. rewrite Hy0 in Hy. cbn [walkLinkEndsTimes w0] in Hx, Hy.
    apply nth_error_repeat_Some in Hx, Hy. subst gx gy.
    rewrite Hnan in HsT. cbn [negb andb] in HsT.
    cbn [currentLinkEndTime w1'] in HtT, HsT.
    exists c0. split; [exact Hc0 |].
    destruct (HframeB (Z.to_nat (2 * start)) ltac:(lia)) as (HsB & HtB).
    destruct Hsame0 as (Htx & _).
    split; [congruence |]. rewrite HsB, HsT, Htx. reflexivity.
Qed.

End Properties.

(** * The statements at inputs *)

(** ** Binary64 numbers *)

Lemma double_nan_is_not_itself (x : float) : (x =? x)%sc = negb (s_isnan x).
Proof. simpl. unfold PrimFloat.is_nan. now rewrite negb_involutive. Qed.

(** No absolute value of a binary64 number is below zero. *)
Lemma double_fabs_not_below_zero (x : float) : (s_fabs x <? 0%float)%sc = false.
Proof.
  simpl. rewrite ltb_spec, abs_spec.
  destruct (Prim2SF x) as [s | s | | s m e]; reflexivity.
Qed.

Lemma noGuess_wellFormed : wellFormedArguments noGuessStates noGuessTimes 0.
Proof. repeat split; vm_compute; congruence. Qed.

(** ** The failure handling that prints a warning *)

(** C1: what the code does when the counter reaches the maximum with a
    change not below the tolerance and [print_warning_and_accept]: on a
    static link with a tolerance of zero and a maximum of two iterations, the
    pass with counter two prints the warning with the residual, the
    correction and the input time, and the solve does not return then, nor
    with any more fuel: the estimate is not accepted. *)
Theorem warning_is_printed_and_the_loop_goes_on (fuel : nat) :
  calculateLightTimeWithMultiLegLinkEndsStates (3 + fuel)
    (staticLink (zeroToleranceWarning false 2))
    noGuessStates noGuessTimes 10%float true 0
  = ([WarningLightTimeUnconverged 0%float 0%float 10%float], OutOfFuel).
Proof.
  rewrite (calculateLightTimeWithMultiLegLinkEndsStates_from_guess
             (3 + fuel) _ _ _ _ _ _ 10%float 10%float noGuess_wellFormed)
    by (vm_compute; reflexivity).
  change (3 + fuel)%nat with (S (S (S fuel))).
  erewrite whileNotToleranceReached_unroll;
    [| vm_compute; reflexivity | vm_compute; reflexivity].
  erewrite whileNotToleranceReached_unroll;
    [| vm_compute; reflexivity | vm_compute; reflexivity].
  erewrite whileNotToleranceReached_unroll;
    [| vm_compute; reflexivity | vm_compute; reflexivity].
  rewrite whileNotToleranceReached_warning_diverges_quietly.
  - reflexivity.
  - intros x. apply double_fabs_not_below_zero.
  - reflexivity.
  - reflexivity.
  - vm_compute. reflexivity.
Qed.

(** C2: what the code does with [print_warning_and_accept] when no change
    is below the tolerance: with a tolerance of zero the solve is still in
    its loop whatever the fuel, for every maximum number of iterations,
    state functions, corrections, input time and direction; it neither
    returns nor raises, so no function of the maximum bounds its passes. *)
Theorem warning_policy_solve_never_ends
  (stateFunctionOfTransmittingBody stateFunctionOfReceivingBody : float -> State float)
  (correctionFunctions : list (LightTimeCorrection float))
  (iterateCorrections : bool) (maximumNumberOfIterations : Z)
  (time : float) (isTimeAtReception : bool) (fuel : nat) :
  snd (calculateLightTimeWithMultiLegLinkEndsStates fuel
         (new_LightTimeCalculator stateFunctionOfTransmittingBody
            stateFunctionOfReceivingBody correctionFunctions
            (zeroToleranceWarning iterateCorrections maximumNumberOfIterations)
            PrimFloat.nan)
         noGuessStates noGuessTimes time isTimeAtReception 0)
  = OutOfFuel.
Proof.
  apply calculateLightTimeWithMultiLegLinkEndsStates_warning_diverges.
  - exact noGuess_wellFormed.
  - intros x. apply double_fabs_not_below_zero.
  - reflexivity.
Qed.

(** ** The initial guess *)

(** C4: what the code does with an initial guess.  The receiver moves; a
    first solve for the reception time 60 leaves the times 45 and 60 and the
    states there in the two vectors.  From vectors with no guess, the solve
    for the reception time 100 returns 25 with the receiver state at 100.
    From the vectors of the first solve, the same call returns 15, with the
    reception time 100 and, as the receiver state, the state at 60: the
    state of the link end whose time is given is never evaluated at that
    time. *)
Theorem initial_guess_changes_the_result :
  exists previous cold warm,
    calculateLightTimeWithMultiLegLinkEndsStates 10 recedingLink
      noGuessStates noGuessTimes 60%float true 0
    = ([LightTimePrinted 15%float], Returned previous)
    /\ legLinkEndsTimes previous = [45%float; 60%float]
    /\ calculateLightTimeWithMultiLegLinkEndsStates 10 (legCalculator previous)
         noGuessStates noGuessTimes 100%float true 0
       = ([LightTimePrinted 25%float], Returned cold)
    /\ calculateLightTimeWithMultiLegLinkEndsStates 10 (legCalculator previous)
         (legLinkEndsStates previous) (legLinkEndsTimes previous) 100%float true 0
       = ([LightTimePrinted 15%float], Returned warm)
    /\ legLightTime cold = 25%float
    /\ legLightTime warm = 15%float
    /\ legLinkEndsTimes cold = [75%float; 100%float]
    /\ legLinkEndsTimes warm = [85%float; 100%float]
    /\ legLinkEndsStates cold = [atOrigin; recedingReceiver 100%float]
    /\ legLinkEndsStates warm = [atOrigin; recedingReceiver 60%float].
Proof.
  do 3 eexists.
  split; [vm_compute; reflexivity |].
  split; [vm_compute; reflexivity |].
  split; [vm_compute; reflexivity |].
  split; [vm_compute; reflexivity |].
  split; [vm_compute; reflexivity |].
  split; [vm_compute; reflexivity |].
  split; [vm_compute; reflexivity |].
  split; [vm_compute; reflexivity |].
  split; vm_compute; reflexivity.
Qed.

(** ** The pass after the guard *)


(** ** The running total of the corrections *)


(** ** A static link that does not converge *)


(** ** The general statements at an input *)

(** Each general statement is applied at an input on which its hypotheses
    are evaluated. *)


Lemma retransmission_delays_are_normalised_witness :
  currentRetransmissionDelays (OM := indexedObservationModel) threeLinkEnds None
  = ret [0%float; 0%float; 0%float]
  /\ currentRetransmissionDelays (OM := indexedObservationModel) threeLinkEnds
       (Some [0.5%float])
     = ret [0%float; 0.5%float; 0%float]
  /\ MultiLeg_calculateLightTimeWithLinkEndsStates (OM := indexedObservationModel)
       5 threeLinkEnds 10%float 2 (Some [0.5%float; 1%float])
     = ([], Raised (ErrorInvalidRetransmissionDelaysSize 2 3)).
Proof.
  destruct (retransmission_delays_are_normalised (OM := indexedObservationModel)
              [staticLink default_LightTimeConvergenceCriteria;
               staticLink default_LightTimeConvergenceCriteria]
              default_LightTimeConvergenceCriteria)
    as (Hnone & Hsome & _).
  - vm_compute. congruence.
  - vm_compute. reflexivity.
  - split; [exact Hnone |]. split.
    + destruct (Hsome [0.5%float]) as (_ & Hpad & _). apply Hpad. reflexivity.
    + destruct (Hsome [0.5%float; 1%float]) as (_ & _ & _ & Htwo).
      apply Htwo; reflexivity.
Defined.

Lemma interior_reference_needs_zero_delay_witness :
  MultiLeg_calculateLightTimeWithLinkEndsStates (OM := indexedObservationModel)
    5 threeLinkEnds 10%float 1 (Some [0%float; 0.5%float; 0%float])
  = ([], Raised ErrorNonZeroDelayAtReferenceLinkEnd)
  /\ MultiLeg_calculateLightTimeWithLinkEndsStates (OM := indexedObservationModel)
       5 threeLinkEnds 10%float 1 (Some [0%float; 0%float; 0%float])
     = solveFromReference 5 threeLinkEnds 10%float [0%float; 0%float; 0%float] 1.
Proof.
  split.
  - destruct (interior_reference_needs_zero_delay (OM := indexedObservationModel)
                threeLinkEnds 5 10%float 1 (Some [0%float; 0.5%float; 0%float])
                [0%float; 0.5%float; 0%float] 0.5%float) as (Hraise & _).
    + reflexivity.
    + vm_compute. congruence.
    + vm_compute. congruence.
    + reflexivity.
    + apply Hraise. reflexivity.
  - destruct (interior_reference_needs_zero_delay (OM := indexedObservationModel)
                threeLinkEnds 5 10%float 1 (Some [0%float; 0%float; 0%float])
                [0%float; 0%float; 0%float] 0%float) as (_ & Hgo).
    + reflexivity.
    + vm_compute. congruence.
    + vm_compute. congruence.
    + reflexivity.
    + apply Hgo. reflexivity.
Defined.



Lemma getAbsoluteTolerance_explicit_or_default_witness :
  getAbsoluteTolerance (mkCriteria false 50 accept_without_warning 0.5%float)
  = ([], Returned (0.5%float, mkCriteria false 50 accept_without_warning 0.5%float))
  /\ getAbsoluteTolerance (T := float) default_LightTimeConvergenceCriteria
     = ([], Returned (getDefaultLightTimeTolerance, default_LightTimeConvergenceCriteria)).
Proof.
  split.
  - apply (getAbsoluteTolerance_explicit_or_default double_nan_is_not_itself
             (mkCriteria false 50 accept_without_warning 0.5%float)).
    reflexivity.
  - apply (getAbsoluteTolerance_explicit_or_default double_nan_is_not_itself
             default_LightTimeConvergenceCriteria).
    reflexivity.
Defined.

Lemma returned_light_time_is_cached_sum_witness :
  exists l r,
    calculateLightTimeWithMultiLegLinkEndsStates 5
      (staticLink default_LightTimeConvergenceCriteria)
      noGuessStates noGuessTimes 10%float true 0 = (l, Returned r)
    /\ legLightTime r =
       (getCurrentIdealLightTime (legCalculator r)
        + getCurrentLightTimeCorrection (legCalculator r))%sc.
Proof.
  eexists. eexists. split.
  - vm_compute. reflexivity.
  - eapply (returned_light_time_is_cached_sum 5
              (staticLink default_LightTimeConvergenceCriteria)
              noGuessStates noGuessTimes 10%float true 0).
    vm_compute. reflexivity.
Defined.

Lemma failure_handling_at_maximum_witness :
  exists l r,
    calculateLightTimeWithMultiLegLinkEndsStates 3
      (staticLink (mkCriteria false 2 accept_without_warning 0%float))
      noGuessStates noGuessTimes 10%float true 0
    = (l, Returned r)
    /\ legLightTime r = 1%float.
Proof.
  edestruct (failure_handling_at_maximum
               (staticLink (mkCriteria false 2 accept_without_warning 0%float))
               noGuessStates noGuessTimes 10%float true 0 10%float 10%float 2)
    as (l & Haccept & _).
  - exact noGuess_wellFormed.
  - vm_compute. reflexivity.
  - vm_compute. reflexivity.
  - reflexivity.
  - vm_compute. reflexivity.
  - destruct (Haccept eq_refl 0%nat) as (r & Hsolve & Hlight).
    do 2 eexists. split; [exact Hsolve |].
    rewrite Hlight. vm_compute. reflexivity.
Defined.

Lemma iterated_corrections_bound_the_passes_witness :
  0 <= 2
  /\ snd (calculateLightTimeWithMultiLegLinkEndsStates 3
            (staticLink (mkCriteria true 2 throw_exception 0%float))
            noGuessStates noGuessTimes 10%float true 0)
     <> OutOfFuel.
Proof.
  split; [lia |].
  apply (iterated_corrections_bound_the_passes
           (staticLink (mkCriteria true 2 throw_exception 0%float))
           noGuessStates noGuessTimes 10%float true 0).
  - exact noGuess_wellFormed.
  - reflexivity.
  - vm_compute. congruence.
  - discriminate.
Defined.

Lemma more_fuel_same_result_witness :
  exists l r,
    calculateLightTimeWithMultiLegLinkEndsStates 7
      (staticLink default_LightTimeConvergenceCriteria)
      noGuessStates noGuessTimes 10%float true 0
    = (l, Returned r).
Proof.
  do 2 eexists.
  eapply (more_fuel_same_result 5 7).
  - vm_compute. reflexivity.
  - discriminate.
  - lia.
Defined.

Lemma twoLink_wellFormed : wellFormedArguments twoLinkStates twoLinkTimes 2.
Proof. repeat split; vm_compute; congruence. Qed.

Lemma guessed_wellFormed : wellFormedArguments guessedStates guessedTimes 0.
Proof. repeat split; vm_compute; congruence. Qed.

Lemma solve_writes_its_two_entries_only_witness :
  exists l r,
    calculateLightTimeWithMultiLegLinkEndsStates 5
      (staticLink default_LightTimeConvergenceCriteria)
      twoLinkStates twoLinkTimes 10%float true 2 = (l, Returned r)
    /\ size (legLinkEndsTimes r) = size twoLinkTimes
    /\ nth_error (legLinkEndsTimes r) 1 = nth_error twoLinkTimes 1.
Proof.
  eexists. eexists. split; [vm_compute; reflexivity |].
  edestruct (solve_writes_its_two_entries_only 5
               (staticLink default_LightTimeConvergenceCriteria)
               twoLinkStates twoLinkTimes 10%float true 2)
    as (_ & Hsize & Hother & _).
  - exact twoLink_wellFormed.
  - vm_compute. reflexivity.
  - split; [exact Hsize |].
    apply (Hother 1%nat); vm_compute; congruence.
Defined.

Lemma solved_end_is_on_its_state_function_witness :
  exists l r sT sR tT tR,
    calculateLightTimeWithMultiLegLinkEndsStates 10 recedingLink
      guessedStates guessedTimes 100%float true 0 = (l, Returned r)
    /\ nth_error (legLinkEndsStates r) (Z.to_nat 0) = Some sT
    /\ nth_error (legLinkEndsStates r) (Z.to_nat (0 + 1)) = Some sR
    /\ nth_error (legLinkEndsTimes r) (Z.to_nat 0) = Some tT
    /\ nth_error (legLinkEndsTimes r) (Z.to_nat (0 + 1)) = Some tR
    /\ getCurrentIdealLightTime (legCalculator r)
       = (norm (segment_0_3 (state_sub sR sT)) / getSpeedOfLight)%sc
    /\ tR = 100%float
    /\ sT = stateFunctionOfTransmittingBody_ recedingLink tT.
Proof.
  edestruct (solved_end_is_on_its_state_function 10 recedingLink
               guessedStates guessedTimes 100%float true 0)
    as (sT & sR & tT & tR & H1 & H2 & H3 & H4 & H5 & H6 & H7).
  - exact guessed_wellFormed.
  - vm_compute. reflexivity.
  - do 2 eexists. exists sT, sR, tT, tR.
    split; [vm_compute; reflexivity |]. auto 10.
Defined.

Lemma known_end_state_is_at_the_guess_witness :
  exists l r,
    calculateLightTimeWithMultiLegLinkEndsStates 10 recedingLink
      guessedStates guessedTimes 100%float true 0 = (l, Returned r)
    /\ nth_error (legLinkEndsStates r) 1 = Some (recedingReceiver 60%float).
Proof.
  do 2 eexists. split; [vm_compute; reflexivity |].
  edestruct (known_end_state_is_at_the_guess 10 recedingLink
               guessedStates guessedTimes 100%float true 0)
    as (x & y & Hx & Hy & H).
  - exact guessed_wellFormed.
  - vm_compute. reflexivity.
  - vm_compute in Hx, Hy. inversion Hx; inversion Hy; subst x y.
    exact H.
Defined.


Lemma link_end_states_are_at_the_link_end_times_witness :
  exists l lt this' sR sT,
    calculateLightTimeWithLinkEndsStates 10 recedingLink 100%float true
    = (l, Returned (lt, this', sR, sT))
    /\ (exists t, sR = recedingReceiver 100%float
                  /\ sT = stateFunctionOfTransmittingBody_ recedingLink t)
    /\ lt = (getCurrentIdealLightTime this' + getCurrentLightTimeCorrection this')%sc.
Proof.
  do 5 eexists. split; [vm_compute; reflexivity |].
  edestruct (link_end_states_are_at_the_link_end_times 10 recedingLink 100%float true)
    as ((t & HR & HT) & _ & Hlt).
  - reflexivity.
  - vm_compute. reflexivity.
  - split; [exists t; split; [exact HR | exact HT] | exact Hlt].
Defined.

Lemma relative_range_vector_spans_the_ideal_light_time_witness :
  exists l range this',
    calculateRelativeRangeVector 10 recedingLink 100%float true
    = (l, Returned (range, this'))
    /\ (norm range / getSpeedOfLight)%sc = getCurrentIdealLightTime this'.
Proof.
  do 3 eexists. split; [vm_compute; reflexivity |].
  eapply (relative_range_vector_spans_the_ideal_light_time 10 recedingLink 100%float true).
  vm_compute. reflexivity.
Defined.

Lemma chain_solve_keeps_its_shape_witness :
  exists l r,
    MultiLeg_calculateLightTimeWithLinkEndsStates (OM := indexedObservationModel)
      5 threeLinkEnds 10%float 1 None = (l, Returned r)
    /\ size (linkEndsTimesOutput r) = 4
    /\ size (lightTimeCalculators_ (chainCalculator r)) = 2.
Proof.
  do 2 eexists. split; [vm_compute; reflexivity |].
  edestruct (chain_solve_keeps_its_shape (OM := indexedObservationModel)
               5 threeLinkEnds 10%float 1 None)
    as (Ht & _ & Hlegs & _).
  - vm_compute. reflexivity.
  - split; [exact Ht | exact Hlegs].
Defined.

Lemma chain_errors_come_from_its_legs_witness :
  exists l e,
    MultiLeg_calculateLightTimeWithLinkEndsStates (OM := indexedObservationModel)
      5 throwingChain 10%float 1 None = (l, Raised e)
    /\ e <> ErrorInconsistentLinkEndVectors.
Proof.
  do 2 eexists. split; [vm_compute; reflexivity |].
  eapply (chain_errors_come_from_its_legs (OM := indexedObservationModel)
            [staticLink (mkCriteria false 0 throw_exception 0%float)]
            default_LightTimeConvergenceCriteria 5 10%float 1 None).
  - vm_compute. reflexivity.
  - vm_compute. reflexivity.
Defined.

Lemma reference_beyond_the_chain_raises_witness :
  1 <= 2
  /\ MultiLeg_calculateLightTimeWithLinkEndsStates (OM := indexedObservationModel)
       5 threeLinkEnds 10%float 5 None
     = raise ErrorOutOfRange.
Proof.
  split; [lia |].
  apply (reference_beyond_the_chain_raises (OM := indexedObservationModel)
           [staticLink default_LightTimeConvergenceCriteria;
            staticLink default_LightTimeConvergenceCriteria]
           default_LightTimeConvergenceCriteria 5 10%float 5 None
           [0%float; 0%float; 0%float]).
  - vm_compute. congruence.
  - vm_compute. reflexivity.
  - reflexivity.
  - vm_compute. reflexivity.
Defined.

Lemma solve_prints_at_most_one_warning_witness :
  Z.of_nat 7 < 2 ^ 31
  /\ (length (warnings (fst (calculateLightTimeWithMultiLegLinkEndsStates 7
                               (staticLink (zeroToleranceWarning false 2))
                               noGuessStates noGuessTimes 10%float true 0)))
      <= 1)%nat.
Proof.
  split; [vm_compute; reflexivity |].
  edestruct (solve_prints_at_most_one_warning 7
               (staticLink (zeroToleranceWarning false 2))
               noGuessStates noGuessTimes 10%float true 0) as (Hone & _).
  - vm_compute. reflexivity.
  - exact Hone.
Defined.


Lemma chain_total_is_the_running_total_witness :
  exists l r,
    MultiLeg_calculateLightTimeWithLinkEndsStates (OM := indexedObservationModel)
      5 threeLinkEnds 10%float 1 (Some [0.5%float; 0%float; 0.25%float])
    = (l, Returned r)
    /\ chainLightTime r
       = fold_left s_add
           (rev (legTerms (firstn 1 (lightTimeCalculators_ (chainCalculator r)))
                   [0.5%float])
            ++ legTerms (skipn 1 (lightTimeCalculators_ (chainCalculator r)))
                 [0.25%float])
           (0 + 0)%float
    /\ chainLightTime r = 2.75%float.
Proof.
  do 2 eexists. split; [vm_compute; reflexivity |].
  edestruct (chain_total_is_the_running_total (OM := indexedObservationModel)
               [staticLink default_LightTimeConvergenceCriteria;
                staticLink default_LightTimeConvergenceCriteria]
               default_LightTimeConvergenceCriteria 5 10%float 1
               (Some [0.5%float; 0%float; 0.25%float]))
    as (delays & delay & Hd & Hdelay & _ & _ & Htotal).
  - vm_compute. congruence.
  - vm_compute. reflexivity.
  - vm_compute. reflexivity.
  - inversion Hd; subst delays.
    change (Z.to_nat (uint32 _)) with 1%nat in Hdelay, Htotal.
    cbn [nth_error] in Hdelay. inversion Hdelay; subst delay.
    split; [exact Htotal | vm_compute; reflexivity].
Defined.

Lemma chain_keeps_the_time_at_the_reference_link_end_witness :
  exists l r,
    MultiLeg_calculateLightTimeWithLinkEndsStates (OM := indexedObservationModel)
      5 threeLinkEnds 10%float 1 None = (l, Returned r)
    /\ nth_error (linkEndsTimesOutput r) 1 = Some (10 - 0)%float
    /\ nth_error (linkEndsTimesOutput r) 2 = Some (10 + 0)%float.
Proof.
  do 2 eexists. split; [vm_compute; reflexivity |].
  edestruct (chain_keeps_the_time_at_the_reference_link_end
               (OM := indexedObservationModel)
               [staticLink default_LightTimeConvergenceCriteria;
                staticLink default_LightTimeConvergenceCriteria]
               default_LightTimeConvergenceCriteria 5 10%float 1 None)
    as (delays & delay & Hd & Hdelay & Hbefore & Hafter).
  - reflexivity.
  - vm_compute. congruence.
  - vm_compute. reflexivity.
  - vm_compute. reflexivity.
  - inversion Hd; subst delays. vm_compute in Hdelay. inversion Hdelay; subst delay.
    destruct Hbefore as (leg1 & _ & Ht1 & _); [vm_compute; reflexivity |].
    destruct Hafter as (leg2 & _ & Ht2 & _); [vm_compute; reflexivity |].
    split; [exact Ht1 | exact Ht2].
Defined.

Lemma entry_points_raise_only_the_convergence_error_witness :
  exists l e,
    calculateLightTime 5 (staticLink (mkCriteria false 0 throw_exception 0%float))
      10%float true = (l, Raised e)
    /\ exists residual correction time',
         e = ErrorLightTimeUnconverged residual correction time'.
Proof.
  do 2 eexists. split; [vm_compute; reflexivity |].
  eapply (entry_points_raise_only_the_convergence_error 5
            (staticLink (mkCriteria false 0 throw_exception 0%float)) 10%float true).
  left. vm_compute. reflexivity.
Defined.
